(** * Stock-market tool server: a shallow embedding of [src/mcp/server.py]
    and [src/mcp/utils.py], with the properties of its tools.

    The tools are thin orchestration code around three external
    collaborators: the data provider (yfinance), the indicator library
    (pandas_ta) and the serializers (json.dumps, DataFrame.to_markdown).
    The collaborators are records of oracles; the repository's own code is
    written over them in a small monad that carries what the Python code
    carries: a trace of provider calls and log records, and exceptions. *)

From Stdlib Require Import String Ascii Bool Arith ZArith QArith Lia List.
From Stdlib Require Import DecimalString.
Import ListNotations.

Local Set Warnings "-register-all".
Local Open Scope string_scope.
Local Open Scope list_scope.

(* ===================================================================== *)
(** * Python values *)
(* ===================================================================== *)

(** Keys of a Python dict and labels of a pandas axis.  A [Timestamp] label
    is carried by its ISO rendering, which is what [str] returns for it. *)
Inductive pykey : Type :=
| KStr (s : string)
| KInt (n : Z)
| KTimestamp (iso : string).

(** The values that flow through the tools: JSON-like provider payloads and
    DataFrame cells.  Finite floats are rationals (only comparisons are made
    on them); [VNaN] is the missing float. A dict is an association list in
    insertion order, as Python dicts are. *)
Inductive pyval : Type :=
| VNone
| VBool (b : bool)
| VInt (n : Z)
| VFloat (q : Q)
| VNaN
| VStr (s : string)
| VList (items : list pyval)
| VDict (entries : list (pykey * pyval)).

Definition pydict : Type := list (pykey * pyval).

Definition pykey_eqb (a b : pykey) : bool :=
  match a, b with
  | KStr s, KStr t => String.eqb s t
  | KInt n, KInt m => Z.eqb n m
  | KTimestamp s, KTimestamp t => String.eqb s t
  | _, _ => false
  end.

(** [str(k)] for a key. *)
Definition py_str_key (k : pykey) : string :=
  match k with
  | KStr s => s
  | KInt n => NilZero.string_of_int (Z.to_int n)
  | KTimestamp iso => iso
  end.

Definition is_str_key (k : pykey) : bool :=
  match k with KStr _ => true | _ => false end.

(** Truth value of a Python object, as [if x:] and [not x] test it. *)
Definition py_truthy (v : pyval) : bool :=
  match v with
  | VNone => false
  | VBool b => b
  | VInt n => negb (Z.eqb n 0)
  | VFloat q => negb (Qeq_bool q 0)
  | VNaN => true
  | VStr s => negb (String.eqb s EmptyString)
  | VList l => match l with [] => false | _ => true end
  | VDict d => match d with [] => false | _ => true end
  end.

(** ** Dicts: lookup, and assignment that keeps the position of a key
    already present. *)

Fixpoint dict_get (k : pykey) (d : pydict) : option pyval :=
  match d with
  | [] => None
  | (k', v) :: rest => if pykey_eqb k k' then Some v else dict_get k rest
  end.

Fixpoint dict_set (k : pykey) (v : pyval) (d : pydict) : pydict :=
  match d with
  | [] => [(k, v)]
  | (k', v') :: rest =>
      if pykey_eqb k k' then (k', v) :: rest else (k', v') :: dict_set k v rest
  end.

(** [d.update(items)]: the items are assigned left to right. *)
Definition dict_update (d : pydict) (items : list (pykey * pyval)) : pydict :=
  fold_left (fun acc kv => dict_set (fst kv) (snd kv) acc) items d.

(** A dict display or comprehension: the items are inserted left to right. *)
Definition dict_of_items (items : list (pykey * pyval)) : pydict :=
  dict_update [] items.

Definition dict_keys (d : pydict) : list pykey := map fst d.

(** [d.get(k)]: the value, or [None] when the key is absent. *)
Definition dict_get_or_none (k : pykey) (d : pydict) : pyval :=
  match dict_get k d with Some v => v | None => VNone end.

(** [d.get(k, default)]. *)
Definition dict_get_default (k : pykey) (dflt : pyval) (d : pydict) : pyval :=
  match dict_get k d with Some v => v | None => dflt end.

(* ===================================================================== *)
(** * Exceptions *)
(* ===================================================================== *)

(** A raised exception: its class name and [str(e)]. *)
Inductive exn : Type := Exn (kind : string) (message : string).

Definition exn_kind (e : exn) : string := match e with Exn k _ => k end.
Definition exn_str (e : exn) : string := match e with Exn _ m => m end.

Inductive result (A : Type) : Type :=
| Ok (a : A)
| Raise (e : exn).
Arguments Ok {A} a.
Arguments Raise {A} e.

(* ===================================================================== *)
(** * pandas: Series and DataFrame *)
(* ===================================================================== *)

(** A Series is a labelled column; a DataFrame is a row index and named
    columns, each holding one cell per row. *)
Record Series : Type := mkSeries {
  s_index : list pykey;
  s_values : list pyval
}.

Record DataFrame : Type := mkFrame {
  df_index : list pykey;
  df_columns : list (pykey * list pyval)
}.

Definition df_nrows (df : DataFrame) : nat := length (df_index df).
Definition df_names (df : DataFrame) : list pykey := map fst (df_columns df).

(** [df.empty]: an axis of length 0. *)
Definition df_empty (df : DataFrame) : bool :=
  (df_nrows df =? 0)%nat || (length (df_columns df) =? 0)%nat.

Fixpoint column_lookup (name : pykey) (cols : list (pykey * list pyval))
  : option (list pyval) :=
  match cols with
  | [] => None
  | (n, c) :: rest => if pykey_eqb name n then Some c else column_lookup name rest
  end.

Definition df_column (name : pykey) (df : DataFrame) : option (list pyval) :=
  column_lookup name (df_columns df).

(** [df[name]]: the column as a Series over the frame's index; [KeyError]
    when there is no such column. *)
Definition df_getitem (name : pykey) (df : DataFrame) : result Series :=
  match df_column name df with
  | Some c => Ok (mkSeries (df_index df) c)
  | None => Raise (Exn "KeyError" (py_str_key name))
  end.

Fixpoint column_assign (name : pykey) (c : list pyval)
  (cols : list (pykey * list pyval)) : list (pykey * list pyval) :=
  match cols with
  | [] => [(name, c)]
  | (n, c') :: rest =>
      if pykey_eqb name n then (n, c) :: rest
      else (n, c') :: column_assign name c rest
  end.

Fixpoint index_eqb (a b : list pykey) : bool :=
  match a, b with
  | [], [] => true
  | x :: a', y :: b' => pykey_eqb x y && index_eqb a' b'
  | _, _ => false
  end.

Fixpoint key_mem (k : pykey) (ks : list pykey) : bool :=
  match ks with
  | [] => false
  | k' :: rest => pykey_eqb k k' || key_mem k rest
  end.

Fixpoint has_duplicates (ks : list pykey) : bool :=
  match ks with
  | [] => false
  | k :: rest => key_mem k rest || has_duplicates rest
  end.

(** The value a Series holds at a label, [NaN] when the label is absent. *)
Fixpoint series_at (k : pykey) (idx : list pykey) (vals : list pyval) : pyval :=
  match idx, vals with
  | k' :: idx', v :: vals' => if pykey_eqb k k' then v else series_at k idx' vals'
  | _, _ => VNaN
  end.

(** [df[name] = value] for the two kinds of value the tools assign:
    [None], which fills the column with [None], and a Series, which is
    aligned on the frame's index (taken as it is when the indexes are equal,
    reindexed otherwise, which pandas refuses on duplicate labels). *)
Definition df_setitem (name : pykey) (value : option Series) (df : DataFrame)
  : result DataFrame :=
  match value with
  | None =>
      Ok (mkFrame (df_index df)
            (column_assign name (repeat VNone (df_nrows df)) (df_columns df)))
  | Some s =>
      if index_eqb (s_index s) (df_index df) then
        Ok (mkFrame (df_index df) (column_assign name (s_values s) (df_columns df)))
      else if has_duplicates (s_index s) then
        Raise (Exn "ValueError" "cannot reindex on an axis with duplicate labels")
      else
        Ok (mkFrame (df_index df)
              (column_assign name
                 (map (fun k => series_at k (s_index s) (s_values s)) (df_index df))
                 (df_columns df)))
  end.

(** ** [df.join(other)]: left join on the index *)

(** Rows of an index that carry a label, counted from [j]. *)
Fixpoint positions_from (j : nat) (k : pykey) (idx : list pykey) : list nat :=
  match idx with
  | [] => []
  | k' :: rest =>
      if pykey_eqb k k' then j :: positions_from (S j) k rest
      else positions_from (S j) k rest
  end.

Definition positions (k : pykey) (idx : list pykey) : list nat :=
  positions_from 0 k idx.

(** One output row of the join: the label, the row of the left frame it
    comes from and the matching row of the right frame, if any. *)
Record join_row : Type := mkJoinRow {
  jr_label : pykey;
  jr_left : nat;
  jr_right : option nat
}.

Definition join_rows_for (i : nat) (k : pykey) (ridx : list pykey) : list join_row :=
  match positions k ridx with
  | [] => [mkJoinRow k i None]
  | js => map (fun j => mkJoinRow k i (Some j)) js
  end.

(** The rows of the left frame in their order, each once per matching row
    of the right frame (once, unmatched, when there is none). *)
Fixpoint join_plan_from (i : nat) (lidx ridx : list pykey) : list join_row :=
  match lidx with
  | [] => []
  | k :: rest => join_rows_for i k ridx ++ join_plan_from (S i) rest ridx
  end.

Definition join_plan (lidx ridx : list pykey) : list join_row :=
  join_plan_from 0 lidx ridx.

Definition take_left (plan : list join_row) (c : list pyval) : list pyval :=
  map (fun r => nth (jr_left r) c VNaN) plan.

Definition take_right (plan : list join_row) (c : list pyval) : list pyval :=
  map (fun r => match jr_right r with
                | Some j => nth j c VNaN
                | None => VNaN
                end) plan.

Definition names_overlap (a b : list pykey) : bool :=
  existsb (fun k => key_mem k b) a.

Definition df_join (l r : DataFrame) : result DataFrame :=
  if names_overlap (df_names l) (df_names r) then
    Raise (Exn "ValueError" "columns overlap but no suffix specified")
  else
    let plan := join_plan (df_index l) (df_index r) in
    Ok (mkFrame (map jr_label plan)
          (map (fun c => (fst c, take_left plan (snd c))) (df_columns l)
           ++ map (fun c => (fst c, take_right plan (snd c))) (df_columns r))).

(** [df.tail(n)]: the last [n] rows. *)
Definition last_n {A : Type} (n : nat) (l : list A) : list A :=
  skipn (length l - n) l.

Definition df_tail (n : nat) (df : DataFrame) : DataFrame :=
  mkFrame (last_n n (df_index df))
          (map (fun c => (fst c, last_n n (snd c))) (df_columns df)).

(** ** [series.rolling(window, min_periods).min()] and [.max()] *)

Definition cell_number (v : pyval) : option Q :=
  match v with
  | VFloat q => Some q
  | VInt n => Some (inject_Z n)
  | _ => None
  end.

(** The cells of the trailing window of row [i]: rows [i + 1 - w] to [i]. *)
Definition window {A : Type} (w i : nat) (xs : list A) : list A :=
  firstn (Nat.min w (S i)) (skipn (S i - w) xs).

(** The observations of a window: its cells that hold a number. *)
Fixpoint observations (cells : list pyval) : list Q :=
  match cells with
  | [] => []
  | v :: rest =>
      match cell_number v with
      | Some q => q :: observations rest
      | None => observations rest
      end
  end.

Definition qmin (a b : Q) : Q := if Qle_bool a b then a else b.
Definition qmax (a b : Q) : Q := if Qle_bool a b then b else a.

Definition aggregate (pick : Q -> Q -> Q) (obs : list Q) : pyval :=
  match obs with
  | [] => VNaN
  | x :: rest => VFloat (fold_left pick rest x)
  end.

(** A row gets the aggregate of its window's observations when there are at
    least [min_periods] of them, and [NaN] otherwise. *)
Definition rolling_cell (w min_periods : nat) (pick : Q -> Q -> Q)
  (cells : list pyval) (i : nat) : pyval :=
  let obs := observations (window w i cells) in
  if (min_periods <=? length obs)%nat then aggregate pick obs else VNaN.

Definition rolling (w min_periods : nat) (pick : Q -> Q -> Q) (s : Series) : Series :=
  mkSeries (s_index s)
    (map (rolling_cell w min_periods pick (s_values s))
         (seq 0 (length (s_values s)))).

Definition rolling_min (w min_periods : nat) : Series -> Series :=
  rolling w min_periods qmin.
Definition rolling_max (w min_periods : nat) : Series -> Series :=
  rolling w min_periods qmax.

(* ===================================================================== *)
(** * The trace and the effect monad *)
(* ===================================================================== *)

(** A call on the data provider, made where the source makes it. *)
Inductive request : Type :=
| ReqSearch (query : string) (max_results : option nat)
| ReqSearchAll
| ReqSearchQuotes
| ReqSearchNews
| ReqHistory (symbol period interval : string)
| ReqInfo (symbol : string)
| ReqNews (symbol : string)
| ReqBalanceSheet (symbol : string)
| ReqCashflow (symbol : string)
| ReqQuarterlyIncomeStmt (symbol : string)
| ReqAnalystPriceTargets (symbol : string)
| ReqFinancials (symbol : string)
| ReqRecommendations (symbol : string).

Inductive level : Type := INFO | WARNING.

(** The log records of [server.py], one constructor per message with the
    values its f-string interpolates. *)
Inductive message : Type :=
| MsgFetchingNews (symbol : string)
| MsgNoNews (symbol : string)
| MsgRetrievedNews (symbol : string) (count : nat) (simplified : list pyval)
| MsgNoPriceHistory (symbol : string)
| MsgMacdNotCalculated (symbol : string)
| MsgBollingerNotCalculated (symbol : string)
| MsgRetrievedPriceHistory (symbol period interval : string)
| MsgSearchResults (query search_type : string) (found : pyval)
| MsgNoInfo (symbol : string)
| MsgFoundCorrectSymbol (symbol : string)
| MsgCouldNotFetch (what symbol : string) (e : exn)
| MsgRetrievedStockInfo (symbol response : string)
| MsgNoRecommendations (symbol : string)
| MsgRetrievedRecommendations (symbol : string) (recs : DataFrame).

Inductive event : Type :=
| Fetch (r : request)
| Log (lvl : level) (m : message).

(** A computation: the events it emitted, in order, and how it ended. *)
Definition M (A : Type) : Type := (list event * result A)%type.

Definition ret {A : Type} (a : A) : M A := ([], Ok a).

Definition bind {A B : Type} (m : M A) (f : A -> M B) : M B :=
  match snd m with
  | Ok a => (fst m ++ fst (f a), snd (f a))
  | Raise e => (fst m, Raise e)
  end.

Definition raise {A : Type} (e : exn) : M A := ([], Raise e).
Definition lift {A : Type} (r : result A) : M A := ([], r).
Definition emit (ev : event) : M unit := ([ev], Ok tt).
Definition log (lvl : level) (m : message) : M unit := emit (Log lvl m).

(** A provider call: recorded in the trace, then answered or failed. *)
Definition fetch {A : Type} (r : request) (answer : result A) : M A :=
  ([Fetch r], answer).

(** [try: body except Exception as e: handler]. *)
Definition try_except {A : Type} (body : M A) (handler : exn -> M A) : M A :=
  match snd body with
  | Ok a => body
  | Raise e => (fst body ++ fst (handler e), snd (handler e))
  end.

Declare Scope py_scope.
Delimit Scope py_scope with py.
Notation "x <- m ;; k" := (bind m (fun x => k))
  (at level 100, m at next level, right associativity) : py_scope.
Notation "m ;;; k" := (bind m (fun _ => k))
  (at level 100, right associativity) : py_scope.
Local Open Scope py_scope.

Definition trace {A : Type} (m : M A) : list event := fst m.
Definition outcome {A : Type} (m : M A) : result A := snd m.

(* ===================================================================== *)
(** * The external collaborators *)
(* ===================================================================== *)

(** One price bar of [Ticker.history], as the provider returns it with its
    defaults: rows with missing prices are dropped before they reach the
    caller, so every bar has its numbers. *)
Record bar : Type := mkBar {
  bar_time : string;
  bar_open : Q;
  bar_high : Q;
  bar_low : Q;
  bar_close : Q;
  bar_volume : Z
}.

(** The object [yf.Search(query)] builds; its three result accessors. *)
Record SearchResult : Type := mkSearch {
  search_all : pyval;
  search_quotes : list pyval;
  search_news : list pyval
}.

(** The world a tool runs in. Each oracle answers a call or raises. *)
Record World : Type := mkWorld {
  (* yfinance *)
  yf_search : string -> option nat -> result SearchResult;
  yf_history : string -> string -> string -> result (list bar);
  yf_info : string -> result pydict;
  yf_news : string -> result (list pyval);
  yf_balance_sheet : string -> result (option DataFrame);
  yf_cashflow : string -> result (option DataFrame);
  yf_quarterly_income_stmt : string -> result (option DataFrame);
  yf_analyst_price_targets : string -> result pyval;
  yf_financials : string -> result (option DataFrame);
  yf_recommendations : string -> result (option DataFrame);
  (* pandas_ta: [None] when the indicator cannot be computed *)
  ta_rsi : Series -> result (option Series);
  ta_macd : Series -> result (option DataFrame);
  ta_bbands : Series -> result (option DataFrame);
  (* serializers *)
  json_dumps : option nat -> pyval -> result string;
  to_markdown : DataFrame -> result string
}.

(** What a tool hands to its serializer, or the plain message it returns. *)
Inductive reply : Type :=
| Message (text : string)
| JsonOf (indent : option nat) (v : pyval)
| MarkdownOf (df : DataFrame).

Definition render (w : World) (r : reply) : M string :=
  match r with
  | Message text => ret text
  | JsonOf indent v => lift (json_dumps w indent v)
  | MarkdownOf df => lift (to_markdown w df)
  end.

(* ===================================================================== *)
(** * [get_price_history] *)
(* ===================================================================== *)

(** The frame [Ticker.history] returns for a list of bars. *)
Definition history_frame (bars : list bar) : DataFrame :=
  mkFrame (map (fun b => KTimestamp (bar_time b)) bars)
    [ (KStr "Open", map (fun b => VFloat (bar_open b)) bars);
      (KStr "High", map (fun b => VFloat (bar_high b)) bars);
      (KStr "Low", map (fun b => VFloat (bar_low b)) bars);
      (KStr "Close", map (fun b => VFloat (bar_close b)) bars);
      (KStr "Volume", map (fun b => VInt (bar_volume b)) bars) ].

(** The body of [get_price_history] after the emptiness test, up to the
    table it serializes. *)
Definition add_indicators (w : World) (symbol : string) (df : DataFrame)
  : M DataFrame :=
  close <- lift (df_getitem (KStr "Close") df) ;;
  rsi <- lift (ta_rsi w close) ;;
  df <- lift (df_setitem (KStr "RSI") rsi df) ;;
  close <- lift (df_getitem (KStr "Close") df) ;;
  macd <- lift (ta_macd w close) ;;
  df <- match macd with
        | Some m => lift (df_join df m)
        | None => log WARNING (MsgMacdNotCalculated symbol) ;;; ret df
        end ;;
  close <- lift (df_getitem (KStr "Close") df) ;;
  bb <- lift (ta_bbands w close) ;;
  df <- match bb with
        | Some b => lift (df_join df b)
        | None => log WARNING (MsgBollingerNotCalculated symbol) ;;; ret df
        end ;;
  close <- lift (df_getitem (KStr "Close") df) ;;
  df <- lift (df_setitem (KStr "Support") (Some (rolling_min 20 1 close)) df) ;;
  close <- lift (df_getitem (KStr "Close") df) ;;
  df <- lift (df_setitem (KStr "Resistance") (Some (rolling_max 20 1 close)) df) ;;
  ret df.

Definition get_price_history_table (w : World) (symbol period interval : string)
  : M reply :=
  bars <- fetch (ReqHistory symbol period interval)
                (yf_history w symbol period interval) ;;
  let df := history_frame bars in
  if df_empty df then
    log INFO (MsgNoPriceHistory symbol) ;;;
    ret (Message "No data available.")
  else
    df <- add_indicators w symbol df ;;
    ret (MarkdownOf df).

Definition get_price_history (w : World) (symbol period interval : string)
  : M string :=
  r <- get_price_history_table w symbol period interval ;;
  match r with
  | MarkdownOf df =>
      response <- lift (to_markdown w df) ;;
      log INFO (MsgRetrievedPriceHistory symbol period interval) ;;;
      ret response
  | other => render w other
  end.

(* ===================================================================== *)
(** * [df_to_dict_str_keys] ([utils.py]) *)
(* ===================================================================== *)

(** [DataFrame.to_dict()]: column label to (row label to cell). *)
Definition to_dict (df : DataFrame) : pyval :=
  VDict (dict_of_items
           (map (fun c => (fst c, VDict (dict_of_items (combine (df_index df) (snd c)))))
                (df_columns df))).

Definition py_type_name (v : pyval) : string :=
  match v with
  | VNone => "NoneType"
  | VBool _ => "bool"
  | VInt _ => "int"
  | VFloat _ => "float"
  | VNaN => "float"
  | VStr _ => "str"
  | VList _ => "list"
  | VDict _ => "dict"
  end.

Definition attribute_error (v : pyval) (attr : string) : exn :=
  Exn "AttributeError"
      ("'" ++ py_type_name v ++ "' object has no attribute '" ++ attr ++ "'").

(** [{str(kk): vv for kk, vv in v.items()}] *)
Definition str_keys_inner (v : pyval) : result pyval :=
  match v with
  | VDict items =>
      Ok (VDict (dict_of_items
                   (map (fun kv => (KStr (py_str_key (fst kv)), snd kv)) items)))
  | other => Raise (attribute_error other "items")
  end.

(** [{str(k): ... for k, v in d.items()}], the entries taken in order. *)
Fixpoint str_keys_outer (items : pydict) (acc : pydict) : result pydict :=
  match items with
  | [] => Ok acc
  | (k, v) :: rest =>
      match str_keys_inner v with
      | Ok v' => str_keys_outer rest (dict_set (KStr (py_str_key k)) v' acc)
      | Raise e => Raise e
      end
  end.

Definition df_to_dict_str_keys (df : option DataFrame) : result pyval :=
  match df with
  | None => Ok VNone
  | Some f =>
      let d := to_dict f in
      match d with
      | VDict items =>
          match str_keys_outer items [] with
          | Ok r => Ok (VDict r)
          | Raise e => Raise e
          end
      | other => Ok other
      end
  end.

(* ===================================================================== *)
(** * [get_stock_symbol_lookup] *)
(* ===================================================================== *)

(** [v[key]] for a string key. *)
Definition py_subscript (v : pyval) (key : string) : result pyval :=
  match v with
  | VDict d =>
      match dict_get (KStr key) d with
      | Some x => Ok x
      | None => Raise (Exn "KeyError" ("'" ++ key ++ "'"))
      end
  | VList _ => Raise (Exn "TypeError" "list indices must be integers or slices, not str")
  | VStr _ => Raise (Exn "TypeError" "string indices must be integers, not 'str'")
  | other =>
      Raise (Exn "TypeError" ("'" ++ py_type_name other ++ "' object is not subscriptable"))
  end.

Definition read_quotes (s : SearchResult) : M (list pyval) :=
  fetch ReqSearchQuotes (Ok (search_quotes s)).

Definition get_stock_symbol_lookup (w : World) (query : string) : M pyval :=
  try_except
    (search <- fetch (ReqSearch query (Some 1%nat)) (yf_search w query (Some 1%nat)) ;;
     quotes <- read_quotes search ;;
     none_found <- match quotes with
                   | [] => ret true
                   | _ => again <- read_quotes search ;;
                          ret (length again =? 0)%nat
                   end ;;
     if (none_found : bool) then
       ret (VStr ("No symbols found matching '" ++ query ++ "'."))
     else
       quotes <- read_quotes search ;;
       match quotes with
       | first :: _ => lift (py_subscript first "symbol")
       | [] => raise (Exn "IndexError" "list index out of range")
       end)
    (fun e => ret (VStr ("Error looking up symbol: " ++ exn_str e))).

(* ===================================================================== *)
(** * [get_stock_news] *)
(* ===================================================================== *)

(** One turn of the loop: the simplified item to append, if any. *)
Definition simplify_item (item : pyval) : result (option pyval) :=
  match item with
  | VDict d =>
      match dict_get (KStr "content") d with
      | Some content =>
          match content with
          | VDict c =>
              Ok (Some (VDict (dict_of_items
                [ (KStr "title", dict_get_default (KStr "title") (VStr "No title") c);
                  (KStr "summary", dict_get_default (KStr "summary") (VStr "No summary") c);
                  (KStr "pubDate", dict_get_default (KStr "pubDate") (VStr "No date") c) ])))
          | other => Raise (attribute_error other "get")
          end
      | None => Ok None
      end
  | _ => Ok None
  end.

Fixpoint simplify_news (news : list pyval) (simplified_news : list pyval)
  : result (list pyval) :=
  match news with
  | [] => Ok simplified_news
  | item :: rest =>
      match simplify_item item with
      | Ok (Some simplified_item) =>
          simplify_news rest (simplified_news ++ [simplified_item])
      | Ok None => simplify_news rest simplified_news
      | Raise e => Raise e
      end
  end.

Definition get_stock_news_reply (w : World) (symbol : string) : M reply :=
  log INFO (MsgFetchingNews symbol) ;;;
  news <- fetch (ReqNews symbol) (yf_news w symbol) ;;
  match news with
  | [] =>
      log INFO (MsgNoNews symbol) ;;;
      ret (Message ("No news articles found for " ++ symbol ++ "."))
  | _ =>
      simplified_news <- lift (simplify_news news []) ;;
      log INFO (MsgRetrievedNews symbol (length simplified_news) simplified_news) ;;;
      ret (JsonOf (Some 2%nat) (VList simplified_news))
  end.

Definition get_stock_news (w : World) (symbol : string) : M string :=
  r <- get_stock_news_reply w symbol ;;
  render w r.

(* ===================================================================== *)
(** * [search] *)
(* ===================================================================== *)

Definition lower_ascii (c : ascii) : ascii :=
  let n := nat_of_ascii c in
  if ((65 <=? n) && (n <=? 90))%nat then ascii_of_nat (n + 32) else c.

(** [s.lower()] on the ASCII letters; no other character lowers to a letter
    of the three recognised words. *)
Fixpoint py_lower (s : string) : string :=
  match s with
  | EmptyString => EmptyString
  | String c rest => String (lower_ascii c) (py_lower rest)
  end.

Definition invalid_output_type : string :=
  "Invalid output_type. Use 'all', 'quotes', or 'news'.".

Definition search_reply (w : World) (query search_type : string) : M reply :=
  s <- fetch (ReqSearch query None) (yf_search w query None) ;;
  let finish (found : pyval) : M reply :=
    log INFO (MsgSearchResults query search_type found) ;;;
    ret (JsonOf None found) in
  let st := py_lower search_type in
  if String.eqb st "all" then
    found <- fetch ReqSearchAll (Ok (search_all s)) ;; finish found
  else if String.eqb st "quotes" then
    found <- fetch ReqSearchQuotes (Ok (VList (search_quotes s))) ;; finish found
  else if String.eqb st "news" then
    found <- fetch ReqSearchNews (Ok (VList (search_news s))) ;; finish found
  else
    ret (Message invalid_output_type).

Definition search (w : World) (query search_type : string) : M string :=
  r <- search_reply w query search_type ;;
  render w r.

(* ===================================================================== *)
(** * [get_stock_recommendations] *)
(* ===================================================================== *)

Definition no_recommendations (symbol : string) : string :=
  "No analyst recommendations available for " ++ symbol ++ ".".

Definition get_stock_recommendations_reply (w : World) (symbol : string) : M reply :=
  recs <- fetch (ReqRecommendations symbol) (yf_recommendations w symbol) ;;
  let none_available : M reply :=
    log INFO (MsgNoRecommendations symbol) ;;;
    ret (Message (no_recommendations symbol)) in
  match recs with
  | None => none_available
  | Some table =>
      if df_empty table then none_available
      else
        let recs := df_tail 20 table in
        log INFO (MsgRetrievedRecommendations symbol recs) ;;;
        ret (MarkdownOf recs)
  end.

Definition get_stock_recommendations (w : World) (symbol : string) : M string :=
  r <- get_stock_recommendations_reply w symbol ;;
  render w r.

(* ===================================================================== *)
(** * [get_stock_info] *)
(* ===================================================================== *)

(** ** The static group tables *)

Definition etf_analysis_keys : list string :=
  [ "totalAssets"; "netAssets"; "netExpenseRatio"; "ytdReturn";
    "threeYearAverageReturn"; "fiveYearAverageReturn"; "trailingThreeMonthReturns";
    "beta3Year"; "dividendYield"; "trailingAnnualDividendYield";
    "trailingAnnualDividendRate" ].

Definition etf_trading_keys : list string :=
  [ "regularMarketPrice"; "navPrice"; "volume"; "regularMarketVolume";
    "averageVolume"; "averageVolume10days"; "averageDailyVolume10Day";
    "averageDailyVolume3Month"; "bid"; "ask"; "bidSize"; "askSize" ].

Definition etf_price_movement_keys : list string :=
  [ "fiftyTwoWeekLow"; "fiftyTwoWeekHigh"; "fiftyTwoWeekRange";
    "fiftyTwoWeekChangePercent"; "fiftyDayAverage"; "twoHundredDayAverage";
    "regularMarketChange"; "regularMarketChangePercent" ].

Definition etf_fund_info_keys : list string :=
  [ "category"; "fundFamily"; "longBusinessSummary"; "fundInceptionDate";
    "shortName"; "longName"; "symbol" ].

Definition core_valuation_keys : list string :=
  [ "currentPrice"; "targetMeanPrice"; "targetHighPrice"; "targetLowPrice";
    "marketCap"; "enterpriseValue"; "trailingPE"; "forwardPE"; "priceToBook";
    "priceToSalesTrailing12Months"; "trailingPegRatio" ].

Definition financial_performance_keys : list string :=
  [ "totalRevenue"; "netIncomeToCommon"; "grossProfits"; "grossMargins";
    "operatingMargins"; "ebitdaMargins"; "profitMargins"; "earningsGrowth";
    "revenueGrowth"; "returnOnAssets"; "returnOnEquity"; "trailingEps";
    "forwardEps"; "epsCurrentYear" ].

Definition financial_health_keys : list string :=
  [ "totalCash"; "totalCashPerShare"; "totalDebt"; "debtToEquity";
    "currentRatio"; "quickRatio"; "freeCashflow"; "operatingCashflow" ].

Definition market_data_keys : list string :=
  [ "volume"; "averageVolume"; "beta"; "fiftyTwoWeekLow"; "fiftyTwoWeekHigh";
    "52WeekChange"; "fiftyDayAverage"; "twoHundredDayAverage";
    "recommendationMean"; "recommendationKey"; "numberOfAnalystOpinions" ].

Definition dividend_info_keys : list string :=
  [ "dividendRate"; "dividendYield"; "payoutRatio"; "trailingAnnualDividendRate";
    "exDividendDate" ].

Definition balance_sheet_item_keys : list string :=
  [ "Total Assets"; "Stockholders Equity"; "Working Capital";
    "Cash And Cash Equivalents"; "Total Debt"; "Net PPE" ].

Definition income_stmt_item_keys : list string :=
  [ "Total Revenue"; "Gross Profit"; "Operating Income";
    "Net Income"; "Cost Of Revenue"; "Research And Development" ].

Definition cash_flow_item_keys : list string :=
  [ "Operating Cash Flow"; "Free Cash Flow"; "Capital Expenditure";
    "Cash Dividends Paid" ].

(** The thematic groups of each classification: group name and the
    attribute names it selects. *)
Definition etf_groups : list (string * list string) :=
  [ ("etf_analysis", etf_analysis_keys);
    ("trading_valuation", etf_trading_keys);
    ("price_movement", etf_price_movement_keys);
    ("fund_information", etf_fund_info_keys) ].

Definition equity_info_groups : list (string * list string) :=
  [ ("core_valuation_metrics", core_valuation_keys);
    ("financial_performance", financial_performance_keys);
    ("financial_health", financial_health_keys);
    ("market_data_trading", market_data_keys);
    ("dividend_information", dividend_info_keys) ].

Definition equity_statement_groups : list (string * list string) :=
  [ ("balance_sheet_essentials", balance_sheet_item_keys);
    ("income_statement_key_items", income_stmt_item_keys);
    ("cash_flow_highlights", cash_flow_item_keys) ].

Definition equity_groups : list (string * list string) :=
  equity_info_groups ++ equity_statement_groups.

Definition etf_group_names : list string := map fst etf_groups.

(** The equity record also carries the analyst price targets, passed through
    as the provider gave them. *)
Definition equity_group_names : list string :=
  map fst equity_groups ++ ["analyst_price_targets"].

(** ** The pieces of the function *)

(** [{k: info.get(k) for k in names}] *)
Definition select_attributes (info : pydict) (names : list string) : pyval :=
  VDict (dict_of_items
           (map (fun k => (KStr k, dict_get_or_none (KStr k) info)) names)).

(** [keys = {}; if statement: for key in names: keys[key] = statement.get(key)] *)
Definition select_statement_items (statement : pyval) (names : list string)
  : result pyval :=
  if py_truthy statement then
    match statement with
    | VDict d => Ok (select_attributes d names)
    | other => Raise (attribute_error other "get")
    end
  else Ok (VDict []).

(** [hasattr(ticker, name)]: the attribute is read; an [AttributeError]
    means it is absent, any other exception passes through. *)
Definition hasattr {A : Type} (r : request) (answer : result A) : M bool :=
  match answer with
  | Ok _ => fetch r (Ok true)
  | Raise e =>
      if String.eqb (exn_kind e) "AttributeError" then fetch r (Ok false)
      else fetch r (Raise e)
  end.

(** One guarded statement fetch:
    [try: x = df_to_dict_str_keys(ticker.a) if hasattr(ticker, "a") and
    ticker.a is not None else None  except Exception as e: warning]. *)
Definition fetch_statement (what symbol : string) (r : request)
  (answer : result (option DataFrame)) : M pyval :=
  try_except
    (present <- hasattr r answer ;;
     if (present : bool) then
       value <- fetch r answer ;;
       match value with
       | Some _ => frame <- fetch r answer ;; lift (df_to_dict_str_keys frame)
       | None => ret VNone
       end
     else ret VNone)
    (fun e => log WARNING (MsgCouldNotFetch what symbol e) ;;; ret VNone).

Definition fetch_price_targets (symbol : string) (r : request)
  (answer : result pyval) : M pyval :=
  try_except
    (present <- hasattr r answer ;;
     if (present : bool) then
       value <- fetch r answer ;;
       match value with
       | VNone => ret VNone
       | _ => fetch r answer
       end
     else ret VNone)
    (fun e => log WARNING (MsgCouldNotFetch "analyst price targets" symbol e) ;;;
              ret VNone).

(** [info.get("quoteType") == "ETF"] *)
Definition is_etf (info : pydict) : bool :=
  match dict_get_or_none (KStr "quoteType") info with
  | VStr s => String.eqb s "ETF"
  | _ => false
  end.

(** The function from the classification on, for the symbol and the
    attribute map it settled on. *)
Definition assemble_stock_info (w : World) (symbol : string) (info : pydict)
  : M reply :=
  let etf := is_etf info in
  statements <-
    (if negb etf then
       balance_sheet <- fetch_statement "balance sheet" symbol
                          (ReqBalanceSheet symbol) (yf_balance_sheet w symbol) ;;
       cash_flow <- fetch_statement "cash flow" symbol
                      (ReqCashflow symbol) (yf_cashflow w symbol) ;;
       _quarterly_income_stmt <-
         fetch_statement "quarterly income statement" symbol
           (ReqQuarterlyIncomeStmt symbol) (yf_quarterly_income_stmt w symbol) ;;
       analyst_price_targets <-
         fetch_price_targets symbol
           (ReqAnalystPriceTargets symbol) (yf_analyst_price_targets w symbol) ;;
       financials <- fetch_statement "financials" symbol
                       (ReqFinancials symbol) (yf_financials w symbol) ;;
       ret (balance_sheet, cash_flow, analyst_price_targets, financials)
     else ret (VNone, VNone, VNone, VNone)) ;;
  let '(balance_sheet, cash_flow, analyst_price_targets, financials) := statements in
  stock_news <- get_stock_news w symbol ;;
  if etf then
    ret (JsonOf None (VDict (dict_of_items
      [ (KStr "stock_type", VStr "ETF");
        (KStr "etf_analysis", select_attributes info etf_analysis_keys);
        (KStr "trading_valuation", select_attributes info etf_trading_keys);
        (KStr "price_movement", select_attributes info etf_price_movement_keys);
        (KStr "fund_information", select_attributes info etf_fund_info_keys);
        (KStr "stock_news", VStr stock_news) ])))
  else
    balance_sheet_keys <-
      lift (select_statement_items balance_sheet balance_sheet_item_keys) ;;
    income_stmt_keys <-
      lift (select_statement_items financials income_stmt_item_keys) ;;
    cash_flow_keys <-
      lift (select_statement_items cash_flow cash_flow_item_keys) ;;
    ret (JsonOf None (VDict (dict_of_items
      [ (KStr "stock_type", VStr "EQUITY");
        (KStr "core_valuation_metrics", select_attributes info core_valuation_keys);
        (KStr "financial_performance",
          select_attributes info financial_performance_keys);
        (KStr "financial_health", select_attributes info financial_health_keys);
        (KStr "market_data_trading", select_attributes info market_data_keys);
        (KStr "dividend_information", select_attributes info dividend_info_keys);
        (KStr "balance_sheet_essentials", balance_sheet_keys);
        (KStr "income_statement_key_items", income_stmt_keys);
        (KStr "cash_flow_highlights", cash_flow_keys);
        (KStr "analyst_price_targets", analyst_price_targets);
        (KStr "stock_news", VStr stock_news) ]))).

Definition symbol_not_found (symbol lookup_returned : string) : string :=
  "Unable to find valid information for '" ++ symbol
  ++ "'. Symbol lookup returned: " ++ lookup_returned.

(** The test on the looked-up symbol: non-empty and none of the three
    failure prefixes. *)
Definition usable_symbol (s : string) : bool :=
  negb (String.eqb s EmptyString)
  && negb (String.prefix "No symbols" s)
  && negb (String.prefix "Error" s)
  && negb (String.prefix "Unable" s).

(** The first part of the function: the symbol and attribute map to go on
    with, or the message to return. *)
Definition resolve_info (w : World) (symbol : string)
  : M (string + string * pydict) :=
  info <- fetch (ReqInfo symbol) (yf_info w symbol) ;;
  match info with
  | [] =>
      log WARNING (MsgNoInfo symbol) ;;;
      correct_symbol <- get_stock_symbol_lookup w symbol ;;
      match correct_symbol with
      | VStr s =>
          if usable_symbol s then
            log INFO (MsgFoundCorrectSymbol s) ;;;
            info <- fetch (ReqInfo s) (yf_info w s) ;;
            ret (inr (s, info))
          else ret (inl (symbol_not_found symbol s))
      | VNone => ret (inl (symbol_not_found symbol "None"))
      | VBool false => ret (inl (symbol_not_found symbol "False"))
      | VList [] => ret (inl (symbol_not_found symbol "[]"))
      | VDict [] => ret (inl (symbol_not_found symbol "{}"))
      | VInt n =>
          if Z.eqb n 0 then ret (inl (symbol_not_found symbol "0"))
          else raise (attribute_error correct_symbol "startswith")
      | VFloat q =>
          if Qeq_bool q 0 then ret (inl (symbol_not_found symbol "0.0"))
          else raise (attribute_error correct_symbol "startswith")
      | other => raise (attribute_error other "startswith")
      end
  | _ => ret (inr (symbol, info))
  end.

Definition get_stock_info_reply (w : World) (symbol : string) : M reply :=
  resolved <- resolve_info w symbol ;;
  match resolved with
  | inl text => ret (Message text)
  | inr (symbol, info) => assemble_stock_info w symbol info
  end.

Definition get_stock_info (w : World) (symbol : string) : M string :=
  resolved <- resolve_info w symbol ;;
  match resolved with
  | inl text => ret text
  | inr (symbol, info) =>
      r <- assemble_stock_info w symbol info ;;
      response <- render w r ;;
      log INFO (MsgRetrievedStockInfo symbol response) ;;;
      ret response
  end.

(* ===================================================================== *)
(** * Specification vocabulary *)
(* ===================================================================== *)

(** The cell of a named column at a row. *)
Definition df_cell (name : pykey) (i : nat) (df : DataFrame) : option pyval :=
  match df_column name df with
  | Some c => nth_error c i
  | None => None
  end.

(** [m] is the least closing price of the rows [i - 19 .. i] (the rows
    [0 .. i] while fewer than 20 exist). *)
Definition is_window_min (closes : list Q) (i : nat) (m : Q) : Prop :=
  (exists j, (i - 19 <= j <= i)%nat /\ nth_error closes j = Some m) /\
  (forall j c, (i - 19 <= j <= i)%nat -> nth_error closes j = Some c -> (m <= c)%Q).

Definition is_window_max (closes : list Q) (i : nat) (m : Q) : Prop :=
  (exists j, (i - 19 <= j <= i)%nat /\ nth_error closes j = Some m) /\
  (forall j c, (i - 19 <= j <= i)%nat -> nth_error closes j = Some c -> (c <= m)%Q).

(** The closing prices of a frame: its Close column holds one finite number
    per row. *)
Definition has_closes (df : DataFrame) (closes : list Q) : Prop :=
  df_column (KStr "Close") df = Some (map VFloat closes) /\
  length closes = df_nrows df.

(** The indicator library returns frames over the index of the series it
    was given. *)
Definition indicators_aligned (w : World) : Prop :=
  (forall s f, ta_macd w s = Ok (Some f) -> df_index f = s_index s) /\
  (forall s f, ta_bbands w s = Ok (Some f) -> df_index f = s_index s).

(** A frame has the rows of the fetched series: the same index, in the same
    order, and the fetched columns cell for cell. *)
Definition rows_preserved (bars : list bar) (df : DataFrame) : Prop :=
  df_index df = df_index (history_frame bars) /\
  forall name, In name (df_names (history_frame bars)) ->
    df_column name df = df_column name (history_frame bars).

(** The Close column of the fetched frame, as [df["Close"]] returns it. *)
Definition close_series (bars : list bar) : Series :=
  mkSeries (df_index (history_frame bars))
           (map (fun b => VFloat (bar_close b)) bars).

(** The column [df["RSI"] = ta.rsi(...)] assigns for an aligned result. *)
Definition rsi_column (r : option Series) (nrows : nat) : list pyval :=
  match r with
  | None => repeat VNone nrows
  | Some s => s_values s
  end.

(** The RSI result is [None] or a Series over the index of the closes. *)
Definition rsi_aligned (r : option Series) (bars : list bar) : Prop :=
  forall s, r = Some s -> s_index s = s_index (close_series bars).

(** [kept] is the last [n] entries of [all], in their order. *)
Definition is_last_rows {A : Type} (n : nat) (all kept : list A) : Prop :=
  (exists dropped, all = dropped ++ kept) /\
  length kept = Nat.min n (length all).

(** The record of a fund: the type discriminant, the fund groups cut from
    the attribute map by the fund table, and the news. *)
Definition fund_record (info : pydict) (news : string) : pydict :=
  (KStr "stock_type", VStr "ETF")
  :: map (fun g => (KStr (fst g), select_attributes info (snd g))) etf_groups
  ++ [(KStr "stock_news", VStr news)].

(** The record of an equity: the discriminant, the equity groups cut from
    the attribute map by the equity table, the three statement groups, the
    analyst price targets and the news. *)
Definition equity_record (info : pydict)
  (balance_sheet_items income_items cash_flow_items targets : pyval)
  (news : string) : pydict :=
  (KStr "stock_type", VStr "EQUITY")
  :: map (fun g => (KStr (fst g), select_attributes info (snd g))) equity_info_groups
  ++ [ (KStr "balance_sheet_essentials", balance_sheet_items);
       (KStr "income_statement_key_items", income_items);
       (KStr "cash_flow_highlights", cash_flow_items);
       (KStr "analyst_price_targets", targets);
       (KStr "stock_news", VStr news) ].

(** A statement group: empty, or the group's fixed items of a statement. *)
Definition statement_group (names : list string) (v : pyval) : Prop :=
  exists statement, select_statement_items statement names = Ok v.

(** [d[k][kk]] in a mapping of mappings. *)
Definition nested_get (d : pydict) (k kk : pykey) : option pyval :=
  match dict_get k d with
  | Some (VDict inner) => dict_get kk inner
  | _ => None
  end.

Definition all_str_keys (d : pydict) : Prop :=
  forall k, In k (dict_keys d) -> is_str_key k = true.

(** No two keys of a level have the same [str] rendering. *)
Definition renderings_distinct (d : pydict) : Prop :=
  NoDup (map py_str_key (dict_keys d)) /\
  forall k inner, In (k, VDict inner) d -> NoDup (map py_str_key (dict_keys inner)).

(** The entry the comprehensions make of an entry. *)
Definition rekey_inner (kv : pykey * pyval) : pykey * pyval :=
  (KStr (py_str_key (fst kv)), snd kv).

Definition rekey_outer (kv : pykey * pyval) : pykey * pyval :=
  (KStr (py_str_key (fst kv)),
   match snd kv with
   | VDict inner => VDict (dict_of_items (map rekey_inner inner))
   | other => other
   end).

(** What the two comprehensions make of a mapping of mappings. *)
Definition rekeyed (d : pydict) : pydict := dict_of_items (map rekey_outer d).

(** The value under the content key of a news item, if the item is a
    mapping that has one. *)
Definition content_of (item : pyval) : option pyval :=
  match item with
  | VDict d => dict_get (KStr "content") d
  | _ => None
  end.

(** Title, summary and publication date of a content mapping, each with its
    placeholder. *)
Definition project_content (c : pydict) : pyval :=
  VDict [ (KStr "title", dict_get_default (KStr "title") (VStr "No title") c);
          (KStr "summary", dict_get_default (KStr "summary") (VStr "No summary") c);
          (KStr "pubDate", dict_get_default (KStr "pubDate") (VStr "No date") c) ].

(** The projections of the items that have a content mapping, in order. *)
Fixpoint projections (news : list pyval) : list pyval :=
  match news with
  | [] => []
  | item :: rest =>
      match content_of item with
      | Some (VDict c) => project_content c :: projections rest
      | _ => projections rest
      end
  end.

(** No item has a content that is not a mapping. *)
Definition contents_are_mappings (news : list pyval) : Prop :=
  forall item content,
    In item news -> content_of item = Some content -> exists c, content = VDict c.

(** Every column of a frame has one cell per row. *)
Definition frame_well_formed (df : DataFrame) : Prop :=
  forall name c, In (name, c) (df_columns df) -> length c = df_nrows df.

(** The column names after [df[n] = ...]: a new name goes last, a name
    already there keeps its place. *)
Definition set_name (n : pykey) (names : list pykey) : list pykey :=
  if key_mem n names then names else names ++ [n].

Definition optional_names (o : option DataFrame) : list pykey :=
  match o with
  | Some f => df_names f
  | None => []
  end.

(** The entries of a group: each attribute name of the table with the
    value [info.get] gives for it. *)
Definition group_entries (info : pydict) (names : list string) : pydict :=
  map (fun k => (KStr k, dict_get_or_none (KStr k) info)) names.

(* ===================================================================== *)
(** * Sample worlds *)
(* ===================================================================== *)

Definition unavailable {A : Type} : result A :=
  Raise (Exn "ConnectionError" "provider unavailable").

(** One trading week. *)
Definition week_bars : list bar :=
  [ mkBar "2024-01-02" (187#1) (188#1) (183#1) (18564#100) 82488700;
    mkBar "2024-01-03" (184#1) (185#1) (183#1) (18425#100) 58414500;
    mkBar "2024-01-04" (182#1) (183#1) (180#1) (18191#100) 71983600;
    mkBar "2024-01-05" (181#1) (182#1) (180#1) (18118#100) 62303300;
    mkBar "2024-01-08" (182#1) (185#1) (181#1) (18556#100) 59144500 ].

(** An indicator library with the minimum lengths of pandas_ta's defaults:
    RSI needs 14 rows, MACD 26, Bollinger Bands 5.  Where it computes, it
    returns columns over the index of its input (the values stand in). *)
Definition sketch_rsi (s : Series) : result (option Series) :=
  if (length (s_values s) <? 14)%nat then Ok None else Ok (Some s).

Definition sketch_macd (s : Series) : result (option DataFrame) :=
  if (length (s_values s) <? 26)%nat then Ok None
  else Ok (Some (mkFrame (s_index s) [(KStr "MACD_12_26_9", s_values s)])).

Definition sketch_bbands (s : Series) : result (option DataFrame) :=
  if (length (s_values s) <? 5)%nat then Ok None
  else Ok (Some (mkFrame (s_index s) [(KStr "BBM_5_2.0", s_values s)])).

Definition sketch_dumps (indent : option nat) (v : pyval) : result string :=
  Ok "<json>".

Definition sketch_markdown (df : DataFrame) : result string := Ok "<markdown>".

(** A provider that knows one symbol's week of prices and nothing else. *)
Definition week_world : World :=
  mkWorld (fun _ _ => unavailable)
          (fun _ _ _ => Ok week_bars)
          (fun _ => Ok []) (fun _ => Ok [])
          (fun _ => Ok None) (fun _ => Ok None) (fun _ => Ok None)
          (fun _ => Ok VNone) (fun _ => Ok None) (fun _ => Ok None)
          sketch_rsi sketch_macd sketch_bbands sketch_dumps sketch_markdown.

(** The same provider with an indicator library whose RSI fails. *)
Definition rsi_failure : exn := Exn "ValueError" "cannot compute RSI".

Definition failing_rsi_world : World :=
  mkWorld (fun _ _ => unavailable)
          (fun _ _ _ => Ok week_bars)
          (fun _ => Ok []) (fun _ => Ok [])
          (fun _ => Ok None) (fun _ => Ok None) (fun _ => Ok None)
          (fun _ => Ok VNone) (fun _ => Ok None) (fun _ => Ok None)
          (fun _ => Raise rsi_failure) sketch_macd sketch_bbands
          sketch_dumps sketch_markdown.

(** The same provider with indicators that always compute. *)
Definition eager_world : World :=
  mkWorld (fun _ _ => unavailable)
          (fun _ _ _ => Ok week_bars)
          (fun _ => Ok []) (fun _ => Ok [])
          (fun _ => Ok None) (fun _ => Ok None) (fun _ => Ok None)
          (fun _ => Ok VNone) (fun _ => Ok None) (fun _ => Ok None)
          (fun s => Ok (Some s))
          (fun s => Ok (Some (mkFrame (s_index s) [(KStr "MACD_12_26_9", s_values s)])))
          (fun s => Ok (Some (mkFrame (s_index s) [(KStr "BBM_5_2.0", s_values s)])))
          sketch_dumps sketch_markdown.

Definition week_table : DataFrame :=
  Eval vm_compute in
    match outcome (get_price_history_table week_world "AAPL" "1wk" "1d") with
    | Ok (MarkdownOf df) => df
    | _ => mkFrame [] []
    end.

Definition eager_table : DataFrame :=
  Eval vm_compute in
    match outcome (get_price_history_table eager_world "AAPL" "1wk" "1d") with
    | Ok (MarkdownOf df) => df
    | _ => mkFrame [] []
    end.

(** Two days of prices: too few rows for any of the three indicators. *)
Definition two_day_world : World :=
  mkWorld (fun _ _ => unavailable)
          (fun _ _ _ => Ok (firstn 2 week_bars))
          (fun _ => Ok []) (fun _ => Ok [])
          (fun _ => Ok None) (fun _ => Ok None) (fun _ => Ok None)
          (fun _ => Ok VNone) (fun _ => Ok None) (fun _ => Ok None)
          sketch_rsi sketch_macd sketch_bbands sketch_dumps sketch_markdown.

(** The week's provider with an indicator library whose MACD fails. *)
Definition macd_failure : exn := Exn "ValueError" "cannot compute MACD".

Definition failing_macd_world : World :=
  mkWorld (fun _ _ => unavailable)
          (fun _ _ _ => Ok week_bars)
          (fun _ => Ok []) (fun _ => Ok [])
          (fun _ => Ok None) (fun _ => Ok None) (fun _ => Ok None)
          (fun _ => Ok VNone) (fun _ => Ok None) (fun _ => Ok None)
          sketch_rsi (fun _ => Raise macd_failure) sketch_bbands
          sketch_dumps sketch_markdown.

(** The week's provider with an indicator library that computes RSI and
    MACD and whose Bollinger Bands fail. *)
Definition bbands_failure : exn := Exn "ValueError" "cannot compute BBANDS".

Definition failing_bbands_world : World :=
  mkWorld (fun _ _ => unavailable)
          (fun _ _ _ => Ok week_bars)
          (fun _ => Ok []) (fun _ => Ok [])
          (fun _ => Ok None) (fun _ => Ok None) (fun _ => Ok None)
          (fun _ => Ok VNone) (fun _ => Ok None) (fun _ => Ok None)
          (fun s => Ok (Some s))
          (fun s => Ok (Some (mkFrame (s_index s) [(KStr "MACD_12_26_9", s_values s)])))
          (fun _ => Raise bbands_failure)
          sketch_dumps sketch_markdown.

(** A provider given by its search, attribute maps, news and
    recommendations; no financial statements. *)
Definition provider_world
  (search : string -> option nat -> result SearchResult)
  (info : string -> result pydict)
  (news : string -> result (list pyval))
  (recs : string -> result (option DataFrame)) : World :=
  mkWorld search (fun _ _ _ => Ok week_bars) info news
          (fun _ => Ok None) (fun _ => Ok None) (fun _ => Ok None)
          (fun _ => Ok VNone) (fun _ => Ok None) recs
          sketch_rsi sketch_macd sketch_bbands sketch_dumps sketch_markdown.

Definition apple_quote : pyval :=
  VDict [(KStr "symbol", VStr "AAPL"); (KStr "shortname", VStr "Apple Inc.")].

Definition apple_search : SearchResult :=
  mkSearch (VDict [(KStr "quotes", VList [apple_quote]); (KStr "news", VList [])])
           [apple_quote] [].

Definition search_world : World :=
  provider_world (fun _ _ => Ok apple_search)
                 (fun _ => Ok []) (fun _ => Ok []) (fun _ => Ok None).

(** The search finds a symbol, but no symbol has an attribute map. *)
Definition typo_world : World := search_world.

Definition apple_info : pydict :=
  [ (KStr "quoteType", VStr "EQUITY"); (KStr "currentPrice", VFloat (18556#100));
    (KStr "symbol", VStr "AAPL") ].

(** Only the symbol the search finds has an attribute map. *)
Definition corrected_world : World :=
  provider_world (fun _ _ => Ok apple_search)
                 (fun s => if String.eqb s "AAPL" then Ok apple_info else Ok [])
                 (fun _ => Ok []) (fun _ => Ok None).

Definition fund_info : pydict :=
  [ (KStr "quoteType", VStr "ETF"); (KStr "totalAssets", VInt 500000000);
    (KStr "symbol", VStr "SPY") ].

Definition fund_world : World :=
  provider_world (fun _ _ => unavailable)
                 (fun _ => Ok fund_info) (fun _ => Ok []) (fun _ => Ok None).

(** A news item with a content key that holds no mapping. *)
Definition null_content_item : pyval :=
  VDict [(KStr "id", VStr "a1"); (KStr "content", VNone)].

Definition null_content_world : World :=
  provider_world (fun _ _ => unavailable)
                 (fun _ => Ok []) (fun _ => Ok [null_content_item])
                 (fun _ => Ok None).

(** Twenty-two months of recommendations. *)
Definition recs_table : DataFrame :=
  mkFrame (map (fun n => KInt (Z.of_nat n)) (seq 0 22))
          [ (KStr "strongBuy", map (fun n => VInt (Z.of_nat n)) (seq 0 22));
            (KStr "hold", map (fun n => VInt (Z.of_nat (2 * n))) (seq 0 22)) ].

Definition recs_world : World :=
  provider_world (fun _ _ => unavailable)
                 (fun _ => Ok []) (fun _ => Ok []) (fun _ => Ok (Some recs_table)).

(** A balance sheet as the provider shapes it: one column per period,
    labelled by its date, one row per item. *)
Definition sample_statement : DataFrame :=
  mkFrame [KStr "Total Assets"; KStr "Total Debt"; KInt 7]
          [ (KTimestamp "2023-09-30 00:00:00", [VFloat (352583#1); VFloat (111088#1); VNaN]);
            (KTimestamp "2022-09-30 00:00:00", [VFloat (352755#1); VFloat (120069#1); VInt 3]) ].

(** An equity whose statements and price targets the provider fails to
    deliver. *)
Definition statements_down_world : World :=
  mkWorld (fun _ _ => unavailable) (fun _ _ _ => Ok week_bars)
          (fun _ => Ok apple_info) (fun _ => Ok [])
          (fun _ => unavailable) (fun _ => unavailable) (fun _ => unavailable)
          (fun _ => unavailable) (fun _ => unavailable) (fun _ => Ok None)
          sketch_rsi sketch_macd sketch_bbands sketch_dumps sketch_markdown.

(** An equity whose news the provider fails to deliver. *)
Definition news_down_world : World :=
  provider_world (fun _ _ => unavailable)
                 (fun _ => Ok apple_info) (fun _ => unavailable)
                 (fun _ => Ok None).

(** A feed of three items: a full one, one without content, one whose
    content has only a title. *)
Definition sample_feed : list pyval :=
  [ VDict [ (KStr "id", VStr "n1");
            (KStr "content",
             VDict [ (KStr "title", VStr "Apple beats estimates");
                     (KStr "summary", VStr "Quarterly results are out.");
                     (KStr "pubDate", VStr "2024-02-01T21:30:00Z") ]) ];
    VDict [(KStr "id", VStr "n2")];
    VDict [ (KStr "id", VStr "n3");
            (KStr "content", VDict [(KStr "title", VNone)]) ] ].

Definition feed_world : World :=
  provider_world (fun _ _ => Ok apple_search)
                 (fun _ => Ok apple_info) (fun _ => Ok sample_feed)
                 (fun _ => Ok None).

(** A feed none of whose items has content. *)
Definition bare_feed_world : World :=
  provider_world (fun _ _ => unavailable)
                 (fun _ => Ok apple_info)
                 (fun _ => Ok [VDict [(KStr "id", VStr "n2")]; VStr "noise"])
                 (fun _ => Ok None).

(** A feed whose last item has a content that is no mapping. *)
Definition broken_feed_world : World :=
  provider_world (fun _ _ => unavailable)
                 (fun _ => Ok apple_info)
                 (fun _ => Ok (sample_feed ++ [null_content_item]))
                 (fun _ => Ok None).

(** Three months of recommendations. *)
Definition short_recs_table : DataFrame :=
  mkFrame [KInt 0; KInt 1; KInt 2]
          [ (KStr "period", [VStr "0m"; VStr "-1m"; VStr "-2m"]);
            (KStr "strongBuy", [VInt 11; VInt 12; VInt 10]) ].

Definition short_recs_world : World :=
  provider_world (fun _ _ => unavailable)
                 (fun _ => Ok []) (fun _ => Ok [])
                 (fun _ => Ok (Some short_recs_table)).

(* ===================================================================== *)
(** * Basic facts: keys, the monad *)
(* ===================================================================== *)

Lemma pykey_eqb_eq (a b : pykey) : pykey_eqb a b = true <-> a = b.
Proof.
  destruct a, b; simpl; split; intro H; try discriminate; try congruence.
  - apply String.eqb_eq in H. congruence.
  - inversion H. apply String.eqb_refl.
  - apply Z.eqb_eq in H. congruence.
  - inversion H. apply Z.eqb_refl.
  - apply String.eqb_eq in H. congruence.
  - inversion H. apply String.eqb_refl.
Qed.

Lemma pykey_eqb_refl (a : pykey) : pykey_eqb a a = true.
Proof. now apply pykey_eqb_eq. Qed.

Lemma pykey_eqb_neq (a b : pykey) : pykey_eqb a b = false <-> a <> b.
Proof.
  split.
  - intros H E. apply pykey_eqb_eq in E. congruence.
  - intro H. destruct (pykey_eqb a b) eqn:E; [| reflexivity].
    apply pykey_eqb_eq in E. contradiction.
Qed.

Lemma index_eqb_refl (idx : list pykey) : index_eqb idx idx = true.
Proof.
  induction idx as [| k idx IH]; simpl; [reflexivity |].
  now rewrite pykey_eqb_refl, IH.
Qed.

(** ** Inversion of computations that ended normally *)

Lemma bind_ok {A B : Type} (m : M A) (f : A -> M B) (t : list event) (b : B) :
  bind m f = (t, Ok b) ->
  exists t1 a t2, m = (t1, Ok a) /\ f a = (t2, Ok b) /\ t = t1 ++ t2.
Proof.
  unfold bind. destruct m as [t1 [a | e]]; simpl; intro H; [| discriminate].
  destruct (f a) as [t2 r] eqn:E. simpl in H. inversion H; subst.
  exists t1, a, t2. auto.
Qed.

Lemma lift_ok {A : Type} (r : result A) (t : list event) (a : A) :
  lift r = (t, Ok a) -> r = Ok a /\ t = [].
Proof. unfold lift. intro H. inversion H. auto. Qed.

Lemma ret_ok {A : Type} (x : A) (t : list event) (a : A) :
  ret x = (t, Ok a) -> x = a /\ t = [].
Proof. unfold ret. intro H. inversion H. auto. Qed.

Lemma fetch_ok {A : Type} (r : request) (answer : result A) (t : list event) (a : A) :
  fetch r answer = (t, Ok a) -> answer = Ok a /\ t = [Fetch r].
Proof. unfold fetch. intro H. inversion H. auto. Qed.

(* ===================================================================== *)
(** * Rolling minimum and maximum *)
(* ===================================================================== *)

Lemma qmin_le_l (a b : Q) : (qmin a b <= a)%Q.
Proof.
  unfold qmin. destruct (Qle_bool a b) eqn:E.
  - apply Qle_refl.
  - apply Qlt_le_weak, Qnot_le_lt. intro H. apply Qle_bool_iff in H. congruence.
Qed.

Lemma qmin_le_r (a b : Q) : (qmin a b <= b)%Q.
Proof.
  unfold qmin. destruct (Qle_bool a b) eqn:E.
  - now apply Qle_bool_iff.
  - apply Qle_refl.
Qed.

Lemma qmax_ge_l (a b : Q) : (a <= qmax a b)%Q.
Proof.
  unfold qmax. destruct (Qle_bool a b) eqn:E.
  - now apply Qle_bool_iff.
  - apply Qle_refl.
Qed.

Lemma qmax_ge_r (a b : Q) : (b <= qmax a b)%Q.
Proof.
  unfold qmax. destruct (Qle_bool a b) eqn:E.
  - apply Qle_refl.
  - apply Qlt_le_weak, Qnot_le_lt. intro H. apply Qle_bool_iff in H. congruence.
Qed.

Lemma qmin_cases (a b : Q) : qmin a b = a \/ qmin a b = b.
Proof. unfold qmin. destruct (Qle_bool a b); auto. Qed.

Lemma qmax_cases (a b : Q) : qmax a b = a \/ qmax a b = b.
Proof. unfold qmax. destruct (Qle_bool a b); auto. Qed.

Section Fold.
Variable pick : Q -> Q -> Q.
Hypothesis pick_cases : forall a b, pick a b = a \/ pick a b = b.

Lemma fold_pick_In (l : list Q) (x : Q) : In (fold_left pick l x) (x :: l).
Proof.
  revert x. induction l as [| y l IH]; intro x; simpl; [auto |].
  destruct (IH (pick x y)) as [H | H].
  - rewrite <- H. destruct (pick_cases x y) as [E | E]; rewrite E; auto.
  - auto.
Qed.
End Fold.

Lemma fold_qmin_le (l : list Q) (x c : Q) :
  In c (x :: l) -> (fold_left qmin l x <= c)%Q.
Proof.
  revert x c. induction l as [| y l IH]; intros x c Hin; simpl.
  - destruct Hin as [-> | []]. apply Qle_refl.
  - destruct Hin as [-> | [-> | Hin]].
    + eapply Qle_trans; [apply IH; left; reflexivity | apply qmin_le_l].
    + eapply Qle_trans; [apply IH; left; reflexivity | apply qmin_le_r].
    + apply IH. right. exact Hin.
Qed.

Lemma fold_qmax_ge (l : list Q) (x c : Q) :
  In c (x :: l) -> (c <= fold_left qmax l x)%Q.
Proof.
  revert x c. induction l as [| y l IH]; intros x c Hin; simpl.
  - destruct Hin as [-> | []]. apply Qle_refl.
  - destruct Hin as [-> | [-> | Hin]].
    + eapply Qle_trans; [apply qmax_ge_l | apply IH; left; reflexivity].
    + eapply Qle_trans; [apply qmax_ge_r | apply IH; left; reflexivity].
    + apply IH. right. exact Hin.
Qed.

Lemma observations_floats (closes : list Q) :
  observations (map VFloat closes) = closes.
Proof. induction closes as [| c l IH]; simpl; congruence. Qed.

Lemma window_map {A B : Type} (f : A -> B) (w i : nat) (xs : list A) :
  window w i (map f xs) = map f (window w i xs).
Proof. unfold window. now rewrite skipn_map, firstn_map. Qed.

(** The cells of a window are the cells of the rows [i + 1 - w .. i]. *)
Lemma window_rows {A : Type} (w i : nat) (xs : list A) (x : A) :
  In x (window w i xs) <->
  exists j, (S i - w <= j <= i)%nat /\ (0 < w)%nat /\ nth_error xs j = Some x.
Proof.
  unfold window. rewrite In_iff_nth_error. split.
  - intros [k Hk]. rewrite nth_error_firstn in Hk.
    destruct (k <? Nat.min w (S i))%nat eqn:E; [| discriminate].
    apply Nat.ltb_lt in E. rewrite nth_error_skipn in Hk.
    exists (S i - w + k)%nat. repeat split; try lia. exact Hk.
  - intros (j & Hj & Hw & Hx). exists (j - (S i - w))%nat.
    rewrite nth_error_firstn.
    assert (E : (j - (S i - w) <? Nat.min w (S i))%nat = true)
      by (apply Nat.ltb_lt; lia).
    rewrite E, nth_error_skipn.
    replace (S i - w + (j - (S i - w)))%nat with j by lia. exact Hx.
Qed.

Lemma window_nonempty {A : Type} (w i : nat) (xs : list A) :
  (0 < w)%nat -> (i < length xs)%nat -> window w i xs <> [].
Proof.
  intros Hw Hi Hnil.
  destruct (nth_error xs i) as [x |] eqn:E.
  - assert (Hin : In x (window w i xs)).
    { apply window_rows. exists i. repeat split; try lia. exact E. }
    rewrite Hnil in Hin. contradiction.
  - apply nth_error_None in E. lia.
Qed.

Lemma rolling_cell_min (closes : list Q) (i : nat) :
  (i < length closes)%nat ->
  exists m, rolling_cell 20 1 qmin (map VFloat closes) i = VFloat m /\
            is_window_min closes i m.
Proof.
  intro Hi. unfold rolling_cell.
  rewrite window_map, observations_floats.
  destruct (window 20 i closes) as [| x rest] eqn:E.
  - exfalso. apply (window_nonempty 20 i closes); [lia | exact Hi | exact E].
  - simpl. exists (fold_left qmin rest x). split; [reflexivity |]. split.
    + assert (Hin : In (fold_left qmin rest x) (window 20 i closes)).
      { rewrite E. apply fold_pick_In, qmin_cases. }
      apply window_rows in Hin. destruct Hin as (j & Hj & _ & Hx).
      exists j. split; [lia | exact Hx].
    + intros j c Hj Hc. apply fold_qmin_le. rewrite <- E.
      apply window_rows. exists j. repeat split; try lia. exact Hc.
Qed.

Lemma rolling_cell_max (closes : list Q) (i : nat) :
  (i < length closes)%nat ->
  exists m, rolling_cell 20 1 qmax (map VFloat closes) i = VFloat m /\
            is_window_max closes i m.
Proof.
  intro Hi. unfold rolling_cell.
  rewrite window_map, observations_floats.
  destruct (window 20 i closes) as [| x rest] eqn:E.
  - exfalso. apply (window_nonempty 20 i closes); [lia | exact Hi | exact E].
  - simpl. exists (fold_left qmax rest x). split; [reflexivity |]. split.
    + assert (Hin : In (fold_left qmax rest x) (window 20 i closes)).
      { rewrite E. apply fold_pick_In, qmax_cases. }
      apply window_rows in Hin. destruct Hin as (j & Hj & _ & Hx).
      exists j. split; [lia | exact Hx].
    + intros j c Hj Hc. apply fold_qmax_ge. rewrite <- E.
      apply window_rows. exists j. repeat split; try lia. exact Hc.
Qed.

(* ===================================================================== *)
(** * Columns, assignment and join *)
(* ===================================================================== *)

Lemma column_lookup_assign_same (n : pykey) (c : list pyval) cols :
  column_lookup n (column_assign n c cols) = Some c.
Proof.
  induction cols as [| [n' c'] cols IH]; simpl.
  - now rewrite pykey_eqb_refl.
  - destruct (pykey_eqb n n') eqn:E; simpl; rewrite E; auto.
Qed.

Lemma column_lookup_assign_other (n n' : pykey) (c : list pyval) cols :
  pykey_eqb n' n = false ->
  column_lookup n' (column_assign n c cols) = column_lookup n' cols.
Proof.
  intro Hne. induction cols as [| [m c'] cols IH]; simpl.
  - now rewrite Hne.
  - destruct (pykey_eqb n m) eqn:E; simpl.
    + apply pykey_eqb_eq in E. subst m. now rewrite Hne.
    + now rewrite IH.
Qed.

Lemma column_lookup_app (n : pykey) (a b : list (pykey * list pyval)) :
  column_lookup n (a ++ b)
  = match column_lookup n a with
    | Some c => Some c
    | None => column_lookup n b
    end.
Proof.
  induction a as [| [m c] a IH]; simpl; [reflexivity |].
  destruct (pykey_eqb n m); auto.
Qed.

Lemma column_lookup_map (f : list pyval -> list pyval) (n : pykey) cols :
  column_lookup n (map (fun c => (fst c, f (snd c))) cols)
  = option_map f (column_lookup n cols).
Proof.
  induction cols as [| [m c] cols IH]; simpl; [reflexivity |].
  destruct (pykey_eqb n m); auto.
Qed.

Lemma df_setitem_ok (name : pykey) (value : option Series) (df df' : DataFrame) :
  df_setitem name value df = Ok df' ->
  df_index df' = df_index df /\
  exists c, df_columns df' = column_assign name c (df_columns df).
Proof.
  unfold df_setitem. destruct value as [s |].
  - destruct (index_eqb (s_index s) (df_index df));
      [| destruct (has_duplicates (s_index s)); [discriminate |]];
      intro H; inversion H; simpl; eauto.
  - intro H. inversion H. simpl. eauto.
Qed.

Lemma df_setitem_aligned (name : pykey) (s : Series) (df : DataFrame) :
  s_index s = df_index df ->
  df_setitem name (Some s) df
  = Ok (mkFrame (df_index df) (column_assign name (s_values s) (df_columns df))).
Proof. intro H. unfold df_setitem. now rewrite H, index_eqb_refl. Qed.

Lemma df_setitem_column_other (name other : pykey) value (df df' : DataFrame) :
  pykey_eqb other name = false ->
  df_setitem name value df = Ok df' ->
  df_column other df' = df_column other df.
Proof.
  intros Hne H. apply df_setitem_ok in H. destruct H as (_ & c & Hc).
  unfold df_column. rewrite Hc. now apply column_lookup_assign_other.
Qed.

Lemma df_getitem_ok (name : pykey) (df : DataFrame) (s : Series) :
  df_getitem name df = Ok s ->
  s_index s = df_index df /\ df_column name df = Some (s_values s).
Proof.
  unfold df_getitem. destruct (df_column name df); intro H; inversion H. auto.
Qed.

(** Every row of a join plan comes from a row of the left frame. *)
Lemma join_rows_for_left (i : nat) (k : pykey) (ridx : list pykey) (r : join_row) :
  In r (join_rows_for i k ridx) -> jr_left r = i.
Proof.
  unfold join_rows_for. destruct (positions k ridx) as [| j js].
  - intros [<- | []]. reflexivity.
  - intro H. apply in_map_iff in H. destruct H as (j' & <- & _). reflexivity.
Qed.

Lemma join_plan_from_left (i : nat) (lidx ridx : list pykey) (r : join_row) :
  In r (join_plan_from i lidx ridx) ->
  (i <= jr_left r < i + length lidx)%nat.
Proof.
  revert i. induction lidx as [| k lidx IH]; intros i H; simpl in H; [contradiction |].
  apply in_app_or in H. destruct H as [H | H].
  - apply join_rows_for_left in H. simpl. lia.
  - apply IH in H. simpl. lia.
Qed.

Lemma take_left_floats (plan : list join_row) (closes : list Q) :
  (forall r, In r plan -> (jr_left r < length closes)%nat) ->
  take_left plan (map VFloat closes)
  = map VFloat (map (fun r => nth (jr_left r) closes 0%Q) plan).
Proof.
  intro H. unfold take_left. rewrite map_map. apply map_ext_in.
  intros r Hr. rewrite (nth_indep _ VNaN (VFloat 0%Q)).
  - apply (map_nth VFloat).
  - rewrite length_map. now apply H.
Qed.

(** ** The closing prices along the pipeline *)

Lemma has_closes_history (bars : list bar) :
  has_closes (history_frame bars) (map bar_close bars).
Proof.
  split.
  - unfold df_column. simpl. now rewrite map_map.
  - unfold df_nrows. simpl. now rewrite !length_map.
Qed.

Lemma has_closes_setitem (name : pykey) value (df df' : DataFrame) closes :
  pykey_eqb (KStr "Close") name = false ->
  df_setitem name value df = Ok df' ->
  has_closes df closes -> has_closes df' closes.
Proof.
  intros Hne H [Hc Hl]. split.
  - rewrite (df_setitem_column_other _ _ _ _ _ Hne H). exact Hc.
  - apply df_setitem_ok in H. destruct H as (Hi & _).
    unfold df_nrows. now rewrite Hi.
Qed.

Lemma has_closes_join (l r df' : DataFrame) closes :
  df_join l r = Ok df' ->
  has_closes l closes ->
  exists closes', has_closes df' closes'.
Proof.
  unfold df_join. destruct (names_overlap (df_names l) (df_names r)); [discriminate |].
  intros H [Hc Hl]. inversion H; subst df'. clear H.
  exists (map (fun r => nth (jr_left r) closes 0%Q) (join_plan (df_index l) (df_index r))).
  split.
  - unfold df_column. simpl. rewrite column_lookup_app, column_lookup_map.
    unfold df_column in Hc. rewrite Hc. simpl. f_equal.
    apply take_left_floats. intros x Hx.
    apply join_plan_from_left in Hx. unfold df_nrows in Hl. lia.
  - unfold df_nrows. simpl. now rewrite !length_map.
Qed.

(** Peel every bind, lift, ret and fetch of computations that ended
    normally. *)
Ltac invert_runs :=
  repeat match goal with
  | H : bind _ _ = (_, Ok _) |- _ =>
      apply bind_ok in H; destruct H as (? & ? & ? & ? & H & ?)
  | H : lift _ = (_, Ok _) |- _ => apply lift_ok in H; destruct H as [H ?]
  | H : ret _ = (_, Ok _) |- _ => apply ret_ok in H; destruct H as [H ?]
  | H : fetch _ _ = (_, Ok _) |- _ => apply fetch_ok in H; destruct H as [H ?]
  end.

(** A compute-or-omit stage keeps the frame's closing prices well formed. *)
Lemma stage_join_ok (msg : message) (df : DataFrame) (other : option DataFrame)
  (t : list event) (df' : DataFrame) (closes : list Q) :
  match other with
  | Some m => lift (df_join df m)
  | None => bind (log WARNING msg) (fun _ => ret df)
  end = (t, Ok df') ->
  has_closes df closes -> exists closes', has_closes df' closes'.
Proof.
  destruct other as [m |]; intros H Hc.
  - apply lift_ok in H. destruct H as [H _]. eapply has_closes_join; eauto.
  - inversion H; subst. eauto.
Qed.

(** A rolling column assigned from the frame's own Close column. *)
Lemma rolling_stage (name : pykey) (pick : Q -> Q -> Q)
  (df df' : DataFrame) (s : Series) (closes : list Q) :
  pykey_eqb (KStr "Close") name = false ->
  has_closes df closes ->
  df_getitem (KStr "Close") df = Ok s ->
  df_setitem name (Some (rolling 20 1 pick s)) df = Ok df' ->
  has_closes df' closes /\
  df_column name df'
  = Some (map (rolling_cell 20 1 pick (map VFloat closes)) (seq 0 (length closes))).
Proof.
  intros Hne Hc Hget Hset. split.
  - eapply has_closes_setitem; eauto.
  - apply df_getitem_ok in Hget. destruct Hget as [Hi Hv].
    destruct Hc as [Hcol Hlen]. rewrite Hcol in Hv. inversion Hv as [Hvals].
    rewrite df_setitem_aligned in Hset by exact Hi.
    inversion Hset; subst df'. unfold df_column. simpl.
    rewrite column_lookup_assign_same. rewrite <- Hvals.
    now rewrite length_map.
Qed.

Lemma add_indicators_ok (w : World) (symbol : string) (df : DataFrame)
  (t : list event) (out : DataFrame) (closes : list Q) :
  has_closes df closes ->
  add_indicators w symbol df = (t, Ok out) ->
  exists closes',
    has_closes out closes' /\
    df_column (KStr "Support") out
    = Some (map (rolling_cell 20 1 qmin (map VFloat closes'))
                (seq 0 (length closes'))) /\
    df_column (KStr "Resistance") out
    = Some (map (rolling_cell 20 1 qmax (map VFloat closes'))
                (seq 0 (length closes'))).
Proof.
  intros Hc H. unfold add_indicators in H. invert_runs.
  match goal with
  | Hs : df_setitem (KStr "RSI") _ df = Ok ?d |- _ =>
      assert (Hc1 : has_closes d closes)
        by (exact (has_closes_setitem (KStr "RSI") _ _ _ _ eq_refl Hs Hc))
  end.
  match goal with
  | Hj : match _ with
         | Some _ => _
         | None => bind (log WARNING (MsgMacdNotCalculated _)) _
         end = (_, Ok _) |- _ =>
      destruct (stage_join_ok _ _ _ _ _ _ Hj Hc1) as [closes2 Hc2]
  end.
  match goal with
  | Hj : match _ with
         | Some _ => _
         | None => bind (log WARNING (MsgBollingerNotCalculated _)) _
         end = (_, Ok _) |- _ =>
      destruct (stage_join_ok _ _ _ _ _ _ Hj Hc2) as [closes3 Hc3]
  end.
  exists closes3.
  match goal with
  | Hg : df_getitem _ ?d = Ok ?s,
    Hs : df_setitem (KStr "Support") (Some (rolling_min 20 1 ?s)) ?d = Ok _ |- _ =>
      destruct (rolling_stage (KStr "Support") qmin _ _ _ _ eq_refl Hc3 Hg Hs)
        as [Hc4 Hsupport]
  end.
  match goal with
  | Hg : df_getitem _ ?d = Ok ?s,
    Hs : df_setitem (KStr "Resistance") (Some (rolling_max 20 1 ?s)) ?d = Ok _ |- _ =>
      destruct (rolling_stage (KStr "Resistance") qmax _ _ _ _ eq_refl Hc4 Hg Hs)
        as [Hc5 Hresistance];
      pose proof (df_setitem_column_other (KStr "Resistance") (KStr "Support")
                    _ _ _ eq_refl Hs) as Hkeep
  end.
  subst out. repeat split; try apply Hc5.
  - rewrite Hkeep. exact Hsupport.
  - exact Hresistance.
Qed.

(** ** Rows are never lost *)

Lemma join_rows_for_nonempty (i : nat) (k : pykey) (ridx : list pykey) :
  (1 <= length (join_rows_for i k ridx))%nat.
Proof.
  unfold join_rows_for. destruct (positions k ridx); simpl; lia.
Qed.

Lemma join_plan_from_length (i : nat) (lidx ridx : list pykey) :
  (length lidx <= length (join_plan_from i lidx ridx))%nat.
Proof.
  revert i. induction lidx as [| k lidx IH]; intro i; simpl; [lia |].
  rewrite length_app. pose proof (join_rows_for_nonempty i k ridx).
  specialize (IH (S i)). lia.
Qed.

Lemma df_join_rows (l r df' : DataFrame) :
  df_join l r = Ok df' -> (df_nrows l <= df_nrows df')%nat.
Proof.
  unfold df_join. destruct (names_overlap (df_names l) (df_names r)); [discriminate |].
  intro H. inversion H; subst df'. unfold df_nrows. simpl.
  rewrite length_map. apply join_plan_from_length.
Qed.

Lemma stage_join_rows (msg : message) (df : DataFrame) (other : option DataFrame)
  (t : list event) (df' : DataFrame) :
  match other with
  | Some m => lift (df_join df m)
  | None => bind (log WARNING msg) (fun _ => ret df)
  end = (t, Ok df') ->
  (df_nrows df <= df_nrows df')%nat.
Proof.
  destruct other as [m |]; intro H.
  - apply lift_ok in H. destruct H as [H _]. now apply (df_join_rows df m).
  - inversion H; subst. lia.
Qed.

Lemma df_setitem_rows (name : pykey) value (df df' : DataFrame) :
  df_setitem name value df = Ok df' -> df_nrows df' = df_nrows df.
Proof.
  intro H. apply df_setitem_ok in H. destruct H as [H _].
  unfold df_nrows. now rewrite H.
Qed.

Lemma add_indicators_rows (w : World) (symbol : string) (df : DataFrame)
  (t : list event) (out : DataFrame) :
  add_indicators w symbol df = (t, Ok out) ->
  (df_nrows df <= df_nrows out)%nat.
Proof.
  intro H. unfold add_indicators in H. invert_runs.
  repeat match goal with
  | Hs : df_setitem _ _ _ = Ok _ |- _ => apply df_setitem_rows in Hs
  | Hj : match _ with Some _ => _ | None => _ end = (_, Ok _) |- _ =>
      apply stage_join_rows in Hj
  end.
  subst out. lia.
Qed.

(** What a run of the tool that produced a table went through. *)
Lemma get_price_history_table_ok (w : World) (symbol period interval : string)
  (t : list event) (out : DataFrame) :
  get_price_history_table w symbol period interval = (t, Ok (MarkdownOf out)) ->
  exists bars t',
    yf_history w symbol period interval = Ok bars /\
    bars <> [] /\
    add_indicators w symbol (history_frame bars) = (t', Ok out) /\
    t = Fetch (ReqHistory symbol period interval) :: t'.
Proof.
  intro H. unfold get_price_history_table in H.
  apply bind_ok in H. destruct H as (t1 & bars & t2 & Hfetch & Hrest & Ht).
  apply fetch_ok in Hfetch. destruct Hfetch as [Hbars ->].
  destruct (df_empty (history_frame bars)) eqn:Hempty.
  - inversion Hrest.
  - apply bind_ok in Hrest. destruct Hrest as (t3 & df & t4 & Hadd & Hret & Ht2).
    apply ret_ok in Hret. destruct Hret as [Hdf ->]. inversion Hdf; subst df.
    exists bars, t3. repeat split; auto.
    + intros ->. discriminate Hempty.
    + subst t2. rewrite app_nil_r in Ht. exact Ht.
Qed.

(** C4. Whenever [get_price_history] produces a table, the table has at
    least one row, its Close column holds a finite price on every row, and at
    every row the Support cell is the minimum and the Resistance cell the
    maximum of the closing prices of the trailing 20-row window (of all rows
    so far while fewer than 20 exist); both cells are defined numbers on
    every row, the first included. *)
Theorem support_resistance_window_extrema
  (w : World) (symbol period interval : string) (t : list event) (out : DataFrame) :
  get_price_history_table w symbol period interval = (t, Ok (MarkdownOf out)) ->
  (0 < df_nrows out)%nat /\
  exists closes,
    has_closes out closes /\
    forall i, (i < df_nrows out)%nat ->
      exists lo hi,
        df_cell (KStr "Support") i out = Some (VFloat lo) /\
        df_cell (KStr "Resistance") i out = Some (VFloat hi) /\
        is_window_min closes i lo /\
        is_window_max closes i hi.
Proof.
  intro H. apply get_price_history_table_ok in H.
  destruct H as (bars & t' & _ & Hne & Hadd & _).
  pose proof (add_indicators_rows _ _ _ _ _ Hadd) as Hrows.
  destruct (add_indicators_ok _ _ _ _ _ _ (has_closes_history bars) Hadd)
    as (closes & Hc & Hs & Hr).
  split.
  - unfold df_nrows in Hrows at 1. simpl in Hrows. rewrite length_map in Hrows.
    destruct bars; [contradiction | simpl in Hrows; lia].
  - exists closes. split; [exact Hc |]. intros i Hi.
    destruct Hc as [_ Hlen]. rewrite <- Hlen in Hi.
    destruct (rolling_cell_min closes i Hi) as (lo & Hlo & Hmin).
    destruct (rolling_cell_max closes i Hi) as (hi & Hhi & Hmax).
    exists lo, hi. unfold df_cell. rewrite Hs, Hr.
    rewrite !nth_error_map, !nth_error_seq.
    apply Nat.ltb_lt in Hi. rewrite Hi. simpl. rewrite Hlo, Hhi. auto.
Qed.

(* ===================================================================== *)
(** * The join on an index without duplicate labels *)
(* ===================================================================== *)

Lemma positions_from_absent (j : nat) (k : pykey) (idx : list pykey) :
  ~ In k idx -> positions_from j k idx = [].
Proof.
  revert j. induction idx as [| k' idx IH]; intros j Hnot; simpl; [reflexivity |].
  destruct (pykey_eqb k k') eqn:E.
  - apply pykey_eqb_eq in E. subst k'. exfalso. apply Hnot. now left.
  - apply IH. intro Hin. apply Hnot. now right.
Qed.

Lemma positions_from_unique (j : nat) (k : pykey) (idx : list pykey) :
  NoDup idx -> (length (positions_from j k idx) <= 1)%nat.
Proof.
  intro Hnd. revert j. induction Hnd as [| k' idx Hnot Hnd IH]; intro j; simpl; [lia |].
  destruct (pykey_eqb k k') eqn:E.
  - apply pykey_eqb_eq in E. subst k'.
    rewrite positions_from_absent by exact Hnot. simpl. lia.
  - apply IH.
Qed.

(** With at most one match per label, the plan is the rows of the left
    frame, each once. *)
Lemma join_plan_from_identity (i : nat) (lidx ridx : list pykey) :
  NoDup ridx ->
  map jr_label (join_plan_from i lidx ridx) = lidx /\
  map jr_left (join_plan_from i lidx ridx) = seq i (length lidx).
Proof.
  intro Hnd. revert i. induction lidx as [| k lidx IH]; intro i; simpl; [auto |].
  destruct (IH (S i)) as [IHl IHr]. rewrite !map_app, IHl, IHr.
  unfold join_rows_for. pose proof (positions_from_unique 0 k ridx Hnd) as Hu.
  unfold positions. destruct (positions_from 0 k ridx) as [| j [| j' js]]; simpl in *.
  - auto.
  - auto.
  - lia.
Qed.

Lemma nth_seq_identity (c : list pyval) :
  map (fun i => nth i c VNaN) (seq 0 (length c)) = c.
Proof.
  apply (nth_ext _ _ VNaN VNaN).
  - now rewrite length_map, length_seq.
  - intros n Hn. rewrite length_map, length_seq in Hn.
    rewrite (nth_indep _ VNaN (nth 0 c VNaN)) by (now rewrite length_map, length_seq).
    rewrite (map_nth (fun i => nth i c VNaN) (seq 0 (length c)) 0%nat n).
    now rewrite seq_nth.
Qed.

Lemma take_left_identity (lidx ridx : list pykey) (c : list pyval) :
  NoDup ridx -> length c = length lidx ->
  take_left (join_plan lidx ridx) c = c.
Proof.
  intros Hnd Hlen. unfold take_left, join_plan.
  destruct (join_plan_from_identity 0 lidx ridx Hnd) as [_ Hleft].
  rewrite <- (map_map jr_left (fun i => nth i c VNaN)), Hleft, <- Hlen.
  apply nth_seq_identity.
Qed.

Lemma history_columns_length (bars : list bar) (name : pykey) (c : list pyval) :
  df_column name (history_frame bars) = Some c -> length c = length bars.
Proof.
  unfold df_column. simpl.
  repeat match goal with
  | |- context [pykey_eqb name ?k] => destruct (pykey_eqb name k)
  end; intro H; inversion H; now rewrite length_map.
Qed.

Lemma history_names_column (bars : list bar) (name : pykey) :
  In name (df_names (history_frame bars)) ->
  exists c, df_column name (history_frame bars) = Some c.
Proof.
  unfold df_column. simpl.
  intros [<- | [<- | [<- | [<- | [<- | []]]]]]; simpl; eauto.
Qed.

Lemma history_names_fresh (bars : list bar) (name : pykey) :
  In name (df_names (history_frame bars)) ->
  pykey_eqb name (KStr "RSI") = false /\
  pykey_eqb name (KStr "Support") = false /\
  pykey_eqb name (KStr "Resistance") = false.
Proof.
  simpl. intros [<- | [<- | [<- | [<- | [<- | []]]]]]; auto.
Qed.

(** A label carried by two rows on both sides pairs up row by row, as a
    left join does; row preservation is therefore stated for an index whose
    labels are distinct, which is what the price series is indexed by. *)
Example repeated_labels_pair_up :
  df_join (mkFrame [KInt 0; KInt 0] [(KStr "a", [VInt 1; VInt 2])])
          (mkFrame [KInt 0; KInt 0] [(KStr "b", [VInt 3; VInt 4])])
  = Ok (mkFrame [KInt 0; KInt 0; KInt 0; KInt 0]
          [ (KStr "a", [VInt 1; VInt 1; VInt 2; VInt 2]);
            (KStr "b", [VInt 3; VInt 4; VInt 3; VInt 4]) ]).
Proof. reflexivity. Qed.

Lemma timestamps_NoDup (bars : list bar) :
  NoDup (map bar_time bars) -> NoDup (df_index (history_frame bars)).
Proof.
  simpl. induction bars as [| b bars IH]; simpl; intro H; [constructor |].
  inversion H as [| x l Hnot Hnd]; subst. constructor.
  - intro Hin. apply in_map_iff in Hin. destruct Hin as (b' & Hb & Hin).
    inversion Hb as [Heq]. apply Hnot. rewrite <- Heq. now apply in_map.
  - now apply IH.
Qed.

Lemma rows_preserved_history (bars : list bar) :
  rows_preserved bars (history_frame bars).
Proof. split; auto. Qed.

Lemma rows_preserved_setitem (bars : list bar) (name : pykey) value
  (df df' : DataFrame) :
  ~ In name (df_names (history_frame bars)) ->
  df_setitem name value df = Ok df' ->
  rows_preserved bars df -> rows_preserved bars df'.
Proof.
  intros Hfresh Hset [Hi Hc]. split.
  - apply df_setitem_ok in Hset. destruct Hset as [Hset _]. congruence.
  - intros other Hin. rewrite <- (Hc other Hin).
    eapply df_setitem_column_other; [| exact Hset].
    apply pykey_eqb_neq. intros ->. contradiction.
Qed.

Lemma rows_preserved_join (bars : list bar) (l r df' : DataFrame) :
  NoDup (df_index r) ->
  df_join l r = Ok df' ->
  rows_preserved bars l -> rows_preserved bars df'.
Proof.
  intros Hnd Hjoin [Hi Hc]. unfold df_join in Hjoin.
  destruct (names_overlap (df_names l) (df_names r)); [discriminate |].
  inversion Hjoin; subst df'. clear Hjoin. split.
  - simpl. unfold join_plan.
    destruct (join_plan_from_identity 0 (df_index l) (df_index r) Hnd) as [Hl _].
    now rewrite Hl.
  - intros name Hin. specialize (Hc name Hin).
    destruct (history_names_column bars name Hin) as [c Hcol].
    unfold df_column in *. simpl df_columns at 1.
    rewrite column_lookup_app, column_lookup_map, Hc, Hcol. simpl. f_equal.
    apply take_left_identity; [exact Hnd |].
    rewrite Hi. simpl df_index. rewrite length_map.
    apply (history_columns_length bars name). exact Hcol.
Qed.

Lemma stage_join_rows_preserved (bars : list bar) (msg : message)
  (df : DataFrame) (s : Series) (other : option DataFrame)
  (t : list event) (df' : DataFrame) :
  NoDup (df_index (history_frame bars)) ->
  df_getitem (KStr "Close") df = Ok s ->
  (forall f, other = Some f -> df_index f = s_index s) ->
  rows_preserved bars df ->
  match other with
  | Some m => lift (df_join df m)
  | None => bind (log WARNING msg) (fun _ => ret df)
  end = (t, Ok df') ->
  rows_preserved bars df'.
Proof.
  intros Hnd Hget Haligned Hrows H. destruct other as [m |].
  - apply lift_ok in H. destruct H as [H _].
    apply (rows_preserved_join bars df m); auto.
    rewrite (Haligned m eq_refl).
    apply df_getitem_ok in Hget. destruct Hget as [-> _].
    destruct Hrows as [-> _]. exact Hnd.
  - inversion H; subst. exact Hrows.
Qed.

Lemma add_indicators_rows_preserved (w : World) (symbol : string)
  (bars : list bar) (t : list event) (out : DataFrame) :
  NoDup (map bar_time bars) ->
  indicators_aligned w ->
  add_indicators w symbol (history_frame bars) = (t, Ok out) ->
  rows_preserved bars out.
Proof.
  intros Hnd [Hmacd Hbb] H. apply timestamps_NoDup in Hnd.
  unfold add_indicators in H. invert_runs.
  assert (Hfresh : forall name,
             name = KStr "RSI" \/ name = KStr "Support" \/ name = KStr "Resistance" ->
             ~ In name (df_names (history_frame bars))).
  { intros name Hname Hin. apply history_names_fresh in Hin.
    destruct Hin as (Ha & Hb & Hc).
    destruct Hname as [-> | [-> | ->]]; discriminate. }
  match goal with
  | Hs : df_setitem (KStr "RSI") _ _ = Ok ?d |- _ =>
      assert (R1 : rows_preserved bars d)
        by (apply (rows_preserved_setitem bars (KStr "RSI") _ _ _
                     (Hfresh _ (or_introl eq_refl)) Hs),
            rows_preserved_history)
  end.
  match goal with
  | Hg : df_getitem _ ?d = Ok ?s, Hm : ta_macd w ?s = Ok ?o,
    Hj : match ?o with Some _ => _ | None => _ end = (_, Ok ?d') |- _ =>
      assert (R2 : rows_preserved bars d')
        by (eapply (stage_join_rows_preserved bars _ d s o _ d' Hnd Hg);
            [ intros f ->; now apply Hmacd | exact R1 | exact Hj ])
  end.
  match goal with
  | Hg : df_getitem _ ?d = Ok ?s, Hm : ta_bbands w ?s = Ok ?o,
    Hj : match ?o with Some _ => _ | None => _ end = (_, Ok ?d') |- _ =>
      assert (R3 : rows_preserved bars d')
        by (eapply (stage_join_rows_preserved bars _ d s o _ d' Hnd Hg);
            [ intros f ->; now apply Hbb | exact R2 | exact Hj ])
  end.
  match goal with
  | Hs : df_setitem (KStr "Support") _ _ = Ok ?d |- _ =>
      assert (R4 : rows_preserved bars d)
        by (apply (rows_preserved_setitem bars (KStr "Support") _ _ _
                     (Hfresh _ (or_intror (or_introl eq_refl))) Hs), R3)
  end.
  match goal with
  | Hs : df_setitem (KStr "Resistance") _ _ = Ok ?d |- _ =>
      assert (R5 : rows_preserved bars d)
        by (apply (rows_preserved_setitem bars (KStr "Resistance") _ _ _
                     (Hfresh _ (or_intror (or_intror eq_refl))) Hs), R4)
  end.
  subst out. exact R5.
Qed.

(** C3. For a fetched series whose timestamps are pairwise distinct, with
    an indicator library that returns its frames over the index of the series
    it was given, joining the MACD and Bollinger columns never introduces,
    drops or reorders rows: the table [get_price_history] produces has as
    many rows as the series, the same timestamp index in the same order, and
    every fetched column cell for cell. *)
Theorem join_preserves_rows
  (w : World) (symbol period interval : string) (bars : list bar)
  (t : list event) (out : DataFrame) :
  yf_history w symbol period interval = Ok bars ->
  NoDup (map bar_time bars) ->
  indicators_aligned w ->
  get_price_history_table w symbol period interval = (t, Ok (MarkdownOf out)) ->
  df_nrows out = length bars /\
  df_index out = map (fun b => KTimestamp (bar_time b)) bars /\
  forall name, In name (df_names (history_frame bars)) ->
    df_column name out = df_column name (history_frame bars).
Proof.
  intros Hbars Hnd Haligned H. apply get_price_history_table_ok in H.
  destruct H as (bars' & t' & Hbars' & _ & Hadd & _).
  rewrite Hbars in Hbars'. inversion Hbars'; subst bars'.
  destruct (add_indicators_rows_preserved w symbol bars t' out Hnd Haligned Hadd)
    as [Hi Hc].
  repeat split.
  - unfold df_nrows. rewrite Hi. simpl. now rewrite length_map.
  - exact Hi.
  - exact Hc.
Qed.

Lemma join_preserves_rows_witness :
  df_nrows eager_table = length week_bars /\
  df_index eager_table = map (fun b => KTimestamp (bar_time b)) week_bars /\
  forall name, In name (df_names (history_frame week_bars)) ->
    df_column name eager_table = df_column name (history_frame week_bars).
Proof.
  apply (join_preserves_rows eager_world "AAPL" "1wk" "1d" week_bars
           [Fetch (ReqHistory "AAPL" "1wk" "1d")]).
  - reflexivity.
  - simpl. repeat constructor; simpl; intuition discriminate.
  - split; intros s f H; inversion H; reflexivity.
  - vm_compute. reflexivity.
Defined.

Lemma support_resistance_window_extrema_witness :
  (0 < df_nrows week_table)%nat /\
  exists closes,
    has_closes week_table closes /\
    forall i, (i < df_nrows week_table)%nat ->
      exists lo hi,
        df_cell (KStr "Support") i week_table = Some (VFloat lo) /\
        df_cell (KStr "Resistance") i week_table = Some (VFloat hi) /\
        is_window_min closes i lo /\
        is_window_max closes i hi.
Proof.
  apply (support_resistance_window_extrema week_world "AAPL" "1wk" "1d"
           [Fetch (ReqHistory "AAPL" "1wk" "1d");
            Log WARNING (MsgMacdNotCalculated "AAPL")]).
  vm_compute. reflexivity.
Defined.

(* ===================================================================== *)
(** * [get_price_history]: what is guarded and what is not *)
(* ===================================================================== *)

Lemma bind_lift_ok {A B : Type} (a : A) (f : A -> M B) :
  bind (lift (Ok a)) f = f a.
Proof. unfold bind, lift. simpl. now destruct (f a). Qed.

Lemma bind_log {B : Type} (lvl : level) (m : message) (f : unit -> M B) :
  bind (log lvl m) f = (Log lvl m :: fst (f tt), snd (f tt)).
Proof. reflexivity. Qed.

Lemma bind_log_ret {A B : Type} (lvl : level) (m : message) (a : A) (f : A -> M B) :
  bind (bind (log lvl m) (fun _ => ret a)) f = (Log lvl m :: fst (f a), snd (f a)).
Proof. reflexivity. Qed.

Lemma bind_fetch_ok {A B : Type} (r : request) (a : A) (f : A -> M B) :
  bind (fetch r (Ok a)) f = (Fetch r :: fst (f a), snd (f a)).
Proof. reflexivity. Qed.

Lemma getitem_close_history (bars : list bar) :
  df_getitem (KStr "Close") (history_frame bars) = Ok (close_series bars).
Proof. reflexivity. Qed.

Lemma history_not_empty (bars : list bar) :
  bars <> [] -> df_empty (history_frame bars) = false.
Proof. destruct bars; [contradiction | reflexivity]. Qed.

(** On a non-empty series the tool is the indicator pipeline. *)
Lemma get_price_history_table_nonempty (w : World) (symbol period interval : string)
  (bars : list bar) :
  yf_history w symbol period interval = Ok bars ->
  bars <> [] ->
  get_price_history_table w symbol period interval
  = (Fetch (ReqHistory symbol period interval)
       :: trace (add_indicators w symbol (history_frame bars)),
     match outcome (add_indicators w symbol (history_frame bars)) with
     | Ok df => Ok (MarkdownOf df)
     | Raise e => Raise e
     end).
Proof.
  intros Hbars Hne. unfold get_price_history_table.
  rewrite Hbars, bind_fetch_ok, (history_not_empty bars Hne).
  unfold trace, outcome, bind.
  destruct (add_indicators w symbol (history_frame bars)) as [t [df | e]]; simpl.
  - now rewrite app_nil_r.
  - reflexivity.
Qed.

(** The unguarded assignment: the RSI column is there whatever [ta.rsi]
    returned, filled with [None] when it returned [None]. *)
Lemma setitem_rsi_history (bars : list bar) (r : option Series) :
  rsi_aligned r bars ->
  df_setitem (KStr "RSI") r (history_frame bars)
  = Ok (mkFrame (df_index (history_frame bars))
          (df_columns (history_frame bars)
           ++ [(KStr "RSI", rsi_column r (length bars))])).
Proof.
  intro Ha. destruct r as [s |].
  - rewrite df_setitem_aligned by (now apply Ha). reflexivity.
  - unfold df_setitem, df_nrows. simpl. now rewrite length_map.
Qed.

(** C1, at the failing input. For the 5-row week, with an indicator library
    that has pandas_ta's minimum lengths, the table [get_price_history]
    serializes still has an RSI column, present on all 5 rows and filled
    with [None]; the trace holds the MACD warning and no record about RSI.
    Support and Resistance are numbers on all 5 rows. *)
Theorem short_series_keeps_rsi_column :
  get_price_history_table week_world "AAPL" "1wk" "1d"
  = ([ Fetch (ReqHistory "AAPL" "1wk" "1d");
       Log WARNING (MsgMacdNotCalculated "AAPL") ],
     Ok (MarkdownOf week_table)) /\
  In (KStr "RSI") (df_names week_table) /\
  df_column (KStr "RSI") week_table = Some [VNone; VNone; VNone; VNone; VNone] /\
  df_column (KStr "MACD_12_26_9") week_table = None /\
  df_column (KStr "Support") week_table
  = Some [ VFloat (18564#100); VFloat (18425#100); VFloat (18191#100);
           VFloat (18118#100); VFloat (18118#100) ] /\
  df_column (KStr "Resistance") week_table
  = Some [ VFloat (18564#100); VFloat (18564#100); VFloat (18564#100);
           VFloat (18564#100); VFloat (18564#100) ].
Proof.
  repeat split; try reflexivity.
  simpl. tauto.
Qed.

(** C2, refuted as stated: an exception raised by [ta.rsi] leaves
    [get_price_history] as it was raised. *)
Lemma rsi_exception_propagates :
  get_price_history failing_rsi_world "AAPL" "1wk" "1d"
  = ([Fetch (ReqHistory "AAPL" "1wk" "1d")], Raise rsi_failure).
Proof. reflexivity. Qed.

(* ===================================================================== *)
(** * [search] *)
(* ===================================================================== *)

(** C8, refuted as stated: the search type is lowered before it is
    matched, so ["ALL"], which is none of the three words, is served like
    ["all"]: the accessor is read and its value serialized. *)
Lemma uppercase_search_type_is_served :
  "ALL" <> "all" /\ "ALL" <> "quotes" /\ "ALL" <> "news" /\
  search_reply search_world "apple" "ALL"
  = ([ Fetch (ReqSearch "apple" None); Fetch ReqSearchAll;
       Log INFO (MsgSearchResults "apple" "ALL" (search_all apple_search)) ],
     Ok (JsonOf None (search_all apple_search))) /\
  outcome (search search_world "apple" "ALL") <> Ok invalid_output_type.
Proof.
  repeat split; try discriminate. 
Qed.

(** C8, amended. A search type whose lower-cased form is none of [all],
    [quotes], [news] gets the fixed message; none of the three result
    accessors is read.  The search object is built before the dispatch: that
    call is the only event, and an exception it raises is the only one that
    can leave the function. *)
Theorem unrecognised_search_type
  (w : World) (query search_type : string) :
  py_lower search_type <> "all" ->
  py_lower search_type <> "quotes" ->
  py_lower search_type <> "news" ->
  search_reply w query search_type
  = ([Fetch (ReqSearch query None)],
     match yf_search w query None with
     | Ok _ => Ok (Message invalid_output_type)
     | Raise e => Raise e
     end) /\
  search w query search_type
  = ([Fetch (ReqSearch query None)],
     match yf_search w query None with
     | Ok _ => Ok invalid_output_type
     | Raise e => Raise e
     end).
Proof.
  intros Hall Hquotes Hnews.
  apply String.eqb_neq in Hall, Hquotes, Hnews.
  assert (Hreply : search_reply w query search_type
                   = ([Fetch (ReqSearch query None)],
                      match yf_search w query None with
                      | Ok _ => Ok (Message invalid_output_type)
                      | Raise e => Raise e
                      end)).
  { unfold search_reply. destruct (yf_search w query None) as [s | e].
    - rewrite bind_fetch_ok, Hall, Hquotes, Hnews. reflexivity.
    - reflexivity. }
  split; [exact Hreply |].
  unfold search. rewrite Hreply.
  destruct (yf_search w query None); reflexivity.
Qed.

Lemma unrecognised_search_type_witness :
  search_reply search_world "apple" "videos"
  = ([Fetch (ReqSearch "apple" None)], Ok (Message invalid_output_type)) /\
  search search_world "apple" "videos"
  = ([Fetch (ReqSearch "apple" None)], Ok invalid_output_type).
Proof.
  apply (unrecognised_search_type search_world "apple" "videos"); discriminate.
Defined.

(* ===================================================================== *)
(** * [get_stock_recommendations] *)
(* ===================================================================== *)

Lemma last_n_is_last_rows {A : Type} (n : nat) (l : list A) :
  is_last_rows n l (last_n n l).
Proof.
  unfold is_last_rows, last_n. split.
  - exists (firstn (length l - n) l). symmetry. apply firstn_skipn.
  - rewrite length_skipn. lia.
Qed.

Lemma df_tail_column (n : nat) (name : pykey) (df : DataFrame) :
  df_column name (df_tail n df) = option_map (last_n n) (df_column name df).
Proof. unfold df_column, df_tail. simpl. apply column_lookup_map. Qed.

(** C9. When the provider returns a non-empty recommendations table, the
    table handed to [to_markdown] is its last 20 rows in their order (all of
    them when there are fewer): the index and every column are the
    corresponding suffix.  When it returns [None] or an empty table, the
    fixed no-recommendations message for the symbol is returned. *)
Theorem recommendations_last_twenty (w : World) (symbol : string) :
  (forall table,
      yf_recommendations w symbol = Ok (Some table) ->
      df_empty table = false ->
      exists out,
        get_stock_recommendations_reply w symbol
        = ([ Fetch (ReqRecommendations symbol);
             Log INFO (MsgRetrievedRecommendations symbol out) ],
           Ok (MarkdownOf out)) /\
        (df_nrows out <= 20)%nat /\
        is_last_rows 20 (df_index table) (df_index out) /\
        df_names out = df_names table /\
        forall name c, df_column name table = Some c ->
          exists kept, df_column name out = Some kept /\ is_last_rows 20 c kept) /\
  (yf_recommendations w symbol = Ok None \/
   (exists table, yf_recommendations w symbol = Ok (Some table) /\
                  df_empty table = true) ->
   get_stock_recommendations_reply w symbol
   = ([ Fetch (ReqRecommendations symbol);
        Log INFO (MsgNoRecommendations symbol) ],
      Ok (Message (no_recommendations symbol)))).
Proof.
  split.
  - intros table Hrecs Hne. exists (df_tail 20 table).
    unfold get_stock_recommendations_reply. rewrite Hrecs, bind_fetch_ok, Hne.
    repeat split.
    + pose proof (last_n_is_last_rows 20 (df_index table)) as [_ Hlen].
      unfold df_nrows. simpl. lia.
    + apply last_n_is_last_rows.
    + apply last_n_is_last_rows.
    + unfold df_names, df_tail. simpl. rewrite map_map. reflexivity.
    + intros name c Hc. exists (last_n 20 c). split.
      * rewrite df_tail_column, Hc. reflexivity.
      * apply last_n_is_last_rows.
  - unfold get_stock_recommendations_reply.
    intros [Hnone | (table & Hrecs & Hempty)].
    + rewrite Hnone. reflexivity.
    + rewrite Hrecs, bind_fetch_ok, Hempty. reflexivity.
Qed.

Lemma recommendations_last_twenty_witness :
  (exists out,
      get_stock_recommendations_reply recs_world "AAPL"
      = ([ Fetch (ReqRecommendations "AAPL");
           Log INFO (MsgRetrievedRecommendations "AAPL" out) ],
         Ok (MarkdownOf out)) /\
      (df_nrows out <= 20)%nat /\
      is_last_rows 20 (df_index recs_table) (df_index out) /\
      df_names out = df_names recs_table /\
      forall name c, df_column name recs_table = Some c ->
        exists kept, df_column name out = Some kept /\ is_last_rows 20 c kept) /\
  get_stock_recommendations_reply search_world "AAPL"
  = ([ Fetch (ReqRecommendations "AAPL"); Log INFO (MsgNoRecommendations "AAPL") ],
     Ok (Message (no_recommendations "AAPL"))).
Proof.
  split.
  - apply (proj1 (recommendations_last_twenty recs_world "AAPL") recs_table);
      reflexivity.
  - apply (proj2 (recommendations_last_twenty search_world "AAPL")).
    left. reflexivity.
Defined.

(* ===================================================================== *)
(** * [get_stock_news] *)
(* ===================================================================== *)

(** An item with a content mapping is projected to title, summary and
    publication date, a placeholder standing in for each absent key. *)
Lemma simplify_item_projects (d c : pydict) :
  dict_get (KStr "content") d = Some (VDict c) ->
  simplify_item (VDict d)
  = Ok (Some (VDict
      [ (KStr "title", dict_get_default (KStr "title") (VStr "No title") c);
        (KStr "summary", dict_get_default (KStr "summary") (VStr "No summary") c);
        (KStr "pubDate", dict_get_default (KStr "pubDate") (VStr "No date") c) ])).
Proof. intro H. unfold simplify_item. rewrite H. reflexivity. Qed.

Lemma simplify_item_placeholders (d : pydict) :
  dict_get (KStr "content") d = Some (VDict []) ->
  simplify_item (VDict d)
  = Ok (Some (VDict [ (KStr "title", VStr "No title");
                      (KStr "summary", VStr "No summary");
                      (KStr "pubDate", VStr "No date") ])).
Proof. intro H. now rewrite (simplify_item_projects d []). Qed.

(** An item that is no dict, or a dict without a content key, is skipped. *)
Lemma simplify_item_skips (item : pyval) :
  (forall d, item = VDict d -> dict_get (KStr "content") d = None) ->
  simplify_item item = Ok None.
Proof.
  intro H. destruct item; try reflexivity.
  simpl. now rewrite (H entries eq_refl).
Qed.

(** An item whose content is not a mapping stops the loop with an error. *)
Lemma simplify_item_raises (d : pydict) (content : pyval) :
  dict_get (KStr "content") d = Some content ->
  (forall c, content <> VDict c) ->
  simplify_item (VDict d) = Raise (attribute_error content "get").
Proof.
  intros H Hnot. unfold simplify_item. rewrite H.
  destruct content; try reflexivity. exfalso. now apply (Hnot entries).
Qed.

Lemma no_news_message (w : World) (symbol : string) :
  yf_news w symbol = Ok [] ->
  get_stock_news w symbol
  = ([ Log INFO (MsgFetchingNews symbol); Fetch (ReqNews symbol);
       Log INFO (MsgNoNews symbol) ],
     Ok ("No news articles found for " ++ symbol ++ ".")%string).
Proof.
  intro H. unfold get_stock_news, get_stock_news_reply.
  rewrite bind_log, H. reflexivity.
Qed.

(** C7, at the failing input. The provider returns one item, a dict with a
    content key whose value is [None]. The item has the structure the loop
    tests for, so it is neither skipped nor projected: [content.get] raises
    [AttributeError], which leaves [get_stock_news]. *)
Theorem null_content_item_raises :
  (exists d, null_content_item = VDict d /\
             dict_get (KStr "content") d = Some VNone) /\
  get_stock_news null_content_world "AAPL"
  = ([ Log INFO (MsgFetchingNews "AAPL"); Fetch (ReqNews "AAPL") ],
     Raise (Exn "AttributeError" "'NoneType' object has no attribute 'get'")).
Proof.
  split.
  - eexists. split; reflexivity.
  - reflexivity.
Qed.

(* ===================================================================== *)
(** * [get_stock_info]: the fallback lookup *)
(* ===================================================================== *)

(** The lookup never raises: a failure of the search is its answer. *)
Lemma lookup_failure_is_an_answer (w : World) (query : string) (e : exn) :
  yf_search w query (Some 1%nat) = Raise e ->
  get_stock_symbol_lookup w query
  = ([Fetch (ReqSearch query (Some 1%nat))],
     Ok (VStr ("Error looking up symbol: " ++ exn_str e)%string)).
Proof. intro H. unfold get_stock_symbol_lookup. rewrite H. reflexivity. Qed.

Lemma lookup_nothing_found (w : World) (query : string) (s : SearchResult) :
  yf_search w query (Some 1%nat) = Ok s ->
  search_quotes s = [] ->
  get_stock_symbol_lookup w query
  = ([Fetch (ReqSearch query (Some 1%nat)); Fetch ReqSearchQuotes],
     Ok (VStr ("No symbols found matching '" ++ query ++ "'.")%string)).
Proof.
  intros H Hq. unfold get_stock_symbol_lookup, read_quotes.
  rewrite H. unfold try_except, bind, fetch. simpl. rewrite Hq. reflexivity.
Qed.

Lemma lookup_first_symbol (w : World) (query : string) (s : SearchResult)
  (d : pydict) (rest : list pyval) (found : pyval) :
  yf_search w query (Some 1%nat) = Ok s ->
  search_quotes s = VDict d :: rest ->
  dict_get (KStr "symbol") d = Some found ->
  get_stock_symbol_lookup w query
  = ([ Fetch (ReqSearch query (Some 1%nat)); Fetch ReqSearchQuotes;
       Fetch ReqSearchQuotes; Fetch ReqSearchQuotes ],
     Ok found).
Proof.
  intros H Hq Hd. unfold get_stock_symbol_lookup, read_quotes.
  rewrite H. unfold try_except, bind, fetch. simpl. rewrite Hq. simpl.
  rewrite Hd. reflexivity.
Qed.

Lemma failure_answers_not_usable (text : string) :
  usable_symbol ("Error looking up symbol: " ++ text)%string = false /\
  usable_symbol ("No symbols found matching '" ++ text)%string = false.
Proof. split; reflexivity. Qed.

(** A failed lookup ends the request with the symbol-not-found message,
    after exactly one search and one fetch of the attribute map. *)
Lemma failed_lookup_reports_not_found (w : World) (symbol : string) (e : exn) :
  yf_info w symbol = Ok [] ->
  yf_search w symbol (Some 1%nat) = Raise e ->
  get_stock_info w symbol
  = ([ Fetch (ReqInfo symbol); Log WARNING (MsgNoInfo symbol);
       Fetch (ReqSearch symbol (Some 1%nat)) ],
     Ok (symbol_not_found symbol ("Error looking up symbol: " ++ exn_str e)%string)).
Proof.
  intros Hinfo Hsearch. unfold get_stock_info, resolve_info.
  rewrite Hinfo, bind_fetch_ok, bind_log.
  rewrite (lookup_failure_is_an_answer w symbol e Hsearch). reflexivity.
Qed.

(** A corrected symbol whose attribute map is not empty is the one the
    request goes on with: one search, then one more fetch of the map. *)
Lemma corrected_symbol_is_used (w : World) (symbol corrected : string)
  (s : SearchResult) (d : pydict) (rest : list pyval) (info : pydict) :
  yf_info w symbol = Ok [] ->
  yf_search w symbol (Some 1%nat) = Ok s ->
  search_quotes s = VDict d :: rest ->
  dict_get (KStr "symbol") d = Some (VStr corrected) ->
  usable_symbol corrected = true ->
  yf_info w corrected = Ok info ->
  resolve_info w symbol
  = ([ Fetch (ReqInfo symbol); Log WARNING (MsgNoInfo symbol);
       Fetch (ReqSearch symbol (Some 1%nat)); Fetch ReqSearchQuotes;
       Fetch ReqSearchQuotes; Fetch ReqSearchQuotes;
       Log INFO (MsgFoundCorrectSymbol corrected); Fetch (ReqInfo corrected) ],
     Ok (inr (corrected, info))).
Proof.
  intros Hinfo Hsearch Hq Hd Huse Hinfo'. unfold resolve_info.
  rewrite Hinfo, bind_fetch_ok, bind_log.
  rewrite (lookup_first_symbol w symbol s d rest _ Hsearch Hq Hd).
  simpl. rewrite Huse, Hinfo'. reflexivity.
Qed.

(** C5, at the failing input. The map of ["APPL"] is empty, the lookup
    returns ["AAPL"], and the map of ["AAPL"] is empty too. The retried map
    is not tested: no symbol-not-found message is returned; the request goes
    on and answers with an equity record built from the empty map. *)
Theorem empty_retried_info_is_not_rejected :
  yf_info typo_world "APPL" = Ok [] /\
  get_stock_symbol_lookup typo_world "APPL"
  = ([ Fetch (ReqSearch "APPL" (Some 1%nat)); Fetch ReqSearchQuotes;
       Fetch ReqSearchQuotes; Fetch ReqSearchQuotes ],
     Ok (VStr "AAPL")) /\
  yf_info typo_world "AAPL" = Ok [] /\
  resolve_info typo_world "APPL"
  = ([ Fetch (ReqInfo "APPL"); Log WARNING (MsgNoInfo "APPL");
       Fetch (ReqSearch "APPL" (Some 1%nat)); Fetch ReqSearchQuotes;
       Fetch ReqSearchQuotes; Fetch ReqSearchQuotes;
       Log INFO (MsgFoundCorrectSymbol "AAPL"); Fetch (ReqInfo "AAPL") ],
     Ok (inr ("AAPL", []))) /\
  exists t entries,
    get_stock_info_reply typo_world "APPL" = (t, Ok (JsonOf None (VDict entries))) /\
    dict_get (KStr "stock_type") entries = Some (VStr "EQUITY") /\
    dict_get (KStr "core_valuation_metrics") entries
    = Some (select_attributes [] core_valuation_keys).
Proof.
  repeat split.
  eexists. eexists. split; [vm_compute; reflexivity | split; reflexivity].
Qed.

(* ===================================================================== *)
(** * [get_stock_info]: the record by classification *)
(* ===================================================================== *)

(** The map [get_stock_info] goes on with is one the provider returned. *)
Lemma resolve_info_source (w : World) (symbol : string) (t : list event)
  (used : string) (info : pydict) :
  resolve_info w symbol = (t, Ok (inr (used, info))) ->
  yf_info w used = Ok info.
Proof.
  unfold resolve_info. intro H.
  apply bind_ok in H. destruct H as (t1 & first & t2 & Hfetch & Hrest & _).
  apply fetch_ok in Hfetch. destruct Hfetch as [Hfirst _].
  destruct first as [| entry rest].
  - apply bind_ok in Hrest. destruct Hrest as (t3 & [] & t4 & _ & Hrest & _).
    apply bind_ok in Hrest. destruct Hrest as (t5 & found & t6 & _ & Hrest & _).
    destruct found as [| [|] | n | q | | s | [| x l] | [| x l]];
      try (inversion Hrest; fail).
    + destruct (Z.eqb n 0); inversion Hrest.
    + destruct (Qeq_bool q 0); inversion Hrest.
    + destruct (usable_symbol s); [| inversion Hrest].
      invert_runs. inversion Hrest; subst. assumption.
  - inversion Hrest; subst. exact Hfirst.
Qed.

Lemma fund_record_display (info : pydict) (news : string) :
  dict_of_items
    [ (KStr "stock_type", VStr "ETF");
      (KStr "etf_analysis", select_attributes info etf_analysis_keys);
      (KStr "trading_valuation", select_attributes info etf_trading_keys);
      (KStr "price_movement", select_attributes info etf_price_movement_keys);
      (KStr "fund_information", select_attributes info etf_fund_info_keys);
      (KStr "stock_news", VStr news) ]
  = fund_record info news.
Proof. reflexivity. Qed.

Lemma equity_record_display (info : pydict) (bs inc cf targets : pyval)
  (news : string) :
  dict_of_items
    [ (KStr "stock_type", VStr "EQUITY");
      (KStr "core_valuation_metrics", select_attributes info core_valuation_keys);
      (KStr "financial_performance",
        select_attributes info financial_performance_keys);
      (KStr "financial_health", select_attributes info financial_health_keys);
      (KStr "market_data_trading", select_attributes info market_data_keys);
      (KStr "dividend_information", select_attributes info dividend_info_keys);
      (KStr "balance_sheet_essentials", bs);
      (KStr "income_statement_key_items", inc);
      (KStr "cash_flow_highlights", cf);
      (KStr "analyst_price_targets", targets);
      (KStr "stock_news", VStr news) ]
  = equity_record info bs inc cf targets news.
Proof. reflexivity. Qed.

Lemma assemble_stock_info_record (w : World) (symbol : string) (info : pydict)
  (t : list event) (r : reply) :
  assemble_stock_info w symbol info = (t, Ok r) ->
  if is_etf info then
    exists news, r = JsonOf None (VDict (fund_record info news))
  else
    exists bs inc cf targets news,
      r = JsonOf None (VDict (equity_record info bs inc cf targets news)) /\
      statement_group balance_sheet_item_keys bs /\
      statement_group income_stmt_item_keys inc /\
      statement_group cash_flow_item_keys cf.
Proof.
  unfold assemble_stock_info. intro H.
  apply bind_ok in H.
  destruct H as (t1 & [[[balance cash] targets] fin] & t2 & _ & H & _).
  apply bind_ok in H. destruct H as (t3 & news & t4 & _ & H & _).
  destruct (is_etf info).
  - apply ret_ok in H. destruct H as [<- _]. exists news.
    now rewrite fund_record_display.
  - invert_runs. subst r.
    match goal with
    | Hb : select_statement_items balance _ = Ok ?bs,
      Hi : select_statement_items fin _ = Ok ?inc,
      Hc : select_statement_items cash _ = Ok ?cf |- _ =>
        exists bs, inc, cf, targets, news;
        rewrite equity_record_display; repeat split;
        [ exists balance; exact Hb | exists fin; exact Hi | exists cash; exact Hc ]
    end.
Qed.

(** C6. Whenever [get_stock_info] answers with a record, it was built from
    an attribute map the provider returned, and by that map's [quoteType]
    alone: for ["ETF"] the record is the fund record (discriminant, the four
    fund groups cut by the fund table, news) and holds no equity group; for
    anything else it is the equity record and holds no fund group.  The two
    tables are fixed and share no group name. *)
Theorem fund_and_equity_records_are_disjoint
  (w : World) (symbol : string) (t : list event)
  (indent : option nat) (payload : pyval) :
  get_stock_info_reply w symbol = (t, Ok (JsonOf indent payload)) ->
  (forall g, In g etf_group_names -> ~ In g equity_group_names) /\
  exists used info entries,
    yf_info w used = Ok info /\
    payload = VDict entries /\
    (is_etf info = true ->
       (exists news, entries = fund_record info news) /\
       dict_keys entries
       = KStr "stock_type" :: map KStr etf_group_names ++ [KStr "stock_news"] /\
       dict_get (KStr "stock_type") entries = Some (VStr "ETF") /\
       forall g, In g equity_group_names -> dict_get (KStr g) entries = None) /\
    (is_etf info = false ->
       (exists bs inc cf targets news,
           entries = equity_record info bs inc cf targets news /\
           statement_group balance_sheet_item_keys bs /\
           statement_group income_stmt_item_keys inc /\
           statement_group cash_flow_item_keys cf) /\
       dict_keys entries
       = KStr "stock_type" :: map KStr equity_group_names ++ [KStr "stock_news"] /\
       dict_get (KStr "stock_type") entries = Some (VStr "EQUITY") /\
       forall g, In g etf_group_names -> dict_get (KStr g) entries = None).
Proof.
  intro H. split.
  - intros g Hg Hin. simpl in Hg, Hin.
    repeat (destruct Hg as [<- | Hg]; [intuition discriminate |]). exact Hg.
  - unfold get_stock_info_reply in H. apply bind_ok in H.
    destruct H as (t1 & resolved & t2 & Hres & Hrest & _).
    destruct resolved as [text | [used info]]; [inversion Hrest |].
    apply resolve_info_source in Hres.
    apply assemble_stock_info_record in Hrest.
    destruct (is_etf info) eqn:Hetf.
    + destruct Hrest as (news & Hr). inversion Hr; subst.
      exists used, info, (fund_record info news).
      split; [exact Hres | split; [reflexivity | split]];
        [| intro Hf; rewrite Hetf in Hf; discriminate Hf].
      intros _. repeat split; eauto.
      intros g Hg. simpl in Hg.
      repeat (destruct Hg as [<- | Hg]; [reflexivity |]). contradiction.
    + destruct Hrest as (bs & inc & cf & targets & news & Hr & Hbs & Hinc & Hcf).
      inversion Hr; subst.
      exists used, info, (equity_record info bs inc cf targets news).
      split; [exact Hres | split; [reflexivity | split]];
        [intro Hf; rewrite Hetf in Hf; discriminate Hf |].
      intros _. repeat split; eauto 10.
      intros g Hg. simpl in Hg.
      repeat (destruct Hg as [<- | Hg]; [reflexivity |]). contradiction.
Qed.

Lemma fund_and_equity_records_are_disjoint_witness :
  (forall g, In g etf_group_names -> ~ In g equity_group_names) /\
  exists used info entries,
    yf_info fund_world used = Ok info /\
    VDict (fund_record fund_info "No news articles found for SPY.") = VDict entries /\
    (is_etf info = true ->
       (exists news, entries = fund_record info news) /\
       dict_keys entries
       = KStr "stock_type" :: map KStr etf_group_names ++ [KStr "stock_news"] /\
       dict_get (KStr "stock_type") entries = Some (VStr "ETF") /\
       forall g, In g equity_group_names -> dict_get (KStr g) entries = None) /\
    (is_etf info = false ->
       (exists bs inc cf targets news,
           entries = equity_record info bs inc cf targets news /\
           statement_group balance_sheet_item_keys bs /\
           statement_group income_stmt_item_keys inc /\
           statement_group cash_flow_item_keys cf) /\
       dict_keys entries
       = KStr "stock_type" :: map KStr equity_group_names ++ [KStr "stock_news"] /\
       dict_get (KStr "stock_type") entries = Some (VStr "EQUITY") /\
       forall g, In g etf_group_names -> dict_get (KStr g) entries = None).
Proof.
  apply (fund_and_equity_records_are_disjoint fund_world "SPY"
           [ Fetch (ReqInfo "SPY"); Log INFO (MsgFetchingNews "SPY");
             Fetch (ReqNews "SPY"); Log INFO (MsgNoNews "SPY") ] None).
  vm_compute. reflexivity.
Defined.

(* ===================================================================== *)
(** * Dicts built by insertion *)
(* ===================================================================== *)

Lemma dict_get_set_same (k : pykey) (v : pyval) (d : pydict) :
  dict_get k (dict_set k v d) = Some v.
Proof.
  induction d as [| [k' v'] d IH]; simpl.
  - now rewrite pykey_eqb_refl.
  - destruct (pykey_eqb k k') eqn:E; simpl; rewrite E; auto.
Qed.

Lemma dict_get_set_other (k k' : pykey) (v : pyval) (d : pydict) :
  pykey_eqb k k' = false -> dict_get k (dict_set k' v d) = dict_get k d.
Proof.
  intro Hne. induction d as [| [k0 v0] d IH]; simpl.
  - now rewrite Hne.
  - destruct (pykey_eqb k' k0) eqn:E; simpl.
    + apply pykey_eqb_eq in E. subst k0. now rewrite Hne.
    + now rewrite IH.
Qed.

Lemma dict_get_In (k : pykey) (v : pyval) (d : pydict) :
  dict_get k d = Some v -> In (k, v) d.
Proof.
  induction d as [| [k' v'] d IH]; simpl; [discriminate |].
  destruct (pykey_eqb k k') eqn:E.
  - apply pykey_eqb_eq in E. subst k'. intro H. inversion H. now left.
  - intro H. right. now apply IH.
Qed.

Lemma In_dict_get (k : pykey) (v : pyval) (d : pydict) :
  NoDup (dict_keys d) -> In (k, v) d -> dict_get k d = Some v.
Proof.
  induction d as [| [k' v'] d IH]; simpl; intros Hnd Hin; [contradiction |].
  inversion Hnd as [| x l Hnot Hnd']; subst.
  destruct Hin as [Heq | Hin].
  - inversion Heq; subst. now rewrite pykey_eqb_refl.
  - destruct (pykey_eqb k k') eqn:E.
    + apply pykey_eqb_eq in E. subst k'. exfalso. apply Hnot.
      change k with (fst (k, v)). now apply in_map.
    + now apply IH.
Qed.

Lemma dict_set_In (k k' : pykey) (v v' : pyval) (d : pydict) :
  In (k, v) (dict_set k' v' d) -> (k, v) = (k', v') \/ In (k, v) d.
Proof.
  induction d as [| [k0 v0] d IH]; simpl.
  - intros [H | []]. left. now symmetry.
  - destruct (pykey_eqb k' k0) eqn:E; simpl.
    + apply pykey_eqb_eq in E. subst k0. intros [H | H]; auto.
    + intros [H | H]; auto. destruct (IH H); auto.
Qed.

Lemma dict_set_keys (k k' : pykey) (v : pyval) (d : pydict) :
  In k (dict_keys (dict_set k' v d)) <-> k = k' \/ In k (dict_keys d).
Proof.
  unfold dict_keys. induction d as [| [k0 v0] d IH]; simpl.
  - intuition.
  - destruct (pykey_eqb k' k0) eqn:E; simpl.
    + apply pykey_eqb_eq in E. subst k0. intuition.
    + rewrite IH. intuition.
Qed.

Lemma dict_set_NoDup (k : pykey) (v : pyval) (d : pydict) :
  NoDup (dict_keys d) -> NoDup (dict_keys (dict_set k v d)).
Proof.
  unfold dict_keys. induction d as [| [k0 v0] d IH]; simpl; intro Hnd.
  - repeat constructor. intros [].
  - inversion Hnd as [| x l Hnot Hnd']; subst.
    destruct (pykey_eqb k k0) eqn:E; simpl.
    + constructor; assumption.
    + constructor; [| now apply IH].
      intro Hin. apply (dict_set_keys k0 k v d) in Hin.
      destruct Hin as [-> | Hin]; [| contradiction].
      rewrite pykey_eqb_refl in E. discriminate.
Qed.

Lemma dict_update_keys (k : pykey) (items : list (pykey * pyval)) (d : pydict) :
  In k (dict_keys (dict_update d items)) <-> In k (map fst items) \/ In k (dict_keys d).
Proof.
  unfold dict_update. revert d.
  induction items as [| [k' v'] items IH]; intro d; simpl.
  - intuition.
  - rewrite IH, dict_set_keys. simpl. intuition.
Qed.

Lemma dict_update_NoDup (items : list (pykey * pyval)) (d : pydict) :
  NoDup (dict_keys d) -> NoDup (dict_keys (dict_update d items)).
Proof.
  unfold dict_update. revert d.
  induction items as [| [k' v'] items IH]; intros d Hnd; simpl; [exact Hnd |].
  apply IH. now apply dict_set_NoDup.
Qed.

Lemma dict_of_items_NoDup (items : list (pykey * pyval)) :
  NoDup (dict_keys (dict_of_items items)).
Proof. apply dict_update_NoDup. constructor. Qed.

Lemma dict_update_In (k : pykey) (v : pyval) (items : list (pykey * pyval))
  (d : pydict) :
  In (k, v) (dict_update d items) -> In (k, v) items \/ In (k, v) d.
Proof.
  unfold dict_update. revert d.
  induction items as [| [k' v'] items IH]; intros d H; simpl in *; [auto |].
  apply IH in H. destruct H as [H | H]; [auto |].
  apply dict_set_In in H. destruct H as [H | H]; auto.
Qed.

Lemma dict_update_get_absent (k : pykey) (items : list (pykey * pyval)) (d : pydict) :
  ~ In k (map fst items) -> dict_get k (dict_update d items) = dict_get k d.
Proof.
  unfold dict_update. revert d.
  induction items as [| [k' v'] items IH]; intros d Hnot; simpl in *; [reflexivity |].
  rewrite IH by tauto. apply dict_get_set_other.
  apply pykey_eqb_neq. intros ->. tauto.
Qed.

Lemma dict_update_get_present (k : pykey) (v : pyval)
  (items : list (pykey * pyval)) (d : pydict) :
  NoDup (map fst items) -> In (k, v) items ->
  dict_get k (dict_update d items) = Some v.
Proof.
  revert d. induction items as [| [k' v'] items IH]; intros d Hnd Hin;
    simpl in *; [contradiction |].
  inversion Hnd as [| x l Hnot Hnd']; subst.
  destruct Hin as [Heq | Hin].
  - inversion Heq; subst.
    change (fold_left _ items (dict_set k v d)) with (dict_update (dict_set k v d) items).
    rewrite dict_update_get_absent by exact Hnot. apply dict_get_set_same.
  - apply (IH (dict_set k' v' d) Hnd' Hin).
Qed.

(* ===================================================================== *)
(** * [df_to_dict_str_keys] *)
(* ===================================================================== *)

(** What [to_dict] returns: a mapping of mappings, keys unique at both
    levels. *)
Lemma to_dict_nested (f : DataFrame) :
  exists d, to_dict f = VDict d /\
            NoDup (dict_keys d) /\
            forall k v, In (k, v) d ->
              exists inner, v = VDict inner /\ NoDup (dict_keys inner).
Proof.
  eexists. split; [reflexivity |]. split.
  - apply dict_of_items_NoDup.
  - intros k v Hin. apply dict_update_In in Hin. destruct Hin as [Hin | []].
    apply in_map_iff in Hin. destruct Hin as (c & Hc & _). inversion Hc; subst.
    eexists. split; [reflexivity | apply dict_of_items_NoDup].
Qed.

(** The outer comprehension, as one update. *)
Lemma str_keys_outer_update (items acc : pydict) :
  (forall k v, In (k, v) items -> exists inner, v = VDict inner) ->
  str_keys_outer items acc = Ok (dict_update acc (map rekey_outer items)).
Proof.
  revert acc. induction items as [| [k v] items IH]; intros acc Hd; simpl;
    [reflexivity |].
  destruct (Hd k v (or_introl eq_refl)) as [inner ->]. simpl.
  rewrite IH by (intros k' v' Hin; apply (Hd k' v'); now right).
  reflexivity.
Qed.

Lemma rekey_inner_keys (inner : pydict) :
  map fst (map rekey_inner inner) = map (fun k => KStr (py_str_key k)) (dict_keys inner).
Proof. unfold dict_keys. rewrite !map_map. reflexivity. Qed.

Lemma rekey_outer_keys (d : pydict) :
  map fst (map rekey_outer d) = map (fun k => KStr (py_str_key k)) (dict_keys d).
Proof. unfold dict_keys. rewrite !map_map. reflexivity. Qed.

Lemma str_renderings_NoDup (ks : list pykey) :
  NoDup (map py_str_key ks) -> NoDup (map (fun k => KStr (py_str_key k)) ks).
Proof.
  induction ks as [| k ks IH]; simpl; intro H; [constructor |].
  inversion H as [| x l Hnot Hnd]; subst. constructor; [| now apply IH].
  intro Hin. apply in_map_iff in Hin. destruct Hin as (k' & Hk & Hin).
  inversion Hk as [Heq]. apply Hnot. rewrite <- Heq. now apply in_map.
Qed.

Section Rekeyed.
Variable d : pydict.
Hypothesis d_unique : NoDup (dict_keys d).
Hypothesis d_nested :
  forall k v, In (k, v) d -> exists inner, v = VDict inner /\ NoDup (dict_keys inner).

Lemma rekeyed_entry (k : pykey) (v : pyval) :
  In (k, v) (rekeyed d) ->
  exists k0 inner,
    In (k0, VDict inner) d /\ k = KStr (py_str_key k0) /\
    v = VDict (dict_of_items (map rekey_inner inner)).
Proof.
  intro Hin. apply dict_update_In in Hin. destruct Hin as [Hin | []].
  apply in_map_iff in Hin. destruct Hin as ([k0 v0] & Heq & Hin).
  destruct (d_nested k0 v0 Hin) as (inner & -> & _).
  inversion Heq; subst. exists k0, inner. auto.
Qed.

Lemma rekeyed_outer_keys (k : pykey) :
  In k (dict_keys (rekeyed d)) <->
  exists k0, In k0 (dict_keys d) /\ k = KStr (py_str_key k0).
Proof.
  unfold rekeyed, dict_of_items. rewrite dict_update_keys, rekey_outer_keys, in_map_iff.
  simpl. split.
  - intros [(k0 & <- & Hin) | []]. eauto.
  - intros (k0 & Hin & ->). left. eauto.
Qed.

Lemma rekeyed_all_str : all_str_keys (rekeyed d).
Proof.
  intros k Hin. apply rekeyed_outer_keys in Hin.
  destruct Hin as (k0 & _ & ->). reflexivity.
Qed.

Lemma rekeyed_inner_all_str (k : pykey) (v : pyval) :
  In (k, v) (rekeyed d) -> exists inner, v = VDict inner /\ all_str_keys inner.
Proof.
  intro Hin. apply rekeyed_entry in Hin.
  destruct Hin as (k0 & inner & _ & _ & ->).
  eexists. split; [reflexivity |]. intros kk Hkk.
  unfold dict_of_items in Hkk. apply dict_update_keys in Hkk.
  destruct Hkk as [Hkk | []]. rewrite rekey_inner_keys in Hkk.
  apply in_map_iff in Hkk. destruct Hkk as (k1 & <- & _). reflexivity.
Qed.

(** Every value of the result is a value of the input, found under keys
    that render to the keys it is found under. *)
Lemma rekeyed_values_sound (s ss : string) (x : pyval) :
  nested_get (rekeyed d) (KStr s) (KStr ss) = Some x ->
  exists k kk, py_str_key k = s /\ py_str_key kk = ss /\ nested_get d k kk = Some x.
Proof.
  unfold nested_get. destruct (dict_get (KStr s) (rekeyed d)) as [v |] eqn:Hv; [| discriminate].
  apply dict_get_In in Hv. apply rekeyed_entry in Hv.
  destruct Hv as (k0 & inner & Hin & Hk & ->). inversion Hk as [Hs].
  intro Hx. apply dict_get_In in Hx. apply dict_update_In in Hx.
  destruct Hx as [Hx | []]. apply in_map_iff in Hx.
  destruct Hx as ([kk x'] & Heq & Hkk). inversion Heq; subst.
  exists k0, kk. repeat split.
  rewrite (In_dict_get k0 (VDict inner) d d_unique Hin).
  destruct (d_nested k0 (VDict inner) Hin) as (inner' & Hi & Hnd).
  inversion Hi; subst inner'. now apply In_dict_get.
Qed.

(** When no two keys of a level render alike, every value of the input is
    in the result, under the renderings of its keys. *)
Lemma rekeyed_values_complete (k kk : pykey) (x : pyval) :
  renderings_distinct d ->
  nested_get d k kk = Some x ->
  nested_get (rekeyed d) (KStr (py_str_key k)) (KStr (py_str_key kk)) = Some x.
Proof.
  intros [Houter Hinner]. unfold nested_get.
  destruct (dict_get k d) as [v |] eqn:Hv; [| discriminate].
  apply dict_get_In in Hv.
  destruct (d_nested k v Hv) as (inner & -> & _). intro Hx.
  assert (Hr : dict_get (KStr (py_str_key k)) (rekeyed d)
               = Some (VDict (dict_of_items (map rekey_inner inner)))).
  { apply dict_update_get_present.
    - rewrite rekey_outer_keys. now apply str_renderings_NoDup.
    - apply in_map_iff. exists (k, VDict inner). auto. }
  rewrite Hr. apply dict_update_get_present.
  - rewrite rekey_inner_keys. apply str_renderings_NoDup. now apply (Hinner k).
  - apply in_map_iff. exists (kk, x). split; [reflexivity |].
    now apply dict_get_In.
Qed.
End Rekeyed.

(** C10. [df_to_dict_str_keys] returns [None] exactly when its input is
    [None]. On a frame, whose [to_dict()] is a mapping of mappings, it returns
    a mapping of mappings in which every key, outer and inner, is a string:
    the outer keys are the [str] renderings of the input's keys, and every
    inner value is an input value unchanged, found under the renderings of
    its keys; when no two keys of a level render alike, every input value is
    there. *)
Theorem df_to_dict_str_keys_spec (df : option DataFrame) :
  (df_to_dict_str_keys df = Ok VNone <-> df = None) /\
  forall f, df = Some f ->
    exists d r,
      to_dict f = VDict d /\
      df_to_dict_str_keys df = Ok (VDict r) /\
      all_str_keys r /\
      (forall k v, In (k, v) r -> exists inner, v = VDict inner /\ all_str_keys inner) /\
      (forall k, In k (dict_keys r) <->
                 exists k0, In k0 (dict_keys d) /\ k = KStr (py_str_key k0)) /\
      (forall s ss x,
          nested_get r (KStr s) (KStr ss) = Some x ->
          exists k kk,
            py_str_key k = s /\ py_str_key kk = ss /\ nested_get d k kk = Some x) /\
      (renderings_distinct d ->
       forall k kk x,
         nested_get d k kk = Some x ->
         nested_get r (KStr (py_str_key k)) (KStr (py_str_key kk)) = Some x).
Proof.
  assert (Hframe : forall f,
             exists d, to_dict f = VDict d /\
                       df_to_dict_str_keys (Some f) = Ok (VDict (rekeyed d)) /\
                       NoDup (dict_keys d) /\
                       forall k v, In (k, v) d ->
                         exists inner, v = VDict inner /\ NoDup (dict_keys inner)).
  { intro f. destruct (to_dict_nested f) as (d & Hd & Hnd & Hnested).
    exists d. repeat split; auto.
    unfold df_to_dict_str_keys. rewrite Hd.
    rewrite str_keys_outer_update; [reflexivity |].
    intros k v Hin. destruct (Hnested k v Hin) as (inner & -> & _). eauto. }
  split.
  - split.
    + destruct df as [f |]; [| reflexivity].
      destruct (Hframe f) as (d & _ & Hrun & _). rewrite Hrun. discriminate.
    + intros ->. reflexivity.
  - intros f ->. destruct (Hframe f) as (d & Hd & Hrun & Hnd & Hnested).
    exists d, (rekeyed d).
    split; [exact Hd |]. split; [exact Hrun |].
    split; [now apply rekeyed_all_str |].
    split; [now apply rekeyed_inner_all_str |].
    split; [now apply rekeyed_outer_keys |].
    split; [now apply rekeyed_values_sound |].
    intros Hdistinct k kk x. now apply rekeyed_values_complete.
Qed.

Lemma df_to_dict_str_keys_spec_witness :
  exists d r,
    to_dict sample_statement = VDict d /\
    df_to_dict_str_keys (Some sample_statement) = Ok (VDict r) /\
    all_str_keys r /\
    (forall k v, In (k, v) r -> exists inner, v = VDict inner /\ all_str_keys inner) /\
    (forall k, In k (dict_keys r) <->
               exists k0, In k0 (dict_keys d) /\ k = KStr (py_str_key k0)) /\
    (forall s ss x,
        nested_get r (KStr s) (KStr ss) = Some x ->
        exists k kk,
          py_str_key k = s /\ py_str_key kk = ss /\ nested_get d k kk = Some x) /\
    (renderings_distinct d ->
     forall k kk x,
       nested_get d k kk = Some x ->
       nested_get r (KStr (py_str_key k)) (KStr (py_str_key kk)) = Some x).
Proof.
  apply (proj2 (df_to_dict_str_keys_spec (Some sample_statement)) sample_statement).
  reflexivity.
Defined.

(** The sample statement, converted: the period labels and the row label 7
    have become strings, the cells are as they were. *)
Example sample_statement_converted :
  df_to_dict_str_keys (Some sample_statement)
  = Ok (VDict
      [ (KStr "2023-09-30 00:00:00",
         VDict [ (KStr "Total Assets", VFloat (352583#1));
                 (KStr "Total Debt", VFloat (111088#1));
                 (KStr "7", VNaN) ]);
        (KStr "2022-09-30 00:00:00",
         VDict [ (KStr "Total Assets", VFloat (352755#1));
                 (KStr "Total Debt", VFloat (120069#1));
                 (KStr "7", VInt 3) ]) ]).
Proof. reflexivity. Qed.

(** Two row labels that render alike share one key of the result; the
    value of the later one is kept. *)
Example colliding_labels_share_a_key :
  df_to_dict_str_keys
    (Some (mkFrame [KInt 1; KStr "1"] [(KStr "a", [VInt 10; VInt 20])]))
  = Ok (VDict [(KStr "a", VDict [(KStr "1", VInt 20)])]).
Proof. reflexivity. Qed.

(** The lookup corrects ["APPL"] to ["AAPL"]; the record is built from the
    attribute map of ["AAPL"]. *)
Example corrected_symbol_record :
  exists t bs inc cf news,
    get_stock_info_reply corrected_world "APPL"
    = (t, Ok (JsonOf None
                (VDict (equity_record apple_info bs inc cf VNone news)))) /\
    dict_get_or_none (KStr "currentPrice") apple_info = VFloat (18556#100).
Proof.
  do 5 eexists. split; [vm_compute; reflexivity | reflexivity].
Qed.

(* ===================================================================== *)
(** * [get_stock_symbol_lookup]: every failure is an answer *)
(* ===================================================================== *)

(** How the lookup ends, case by case. *)
Lemma symbol_lookup_outcome (w : World) (query : string) :
  outcome (get_stock_symbol_lookup w query)
  = match yf_search w query (Some 1%nat) with
    | Raise e => Ok (VStr ("Error looking up symbol: " ++ exn_str e)%string)
    | Ok s =>
        match search_quotes s with
        | [] => Ok (VStr ("No symbols found matching '" ++ query ++ "'.")%string)
        | first :: _ =>
            match py_subscript first "symbol" with
            | Ok found => Ok found
            | Raise e => Ok (VStr ("Error looking up symbol: " ++ exn_str e)%string)
            end
        end
    end.
Proof.
  unfold get_stock_symbol_lookup, read_quotes, outcome.
  destruct (yf_search w query (Some 1%nat)) as [s | e]; [| reflexivity].
  unfold try_except, bind, fetch. simpl.
  destruct (search_quotes s) as [| first rest]; [reflexivity |]. simpl.
  destruct (py_subscript first "symbol"); reflexivity.
Qed.

(** X1. The lookup never raises: whatever the provider does, it ends with
    a value. *)
Theorem symbol_lookup_never_raises (w : World) (query : string) :
  exists answer, outcome (get_stock_symbol_lookup w query) = Ok answer.
Proof.
  rewrite symbol_lookup_outcome.
  destruct (yf_search w query (Some 1%nat)) as [s | e]; [| eauto].
  destruct (search_quotes s) as [| first rest]; [eauto |].
  destruct (py_subscript first "symbol"); eauto.
Qed.

(** X2. Each way the lookup can fail (the search raises, it finds no quote,
    the best quote has no symbol to read) is answered by a text, and every
    such text is one the test of [get_stock_info] on the looked-up symbol
    rejects. *)
Theorem lookup_failures_are_rejected (w : World) (query : string) :
  (exists e, yf_search w query (Some 1%nat) = Raise e) \/
  (exists s, yf_search w query (Some 1%nat) = Ok s /\
     (search_quotes s = [] \/
      exists first rest e, search_quotes s = first :: rest /\
                           py_subscript first "symbol" = Raise e)) ->
  exists text,
    outcome (get_stock_symbol_lookup w query) = Ok (VStr text) /\
    usable_symbol text = false.
Proof.
  rewrite symbol_lookup_outcome.
  intros [(e & ->) | (s & -> & [-> | (first & rest & e & -> & ->)])];
    eexists; split; reflexivity.
Qed.

Lemma lookup_failures_are_rejected_witness :
  exists text,
    outcome (get_stock_symbol_lookup fund_world "SPDR") = Ok (VStr text) /\
    usable_symbol text = false.
Proof.
  apply (lookup_failures_are_rejected fund_world "SPDR").
  left. eexists. reflexivity.
Defined.

(** X3. The symbol [get_stock_info] goes on with is the requested one,
    when its attribute map is not empty (no search is made then), or else the
    symbol of the first quote of one search, accepted by the test; in both
    cases the map is the provider's map of that symbol. *)
Theorem resolved_symbol_origin (w : World) (symbol : string) (t : list event)
  (used : string) (info : pydict) :
  resolve_info w symbol = (t, Ok (inr (used, info))) ->
  yf_info w used = Ok info /\
  ((used = symbol /\ info <> [] /\ t = [Fetch (ReqInfo symbol)]) \/
   (yf_info w symbol = Ok [] /\
    usable_symbol used = true /\
    exists s first rest,
      yf_search w symbol (Some 1%nat) = Ok s /\
      search_quotes s = first :: rest /\
      py_subscript first "symbol" = Ok (VStr used))).
Proof.
  intro H. split; [exact (resolve_info_source w symbol t used info H) |].
  unfold resolve_info in H.
  apply bind_ok in H. destruct H as (t1 & first & t2 & Hfetch & Hrest & Ht).
  apply fetch_ok in Hfetch. destruct Hfetch as [Hfirst ->].
  destruct first as [| entry more].
  - right. split; [exact Hfirst |].
    apply bind_ok in Hrest. destruct Hrest as (t3 & [] & t4 & _ & Hrest & _).
    apply bind_ok in Hrest. destruct Hrest as (t5 & found & t6 & Hlookup & Hrest & _).
    assert (Hout : outcome (get_stock_symbol_lookup w symbol) = Ok found)
      by (now rewrite Hlookup).
    rewrite symbol_lookup_outcome in Hout.
    destruct found as [| [|] | n | q | | s | [| x l] | [| x l]];
      try (inversion Hrest; fail).
    + destruct (Z.eqb n 0); inversion Hrest.
    + destruct (Qeq_bool q 0); inversion Hrest.
    + destruct (usable_symbol s) eqn:Huse; [| inversion Hrest].
      invert_runs. inversion Hrest; subst. split; [exact Huse |].
      destruct (yf_search w symbol (Some 1%nat)) as [sr | e].
      * destruct (search_quotes sr) as [| q1 qs] eqn:Hq.
        -- inversion Hout; subst. discriminate Huse.
        -- destruct (py_subscript q1 "symbol") as [v | e] eqn:Hsub.
           ++ inversion Hout; subst. exists sr, q1, qs. auto.
           ++ inversion Hout; subst. discriminate Huse.
      * inversion Hout; subst. discriminate Huse.
  - left. inversion Hrest; subst. split; [reflexivity | split; [discriminate | reflexivity]].
Qed.

Lemma resolved_symbol_origin_witness :
  yf_info corrected_world "AAPL" = Ok apple_info /\
  (("AAPL" = "APPL" /\ apple_info <> [] /\
    [ Fetch (ReqInfo "APPL"); Log WARNING (MsgNoInfo "APPL");
      Fetch (ReqSearch "APPL" (Some 1%nat)); Fetch ReqSearchQuotes;
      Fetch ReqSearchQuotes; Fetch ReqSearchQuotes;
      Log INFO (MsgFoundCorrectSymbol "AAPL"); Fetch (ReqInfo "AAPL") ]
    = [Fetch (ReqInfo "APPL")]) \/
   (yf_info corrected_world "APPL" = Ok [] /\
    usable_symbol "AAPL" = true /\
    exists s first rest,
      yf_search corrected_world "APPL" (Some 1%nat) = Ok s /\
      search_quotes s = first :: rest /\
      py_subscript first "symbol" = Ok (VStr "AAPL"))).
Proof.
  apply (resolved_symbol_origin corrected_world "APPL"). reflexivity.
Defined.

(* ===================================================================== *)
(** * [get_stock_info]: what is fetched, what is guarded *)
(* ===================================================================== *)

Lemma bind_run {A B : Type} (m : M A) (f : A -> M B) (t : list event) (a : A) :
  m = (t, Ok a) -> bind m f = (t ++ trace (f a), outcome (f a)).
Proof. intros ->. reflexivity. Qed.

Lemma bind_fail {A B : Type} (m : M A) (f : A -> M B) (t : list event) (e : exn) :
  m = (t, Raise e) -> bind m f = (t, Raise e).
Proof. intros ->. reflexivity. Qed.

Lemma run_eta {A : Type} (m : M A) : m = (trace m, outcome m).
Proof. now destruct m. Qed.

Lemma df_to_dict_str_keys_frame (f : DataFrame) :
  exists d, to_dict f = VDict d /\
            df_to_dict_str_keys (Some f) = Ok (VDict (rekeyed d)).
Proof.
  destruct (to_dict_nested f) as (d & Hd & _ & Hnested).
  exists d. split; [exact Hd |].
  unfold df_to_dict_str_keys. rewrite Hd.
  rewrite str_keys_outer_update; [reflexivity |].
  intros k v Hin. destruct (Hnested k v Hin) as (inner & -> & _). eauto.
Qed.

(** X4. A guarded statement fetch never raises. It yields the converted
    statement when the provider has one and [None] in every other case, and
    it logs a warning exactly when the provider raised something other than
    an [AttributeError] (which [hasattr] takes for a missing attribute,
    silently). *)
Theorem statement_fetch_is_guarded (what symbol : string) (r : request)
  (answer : result (option DataFrame)) :
  exists t v,
    fetch_statement what symbol r answer = (t, Ok v) /\
    (forall f, answer = Ok (Some f) ->
       exists d, to_dict f = VDict d /\ v = VDict (rekeyed d)) /\
    ((forall f, answer <> Ok (Some f)) -> v = VNone) /\
    ((exists m, In (Log WARNING m) t) <->
     (exists e, answer = Raise e /\ exn_kind e <> "AttributeError")).
Proof.
  unfold fetch_statement, hasattr.
  destruct answer as [[f |] | e].
  - destruct (df_to_dict_str_keys_frame f) as (d & Hd & Hrun).
    exists [Fetch r; Fetch r; Fetch r], (VDict (rekeyed d)).
    split; [| split; [| split; [| split]]].
    + unfold try_except, bind, fetch. cbn -[df_to_dict_str_keys].
      rewrite Hrun. reflexivity.
    + intros f' Hf. inversion Hf; subst f'. eauto.
    + intro Hnot. exfalso. now apply (Hnot f).
    + intros (m & [H | [H | [H | []]]]); discriminate H.
    + intros (e & H & _). discriminate H.
  - exists [Fetch r; Fetch r], VNone.
    split; [reflexivity | split; [| split; [| split]]].
    + intros f H. discriminate H.
    + reflexivity.
    + intros (m & [H | [H | []]]); discriminate H.
    + intros (e & H & _). discriminate H.
  - destruct (String.eqb (exn_kind e) "AttributeError") eqn:Hkind.
    + exists [Fetch r], VNone.
      split; [reflexivity | split; [| split; [| split]]].
      * intros f H. discriminate H.
      * reflexivity.
      * intros (m & [H | []]). discriminate H.
      * intros (e' & H & Hne). inversion H; subst e'.
        apply String.eqb_eq in Hkind. contradiction.
    + exists [Fetch r; Log WARNING (MsgCouldNotFetch what symbol e)], VNone.
      split; [reflexivity | split; [| split; [| split]]].
      * intros f H. discriminate H.
      * reflexivity.
      * intros _. exists e. split; [reflexivity |]. now apply String.eqb_neq.
      * intros _. eexists. right. left. reflexivity.
Qed.

Lemma fetch_price_targets_ok (symbol : string) (r : request) (answer : result pyval) :
  exists t v, fetch_price_targets symbol r answer = (t, Ok v).
Proof.
  unfold fetch_price_targets, hasattr. destruct answer as [v | e].
  - destruct v; eexists; eexists; reflexivity.
  - destruct (String.eqb (exn_kind e) "AttributeError");
      eexists; eexists; reflexivity.
Qed.

Lemma fetch_statement_value (what symbol : string) (r : request)
  (answer : result (option DataFrame)) :
  exists t v, fetch_statement what symbol r answer = (t, Ok v) /\
              (v = VNone \/ exists d, v = VDict d).
Proof.
  unfold fetch_statement, hasattr. destruct answer as [[f |] | e].
  - destruct (df_to_dict_str_keys_frame f) as (d & _ & Hrun).
    exists [Fetch r; Fetch r; Fetch r], (VDict (rekeyed d)). split; [| eauto].
    unfold try_except, bind, fetch. cbn -[df_to_dict_str_keys].
    rewrite Hrun. reflexivity.
  - exists [Fetch r; Fetch r], VNone. split; [reflexivity | auto].
  - destruct (String.eqb (exn_kind e) "AttributeError");
      eexists; exists VNone; split; try reflexivity; auto.
Qed.

Lemma select_statement_items_ok (v : pyval) (names : list string) :
  v = VNone \/ (exists d, v = VDict d) ->
  exists items, select_statement_items v names = Ok items.
Proof.
  intros [-> | (d & ->)]; unfold select_statement_items.
  - eexists. reflexivity.
  - destruct (py_truthy (VDict d)); eexists; reflexivity.
Qed.

(** The five guarded fetches of an equity, taken together, end normally. *)
Lemma equity_statements_ok (w : World) (symbol : string) :
  exists t balance cash targets fin,
    (balance_sheet <- fetch_statement "balance sheet" symbol
                        (ReqBalanceSheet symbol) (yf_balance_sheet w symbol) ;;
     cash_flow <- fetch_statement "cash flow" symbol
                    (ReqCashflow symbol) (yf_cashflow w symbol) ;;
     _quarterly_income_stmt <-
       fetch_statement "quarterly income statement" symbol
         (ReqQuarterlyIncomeStmt symbol) (yf_quarterly_income_stmt w symbol) ;;
     analyst_price_targets <-
       fetch_price_targets symbol
         (ReqAnalystPriceTargets symbol) (yf_analyst_price_targets w symbol) ;;
     financials <- fetch_statement "financials" symbol
                     (ReqFinancials symbol) (yf_financials w symbol) ;;
     ret (balance_sheet, cash_flow, analyst_price_targets, financials))
    = (t, Ok (balance, cash, targets, fin)) /\
    (balance = VNone \/ exists d, balance = VDict d) /\
    (cash = VNone \/ exists d, cash = VDict d) /\
    (fin = VNone \/ exists d, fin = VDict d).
Proof.
  destruct (fetch_statement_value "balance sheet" symbol
              (ReqBalanceSheet symbol) (yf_balance_sheet w symbol))
    as (t1 & balance & H1 & Hb).
  destruct (fetch_statement_value "cash flow" symbol
              (ReqCashflow symbol) (yf_cashflow w symbol))
    as (t2 & cash & H2 & Hc).
  destruct (fetch_statement_value "quarterly income statement" symbol
              (ReqQuarterlyIncomeStmt symbol) (yf_quarterly_income_stmt w symbol))
    as (t3 & quarterly & H3 & _).
  destruct (fetch_price_targets_ok symbol
              (ReqAnalystPriceTargets symbol) (yf_analyst_price_targets w symbol))
    as (t4 & targets & H4).
  destruct (fetch_statement_value "financials" symbol
              (ReqFinancials symbol) (yf_financials w symbol))
    as (t5 & fin & H5 & Hf).
  exists (t1 ++ t2 ++ t3 ++ t4 ++ t5), balance, cash, targets, fin.
  split; [| auto].
  rewrite (bind_run _ _ _ _ H1). unfold trace, outcome.
  rewrite (bind_run _ _ _ _ H2). unfold trace, outcome.
  rewrite (bind_run _ _ _ _ H3). unfold trace, outcome.
  rewrite (bind_run _ _ _ _ H4). unfold trace, outcome.
  rewrite (bind_run _ _ _ _ H5). unfold trace, outcome. simpl.
  now rewrite app_nil_r.
Qed.

Lemma get_stock_news_fetches (w : World) (symbol : string) (r : request) :
  In (Fetch r) (trace (get_stock_news w symbol)) -> r = ReqNews symbol.
Proof.
  unfold get_stock_news, get_stock_news_reply, trace.
  destruct (yf_news w symbol) as [[| item news] | e]; cbn -[simplify_news].
  - intros [H | [H | [H | []]]]; inversion H; reflexivity.
  - destruct (simplify_news (item :: news) []) as [simplified | e];
      cbn -[simplify_news].
    + destruct (json_dumps w (Some 2%nat) (VList simplified)); simpl;
        intros [H | [H | [H | []]]]; inversion H; reflexivity.
    + intros [H | [H | []]]; inversion H; reflexivity.
  - intros [H | [H | []]]; inversion H; reflexivity.
Qed.

Lemma assemble_fund_run (w : World) (symbol : string) (info : pydict) :
  is_etf info = true ->
  assemble_stock_info w symbol info
  = (trace (get_stock_news w symbol),
     match outcome (get_stock_news w symbol) with
     | Ok news => Ok (JsonOf None (VDict (fund_record info news)))
     | Raise e => Raise e
     end).
Proof.
  intro Hetf. unfold assemble_stock_info. rewrite Hetf. simpl negb. cbv iota.
  change (ret (VNone, VNone, VNone, VNone))
    with (lift (Ok (VNone, VNone, VNone, VNone))).
  rewrite bind_lift_ok. cbv iota beta.
  unfold trace, outcome, bind.
  destruct (get_stock_news w symbol) as [t [news | e]]; simpl.
  - now rewrite app_nil_r, fund_record_display.
  - reflexivity.
Qed.

(** X5. For a fund no statement is fetched: after the classification the
    only provider call is the news fetch, and the record is the fund record
    around whatever [get_stock_news] returned. *)
Theorem fund_record_needs_only_news (w : World) (symbol : string) (info : pydict) :
  is_etf info = true ->
  assemble_stock_info w symbol info
  = (trace (get_stock_news w symbol),
     match outcome (get_stock_news w symbol) with
     | Ok news => Ok (JsonOf None (VDict (fund_record info news)))
     | Raise e => Raise e
     end) /\
  forall r, In (Fetch r) (trace (assemble_stock_info w symbol info)) ->
            r = ReqNews symbol.
Proof.
  intro Hetf. split; [now apply assemble_fund_run |].
  intros r Hin. rewrite (assemble_fund_run w symbol info Hetf) in Hin.
  now apply (get_stock_news_fetches w symbol).
Qed.

Lemma fund_record_needs_only_news_witness :
  assemble_stock_info fund_world "SPY" fund_info
  = (trace (get_stock_news fund_world "SPY"),
     match outcome (get_stock_news fund_world "SPY") with
     | Ok news => Ok (JsonOf None (VDict (fund_record fund_info news)))
     | Raise e => Raise e
     end) /\
  forall r, In (Fetch r) (trace (assemble_stock_info fund_world "SPY" fund_info)) ->
            r = ReqNews "SPY".
Proof.
  apply (fund_record_needs_only_news fund_world "SPY" fund_info). reflexivity.
Defined.

(** X6. The statement fetches of an equity are isolated: whatever the
    provider does on the five of them, if the news are obtained the request
    ends with an equity record that carries them. *)
Theorem equity_record_survives_statement_failures
  (w : World) (symbol : string) (info : pydict) (t : list event) (news : string) :
  is_etf info = false ->
  get_stock_news w symbol = (t, Ok news) ->
  exists t' bs inc cf targets,
    assemble_stock_info w symbol info
    = (t', Ok (JsonOf None (VDict (equity_record info bs inc cf targets news)))) /\
    statement_group balance_sheet_item_keys bs /\
    statement_group income_stmt_item_keys inc /\
    statement_group cash_flow_item_keys cf.
Proof.
  intros Hetf Hnews.
  destruct (equity_statements_ok w symbol)
    as (t1 & balance & cash & targets & fin & Hblock & Hb & Hc & Hf).
  destruct (select_statement_items_ok balance balance_sheet_item_keys Hb) as [bs Hbs].
  destruct (select_statement_items_ok fin income_stmt_item_keys Hf) as [inc Hinc].
  destruct (select_statement_items_ok cash cash_flow_item_keys Hc) as [cf Hcf].
  exists (t1 ++ t), bs, inc, cf, targets.
  split; [| repeat split; eexists; eassumption].
  unfold assemble_stock_info. rewrite Hetf. simpl negb. cbv iota.
  rewrite (bind_run _ _ _ _ Hblock). unfold trace, outcome. cbv iota beta.
  rewrite (bind_run _ _ _ _ Hnews). unfold trace, outcome.
  rewrite Hbs, bind_lift_ok, Hinc, bind_lift_ok, Hcf, bind_lift_ok.
  rewrite equity_record_display. simpl. now rewrite !app_nil_r.
Qed.

Lemma equity_record_survives_statement_failures_witness :
  exists t' bs inc cf targets,
    assemble_stock_info statements_down_world "AAPL" apple_info
    = (t', Ok (JsonOf None
                 (VDict (equity_record apple_info bs inc cf targets
                           "No news articles found for AAPL.")))) /\
    statement_group balance_sheet_item_keys bs /\
    statement_group income_stmt_item_keys inc /\
    statement_group cash_flow_item_keys cf.
Proof.
  apply (equity_record_survives_statement_failures
           statements_down_world "AAPL" apple_info
           [ Log INFO (MsgFetchingNews "AAPL"); Fetch (ReqNews "AAPL");
             Log INFO (MsgNoNews "AAPL") ]);
    reflexivity.
Defined.

(** X7. The news fetch is not guarded: when the provider raises on it,
    [get_stock_info] raises the same exception, for a fund and for an equity
    alike, although the attribute map was obtained. *)
Theorem news_failure_fails_stock_info
  (w : World) (symbol : string) (info : pydict) (e : exn) :
  yf_info w symbol = Ok info ->
  info <> [] ->
  yf_news w symbol = Raise e ->
  outcome (get_stock_info w symbol) = Raise e.
Proof.
  intros Hinfo Hne Hnews.
  assert (Hn : get_stock_news w symbol
               = ([Log INFO (MsgFetchingNews symbol); Fetch (ReqNews symbol)],
                  Raise e)).
  { unfold get_stock_news, get_stock_news_reply. rewrite Hnews. reflexivity. }
  assert (Hres : resolve_info w symbol
                 = ([Fetch (ReqInfo symbol)], Ok (inr (symbol, info)))).
  { unfold resolve_info. rewrite Hinfo.
    destruct info; [contradiction | reflexivity]. }
  assert (Hasm : outcome (assemble_stock_info w symbol info) = Raise e).
  { destruct (is_etf info) eqn:Hetf.
    - rewrite (assemble_fund_run w symbol info Hetf).
      unfold outcome at 1. simpl. now rewrite Hn.
    - unfold assemble_stock_info. rewrite Hetf. simpl negb. cbv iota.
      destruct (equity_statements_ok w symbol)
        as (t1 & balance & cash & targets & fin & Hblock & _).
      rewrite (bind_run _ _ _ _ Hblock). unfold trace at 1, outcome at 2.
      cbv iota beta. rewrite (bind_fail _ _ _ _ Hn). reflexivity. }
  unfold get_stock_info. rewrite (bind_run _ _ _ _ Hres).
  unfold outcome at 1. simpl snd. unfold outcome at 1.
  unfold bind at 1. unfold outcome in Hasm.
  destruct (assemble_stock_info w symbol info) as [ta [r | e']]; simpl in *.
  - discriminate Hasm.
  - inversion Hasm. reflexivity.
Qed.

Lemma news_failure_fails_stock_info_witness :
  outcome (get_stock_info news_down_world "AAPL")
  = Raise (Exn "ConnectionError" "provider unavailable").
Proof.
  apply (news_failure_fails_stock_info news_down_world "AAPL" apple_info);
    [reflexivity | discriminate | reflexivity].
Defined.

(* ===================================================================== *)
(** * [get_stock_news]: the loop *)
(* ===================================================================== *)

Lemma simplify_item_content (item : pyval) :
  simplify_item item
  = match content_of item with
    | Some (VDict c) => Ok (Some (project_content c))
    | Some other => Raise (attribute_error other "get")
    | None => Ok None
    end.
Proof.
  destruct item; reflexivity.
Qed.

Lemma simplify_news_projections (news acc : list pyval) :
  contents_are_mappings news ->
  simplify_news news acc = Ok (acc ++ projections news).
Proof.
  revert acc. induction news as [| item news IH]; intros acc Hm; simpl.
  - now rewrite app_nil_r.
  - assert (Hrest : contents_are_mappings news)
      by (intros i c Hin; apply Hm; now right).
    rewrite simplify_item_content.
    destruct (content_of item) as [content |] eqn:Hc.
    + destruct (Hm item content (or_introl eq_refl) Hc) as [c ->].
      rewrite (IH _ Hrest), <- app_assoc. reflexivity.
    + now apply IH.
Qed.

Lemma projections_length (news : list pyval) :
  (length (projections news) <= length news)%nat.
Proof.
  induction news as [| item news IH]; simpl; [lia |].
  destruct (content_of item) as [[] |]; simpl; lia.
Qed.

(** X8. When no item of a non-empty feed has a content that is not a
    mapping, the list handed to [json.dumps] (with indent 2) is the
    projections of the items that have a content mapping, in the order of the
    feed, the other items left out; it is never longer than the feed. *)
Theorem news_are_projected_in_order (w : World) (symbol : string)
  (news : list pyval) :
  yf_news w symbol = Ok news ->
  news <> [] ->
  contents_are_mappings news ->
  get_stock_news_reply w symbol
  = ([ Log INFO (MsgFetchingNews symbol); Fetch (ReqNews symbol);
       Log INFO (MsgRetrievedNews symbol (length (projections news))
                   (projections news)) ],
     Ok (JsonOf (Some 2%nat) (VList (projections news)))) /\
  (length (projections news) <= length news)%nat.
Proof.
  intros Hnews Hne Hm. split; [| apply projections_length].
  unfold get_stock_news_reply. rewrite bind_log, Hnews, bind_fetch_ok.
  destruct news as [| item rest]; [contradiction |].
  rewrite (simplify_news_projections (item :: rest) [] Hm), bind_lift_ok.
  reflexivity.
Qed.

Lemma news_are_projected_in_order_witness :
  get_stock_news_reply feed_world "AAPL"
  = ([ Log INFO (MsgFetchingNews "AAPL"); Fetch (ReqNews "AAPL");
       Log INFO (MsgRetrievedNews "AAPL" (length (projections sample_feed))
                   (projections sample_feed)) ],
     Ok (JsonOf (Some 2%nat) (VList (projections sample_feed)))) /\
  (length (projections sample_feed) <= length sample_feed)%nat.
Proof.
  apply (news_are_projected_in_order feed_world "AAPL" sample_feed).
  - reflexivity.
  - discriminate.
  - intros item content [<- | [<- | [<- | []]]] H; inversion H; eauto.
Defined.

(** In the sample feed the item without content is left out, and a title
    that is present but [None] stays [None]: the placeholders stand in for
    absent keys only. *)
Example sample_feed_projections :
  projections sample_feed
  = [ VDict [ (KStr "title", VStr "Apple beats estimates");
              (KStr "summary", VStr "Quarterly results are out.");
              (KStr "pubDate", VStr "2024-02-01T21:30:00Z") ];
      VDict [ (KStr "title", VNone);
              (KStr "summary", VStr "No summary");
              (KStr "pubDate", VStr "No date") ] ].
Proof. reflexivity. Qed.

(** X9. A feed that is not empty but has no item with a content key is
    answered by the serialization of the empty list, not by the no-news
    message. *)
Theorem feed_without_content_gives_empty_list (w : World) (symbol : string)
  (news : list pyval) :
  yf_news w symbol = Ok news ->
  news <> [] ->
  (forall item, In item news -> content_of item = None) ->
  get_stock_news w symbol
  = ([ Log INFO (MsgFetchingNews symbol); Fetch (ReqNews symbol);
       Log INFO (MsgRetrievedNews symbol 0 []) ],
     json_dumps w (Some 2%nat) (VList [])).
Proof.
  intros Hnews Hne Hnone.
  assert (Hm : contents_are_mappings news).
  { intros item content Hin Hc. rewrite (Hnone item Hin) in Hc. discriminate. }
  assert (Hp : projections news = []).
  { clear Hnews Hne Hm. induction news as [| item rest IH]; [reflexivity |].
    simpl. rewrite (Hnone item (or_introl eq_refl)).
    apply IH. intros i Hin. apply Hnone. now right. }
  unfold get_stock_news, get_stock_news_reply.
  rewrite bind_log, Hnews, bind_fetch_ok.
  destruct news as [| item rest]; [contradiction |].
  rewrite (simplify_news_projections (item :: rest) [] Hm), bind_lift_ok, Hp.
  unfold bind, render, lift. simpl. reflexivity.
Qed.

Lemma feed_without_content_gives_empty_list_witness :
  get_stock_news bare_feed_world "AAPL"
  = ([ Log INFO (MsgFetchingNews "AAPL"); Fetch (ReqNews "AAPL");
       Log INFO (MsgRetrievedNews "AAPL" 0 []) ],
     json_dumps bare_feed_world (Some 2%nat) (VList [])).
Proof.
  apply (feed_without_content_gives_empty_list bare_feed_world "AAPL"
           [VDict [(KStr "id", VStr "n2")]; VStr "noise"]).
  - reflexivity.
  - discriminate.
  - intros item [<- | [<- | []]]; reflexivity.
Defined.

Lemma simplify_news_raises (news acc : list pyval) :
  (exists item content,
      In item news /\ content_of item = Some content /\
      forall c, content <> VDict c) ->
  exists e, simplify_news news acc = Raise e /\ exn_kind e = "AttributeError".
Proof.
  revert acc. induction news as [| first rest IH]; intros acc (item & content & Hin & Hc & Hnot).
  - contradiction.
  - simpl. rewrite simplify_item_content.
    destruct Hin as [-> | Hin].
    + rewrite Hc. destruct content; try (eexists; split; reflexivity).
      exfalso. now apply (Hnot entries).
    + assert (Hrest : exists item content,
                 In item rest /\ content_of item = Some content /\
                 forall c, content <> VDict c) by eauto.
      destruct (content_of first) as [[] |];
        try (eexists; split; reflexivity); now apply IH.
Qed.

(** X10. One item whose content is not a mapping, wherever it stands in the
    feed, makes the whole request end with an [AttributeError]: nothing is
    serialized, the items before it included. *)
Theorem one_bad_content_fails_the_feed (w : World) (symbol : string)
  (news : list pyval) :
  yf_news w symbol = Ok news ->
  (exists item content,
      In item news /\ content_of item = Some content /\
      forall c, content <> VDict c) ->
  exists e,
    get_stock_news w symbol
    = ([Log INFO (MsgFetchingNews symbol); Fetch (ReqNews symbol)], Raise e) /\
    exn_kind e = "AttributeError".
Proof.
  intros Hnews Hbad.
  destruct (simplify_news_raises news [] Hbad) as (e & Hrun & Hkind).
  exists e. split; [| exact Hkind].
  unfold get_stock_news, get_stock_news_reply.
  rewrite bind_log, Hnews, bind_fetch_ok.
  destruct news as [| item rest].
  - destruct Hbad as (i & c & [] & _).
  - rewrite Hrun. reflexivity.
Qed.

Lemma one_bad_content_fails_the_feed_witness :
  exists e,
    get_stock_news broken_feed_world "AAPL"
    = ([Log INFO (MsgFetchingNews "AAPL"); Fetch (ReqNews "AAPL")], Raise e) /\
    exn_kind e = "AttributeError".
Proof.
  apply (one_bad_content_fails_the_feed broken_feed_world "AAPL"
           (sample_feed ++ [null_content_item])).
  - reflexivity.
  - exists null_content_item, VNone. repeat split.
    + simpl. tauto.
    + intros c H. discriminate H.
Defined.

(* ===================================================================== *)
(** * [search]: the dispatch ignores case *)
(* ===================================================================== *)

Lemma lower_ascii_idempotent (c : ascii) :
  lower_ascii (lower_ascii c) = lower_ascii c.
Proof. destruct c as [[] [] [] [] [] [] [] []]; reflexivity. Qed.

Lemma py_lower_idempotent (s : string) : py_lower (py_lower s) = py_lower s.
Proof.
  induction s as [| c s IH]; simpl; [reflexivity |].
  now rewrite lower_ascii_idempotent, IH.
Qed.

Lemma outcome_bind {A B : Type} (m : M A) (f : A -> M B) :
  outcome (bind m f)
  = match outcome m with
    | Ok a => outcome (f a)
    | Raise e => Raise e
    end.
Proof. unfold outcome, bind. destruct m as [t [a | e]]; reflexivity. Qed.

(** X11. The dispatch of [search] ignores the case of [search_type]: a
    search type and its lower-cased form are answered alike, for the value
    handed to the serializer and for the text returned. *)
Theorem search_ignores_case (w : World) (query search_type : string) :
  outcome (search_reply w query search_type)
  = outcome (search_reply w query (py_lower search_type)) /\
  outcome (search w query search_type)
  = outcome (search w query (py_lower search_type)).
Proof.
  assert (Hreply : outcome (search_reply w query search_type)
                   = outcome (search_reply w query (py_lower search_type))).
  { unfold search_reply. rewrite !outcome_bind, py_lower_idempotent.
    destruct (outcome (fetch (ReqSearch query None) (yf_search w query None)));
      [| reflexivity].
    destruct (String.eqb (py_lower search_type) "all"); [reflexivity |].
    destruct (String.eqb (py_lower search_type) "quotes"); [reflexivity |].
    destruct (String.eqb (py_lower search_type) "news"); reflexivity. }
  split; [exact Hreply |].
  unfold search. now rewrite !outcome_bind, Hreply.
Qed.

(* ===================================================================== *)
(** * [get_stock_recommendations]: a short table *)
(* ===================================================================== *)

Lemma last_n_all {A : Type} (n : nat) (l : list A) :
  (length l <= n)%nat -> last_n n l = l.
Proof.
  intro H. unfold last_n. replace (length l - n)%nat with 0%nat by lia.
  reflexivity.
Qed.

Lemma df_tail_all (n : nat) (df : DataFrame) :
  frame_well_formed df -> (df_nrows df <= n)%nat -> df_tail n df = df.
Proof.
  intros Hwf Hn. destruct df as [idx cols]. unfold df_tail, df_nrows in *.
  simpl in *. rewrite (last_n_all n idx Hn). f_equal.
  rewrite <- (map_id cols) at 2. apply map_ext_in.
  intros [name c] Hin. simpl. rewrite last_n_all; [reflexivity |].
  rewrite (Hwf name c Hin). exact Hn.
Qed.

(** X12. A well-formed recommendations table of at most 20 rows (and at
    least one) reaches the serializer as the provider returned it. *)
Theorem short_recommendations_are_unchanged (w : World) (symbol : string)
  (table : DataFrame) :
  yf_recommendations w symbol = Ok (Some table) ->
  df_empty table = false ->
  frame_well_formed table ->
  (df_nrows table <= 20)%nat ->
  get_stock_recommendations_reply w symbol
  = ([ Fetch (ReqRecommendations symbol);
       Log INFO (MsgRetrievedRecommendations symbol table) ],
     Ok (MarkdownOf table)).
Proof.
  intros Hrecs Hne Hwf Hn. unfold get_stock_recommendations_reply.
  rewrite Hrecs, bind_fetch_ok, Hne, (df_tail_all 20 table Hwf Hn).
  reflexivity.
Qed.

Lemma short_recommendations_are_unchanged_witness :
  get_stock_recommendations_reply short_recs_world "AAPL"
  = ([ Fetch (ReqRecommendations "AAPL");
       Log INFO (MsgRetrievedRecommendations "AAPL" short_recs_table) ],
     Ok (MarkdownOf short_recs_table)).
Proof.
  apply (short_recommendations_are_unchanged short_recs_world "AAPL").
  - reflexivity.
  - reflexivity.
  - intros name c [H | [H | []]]; inversion H; reflexivity.
  - unfold df_nrows. simpl. lia.
Defined.

(* ===================================================================== *)
(** * [get_price_history]: support and resistance around the close *)
(* ===================================================================== *)

(** The cells of a produced table, row by row. *)
Lemma price_table_cells (w : World) (symbol period interval : string)
  (t : list event) (out : DataFrame) :
  get_price_history_table w symbol period interval = (t, Ok (MarkdownOf out)) ->
  exists closes,
    length closes = df_nrows out /\
    forall i, (i < df_nrows out)%nat ->
      exists lo c hi,
        df_cell (KStr "Support") i out = Some (VFloat lo) /\
        df_cell (KStr "Close") i out = Some (VFloat c) /\
        df_cell (KStr "Resistance") i out = Some (VFloat hi) /\
        nth_error closes i = Some c /\
        is_window_min closes i lo /\
        is_window_max closes i hi.
Proof.
  intro H. apply get_price_history_table_ok in H.
  destruct H as (bars & t' & _ & _ & Hadd & _).
  destruct (add_indicators_ok _ _ _ _ _ _ (has_closes_history bars) Hadd)
    as (closes & [Hc Hlen] & Hs & Hr).
  exists closes. split; [exact Hlen |]. intros i Hi. rewrite <- Hlen in Hi.
  destruct (rolling_cell_min closes i Hi) as (lo & Hlo & Hmin).
  destruct (rolling_cell_max closes i Hi) as (hi & Hhi & Hmax).
  destruct (nth_error closes i) as [c |] eqn:Hci;
    [| apply nth_error_None in Hci; lia].
  exists lo, c, hi. unfold df_cell. rewrite Hs, Hr, Hc.
  rewrite !nth_error_map, !nth_error_seq, Hci.
  apply Nat.ltb_lt in Hi. rewrite Hi. simpl. rewrite Hlo, Hhi. auto 10.
Qed.

(** X13. On every row of a produced table the support is at most the
    close and the close at most the resistance. *)
Theorem support_close_resistance_ordered
  (w : World) (symbol period interval : string) (t : list event) (out : DataFrame) :
  get_price_history_table w symbol period interval = (t, Ok (MarkdownOf out)) ->
  forall i, (i < df_nrows out)%nat ->
    exists lo c hi,
      df_cell (KStr "Support") i out = Some (VFloat lo) /\
      df_cell (KStr "Close") i out = Some (VFloat c) /\
      df_cell (KStr "Resistance") i out = Some (VFloat hi) /\
      (lo <= c)%Q /\ (c <= hi)%Q.
Proof.
  intros H i Hi. destruct (price_table_cells _ _ _ _ _ _ H) as (closes & _ & Hcells).
  destruct (Hcells i Hi) as (lo & c & hi & Hs & Hc & Hr & Hci & [_ Hmin] & [_ Hmax]).
  exists lo, c, hi. repeat split; auto.
  - apply (Hmin i c); [lia | exact Hci].
  - apply (Hmax i c); [lia | exact Hci].
Qed.

Lemma support_close_resistance_ordered_witness :
  exists lo c hi,
    df_cell (KStr "Support") 4 week_table = Some (VFloat lo) /\
    df_cell (KStr "Close") 4 week_table = Some (VFloat c) /\
    df_cell (KStr "Resistance") 4 week_table = Some (VFloat hi) /\
    (lo <= c)%Q /\ (c <= hi)%Q.
Proof.
  apply (support_close_resistance_ordered week_world "AAPL" "1wk" "1d"
           [ Fetch (ReqHistory "AAPL" "1wk" "1d");
             Log WARNING (MsgMacdNotCalculated "AAPL") ] week_table).
  - vm_compute. reflexivity.
  - unfold df_nrows. simpl. lia.
Defined.

(** X14. While the window is still filling (up to row 19) it only grows:
    from one row to the next the support never rises and the resistance never
    falls. *)
Theorem levels_widen_while_window_fills
  (w : World) (symbol period interval : string) (t : list event) (out : DataFrame) :
  get_price_history_table w symbol period interval = (t, Ok (MarkdownOf out)) ->
  forall i, (S i < df_nrows out)%nat -> (S i <= 19)%nat ->
    exists lo lo' hi hi',
      df_cell (KStr "Support") i out = Some (VFloat lo) /\
      df_cell (KStr "Support") (S i) out = Some (VFloat lo') /\
      df_cell (KStr "Resistance") i out = Some (VFloat hi) /\
      df_cell (KStr "Resistance") (S i) out = Some (VFloat hi') /\
      (lo' <= lo)%Q /\ (hi <= hi')%Q.
Proof.
  intros H i Hi Hfill.
  destruct (price_table_cells _ _ _ _ _ _ H) as (closes & _ & Hcells).
  destruct (Hcells i ltac:(lia))
    as (lo & c & hi & Hs & _ & Hr & _ & [(j & Hj & Hlo) _] & [(k & Hk & Hhi) _]).
  destruct (Hcells (S i) Hi)
    as (lo' & c' & hi' & Hs' & _ & Hr' & _ & [_ Hmin] & [_ Hmax]).
  exists lo, lo', hi, hi'. repeat split; auto.
  - apply (Hmin j lo); [lia | exact Hlo].
  - apply (Hmax k hi); [lia | exact Hhi].
Qed.

Lemma levels_widen_while_window_fills_witness :
  exists lo lo' hi hi',
    df_cell (KStr "Support") 1 week_table = Some (VFloat lo) /\
    df_cell (KStr "Support") 2 week_table = Some (VFloat lo') /\
    df_cell (KStr "Resistance") 1 week_table = Some (VFloat hi) /\
    df_cell (KStr "Resistance") 2 week_table = Some (VFloat hi') /\
    (lo' <= lo)%Q /\ (hi <= hi')%Q.
Proof.
  apply (levels_widen_while_window_fills week_world "AAPL" "1wk" "1d"
           [ Fetch (ReqHistory "AAPL" "1wk" "1d");
             Log WARNING (MsgMacdNotCalculated "AAPL") ] week_table).
  - vm_compute. reflexivity.
  - unfold df_nrows. simpl. lia.
  - lia.
Defined.

(* ===================================================================== *)
(** * Dict displays with distinct keys *)
(* ===================================================================== *)

Lemma key_mem_iff (k : pykey) (ks : list pykey) : key_mem k ks = true <-> In k ks.
Proof.
  induction ks as [| k' ks IH]; simpl.
  - split; [discriminate | contradiction].
  - rewrite orb_true_iff, IH, pykey_eqb_eq. split; intros [H | H]; auto.
Qed.

Lemma has_duplicates_NoDup (ks : list pykey) :
  has_duplicates ks = false -> NoDup ks.
Proof.
  induction ks as [| k ks IH]; simpl; intro H; [constructor |].
  apply orb_false_iff in H. destruct H as [Hmem Hrest].
  constructor; [| now apply IH].
  intro Hin. apply key_mem_iff in Hin. congruence.
Qed.

Lemma dict_set_fresh (k : pykey) (v : pyval) (d : pydict) :
  ~ In k (dict_keys d) -> dict_set k v d = d ++ [(k, v)].
Proof.
  unfold dict_keys. induction d as [| [k' v'] d IH]; simpl; intro Hnot;
    [reflexivity |].
  destruct (pykey_eqb k k') eqn:E.
  - apply pykey_eqb_eq in E. subst k'. tauto.
  - rewrite IH by tauto. reflexivity.
Qed.

Lemma dict_update_fresh (items acc : pydict) :
  NoDup (dict_keys acc ++ map fst items) -> dict_update acc items = acc ++ items.
Proof.
  unfold dict_update. revert acc.
  induction items as [| [k v] items IH]; intros acc Hnd; simpl.
  - now rewrite app_nil_r.
  - simpl in Hnd. rewrite dict_set_fresh.
    + rewrite IH; [now rewrite <- app_assoc |].
      unfold dict_keys in *. rewrite map_app. simpl. rewrite <- app_assoc.
      simpl. apply NoDup_remove_1 in Hnd as Hrest.
      apply NoDup_remove_2 in Hnd.
      clear IH. revert Hnd Hrest. generalize (map fst acc) (map fst items).
      intros a b Hnot Hnd. induction a as [| x a IH]; simpl in *.
      * constructor; assumption.
      * inversion Hnd as [| y l Hx Hnd']; subst. constructor.
        -- intro Hin. apply in_app_or in Hin. destruct Hin as [Hin | [-> | Hin]].
           ++ apply Hx. apply in_or_app. now left.
           ++ apply Hnot. now left.
           ++ apply Hx. apply in_or_app. now right.
        -- apply IH; [| assumption]. intro Hin. apply Hnot. now right.
    + apply NoDup_remove_2 in Hnd. intro Hin. apply Hnd.
      apply in_or_app. now left.
Qed.

Lemma dict_of_items_distinct (items : pydict) :
  NoDup (map fst items) -> dict_of_items items = items.
Proof. intro H. unfold dict_of_items. now rewrite dict_update_fresh. Qed.

Lemma select_attributes_distinct (info : pydict) (names : list string) :
  has_duplicates (map KStr names) = false ->
  select_attributes info names = VDict (group_entries info names).
Proof.
  intro H. unfold select_attributes. rewrite dict_of_items_distinct; [reflexivity |].
  rewrite map_map. simpl. now apply has_duplicates_NoDup.
Qed.

Lemma group_entries_get (info : pydict) (names : list string) (k : string) :
  In k names ->
  dict_get (KStr k) (group_entries info names)
  = Some (dict_get_or_none (KStr k) info).
Proof.
  unfold group_entries. induction names as [| n names IH]; simpl; [contradiction |].
  intros [-> | Hin].
  - now rewrite String.eqb_refl.
  - destruct (String.eqb k n) eqn:E.
    + apply String.eqb_eq in E. now subst n.
    + now apply IH.
Qed.

(** X15. Whatever the attribute map holds, every group cut from it by a
    table of [get_stock_info] has exactly the attribute names of its table as
    keys, in the table's order; each holds what the map has for the name, and
    [None] when the map has no such attribute. *)
Theorem groups_have_the_keys_of_their_table
  (info : pydict) (group : string) (names : list string) :
  In (group, names) (etf_groups ++ equity_info_groups) ->
  exists entries,
    select_attributes info names = VDict entries /\
    dict_keys entries = map KStr names /\
    forall k, In k names ->
      dict_get (KStr k) entries = Some (dict_get_or_none (KStr k) info) /\
      (dict_get (KStr k) info = None -> dict_get (KStr k) entries = Some VNone).
Proof.
  intro Hin. exists (group_entries info names).
  assert (Hdistinct : has_duplicates (map KStr names) = false).
  { simpl in Hin.
    repeat (destruct Hin as [Hin | Hin]; [inversion Hin; reflexivity |]).
    contradiction. }
  split; [now apply select_attributes_distinct |]. split.
  - unfold dict_keys, group_entries. now rewrite map_map.
  - intros k Hk. rewrite (group_entries_get info names k Hk). split; [reflexivity |].
    unfold dict_get_or_none. now intros ->.
Qed.

Lemma groups_have_the_keys_of_their_table_witness :
  exists entries,
    select_attributes fund_info etf_analysis_keys = VDict entries /\
    dict_keys entries = map KStr etf_analysis_keys /\
    forall k, In k etf_analysis_keys ->
      dict_get (KStr k) entries = Some (dict_get_or_none (KStr k) fund_info) /\
      (dict_get (KStr k) fund_info = None -> dict_get (KStr k) entries = Some VNone).
Proof.
  apply (groups_have_the_keys_of_their_table fund_info "etf_analysis").
  simpl. tauto.
Defined.

(* ===================================================================== *)
(** * [df_to_dict_str_keys]: the cells of a frame *)
(* ===================================================================== *)

Lemma column_lookup_In (name : pykey) (c : list pyval) cols :
  column_lookup name cols = Some c -> In (name, c) cols.
Proof.
  induction cols as [| [n c'] cols IH]; simpl; [discriminate |].
  destruct (pykey_eqb name n) eqn:E.
  - apply pykey_eqb_eq in E. subst n. intro H. inversion H. now left.
  - intro H. right. now apply IH.
Qed.

Lemma combine_keys_NoDup {B : Type} (f : pykey -> B) (idx : list pykey)
  (c : list pyval) :
  NoDup (map f idx) -> NoDup (map f (map fst (combine idx c))).
Proof.
  revert c. induction idx as [| k idx IH]; intros c Hnd; simpl; [constructor |].
  destruct c as [| x c]; simpl; [constructor |].
  inversion Hnd as [| y l Hnot Hnd']; subst. constructor; [| now apply IH].
  intro Hin. apply Hnot. apply in_map_iff in Hin.
  destruct Hin as (k' & Hk & Hin). rewrite <- Hk. apply in_map.
  apply in_map_iff in Hin. destruct Hin as ([k'' x'] & Hfst & Hin).
  simpl in Hfst. subst k''. now apply in_combine_l in Hin.
Qed.

Lemma combine_nth_error (idx : list pykey) (c : list pyval) (i : nat)
  (r : pykey) (x : pyval) :
  nth_error idx i = Some r -> nth_error c i = Some x -> In (r, x) (combine idx c).
Proof.
  revert c i. induction idx as [| k idx IH]; intros c i Hr Hx.
  - destruct i; discriminate.
  - destruct c as [| y c]; [destruct i; discriminate |].
    destruct i as [| i]; simpl in *.
    + inversion Hr; inversion Hx. now left.
    + right. now apply (IH c i).
Qed.

Lemma NoDup_of_renderings (ks : list pykey) :
  NoDup (map py_str_key ks) -> NoDup ks.
Proof. apply NoDup_map_inv. Qed.

(** X16. On a frame whose column labels, and whose row labels, render to
    distinct strings, the result holds every cell of the frame under the
    renderings of its labels: [result[str(column)][str(row)]] is the cell. *)
Theorem frame_cells_under_string_keys (f : DataFrame)
  (column row : pykey) (cells : list pyval) (i : nat) (x : pyval) :
  NoDup (map py_str_key (df_names f)) ->
  NoDup (map py_str_key (df_index f)) ->
  df_column column f = Some cells ->
  nth_error (df_index f) i = Some row ->
  nth_error cells i = Some x ->
  exists converted,
    df_to_dict_str_keys (Some f) = Ok (VDict converted) /\
    nested_get converted (KStr (py_str_key column)) (KStr (py_str_key row)) = Some x.
Proof.
  intros Hcols Hrows Hcol Hrow Hx.
  destruct (df_to_dict_str_keys_frame f) as (d & Hd & Hrun).
  destruct (to_dict_nested f) as (d' & Hd' & Hnd & Hnested).
  rewrite Hd in Hd'. inversion Hd'; subst d'. clear Hd'.
  exists (rekeyed d). split; [exact Hrun |].
  unfold to_dict in Hd. inversion Hd as [Hshape]. clear Hd.
  set (entry := fun c : pykey * list pyval =>
                  (fst c, VDict (dict_of_items (combine (df_index f) (snd c))))) in *.
  assert (Hkeys : map fst (map entry (df_columns f)) = df_names f)
    by (unfold df_names; rewrite map_map; reflexivity).
  assert (Hd : d = map entry (df_columns f)).
  { rewrite <- Hshape. apply dict_of_items_distinct.
    rewrite Hkeys. now apply NoDup_of_renderings. }
  assert (Hinner : forall c, dict_of_items (combine (df_index f) c)
                             = combine (df_index f) c).
  { intro c. apply dict_of_items_distinct.
    rewrite <- (map_id (map fst (combine (df_index f) c))).
    apply combine_keys_NoDup. rewrite map_id. now apply NoDup_of_renderings. }
  rewrite Hshape. apply (rekeyed_values_complete d Hnested).
  - split.
    + rewrite Hd. unfold dict_keys. rewrite Hkeys. exact Hcols.
    + intros k inner Hin. rewrite Hd in Hin. apply in_map_iff in Hin.
      destruct Hin as (c & Hc & _). inversion Hc as [[Hk Hi]].
      rewrite Hinner. unfold dict_keys. now apply combine_keys_NoDup.
  - unfold nested_get.
    rewrite (In_dict_get column
               (VDict (dict_of_items (combine (df_index f) cells))) d Hnd).
    + rewrite Hinner. apply In_dict_get.
      * unfold dict_keys. rewrite <- (map_id (map fst _)).
        apply combine_keys_NoDup. rewrite map_id. now apply NoDup_of_renderings.
      * now apply (combine_nth_error _ _ i).
    + rewrite Hd. apply in_map_iff. exists (column, cells). split; [reflexivity |].
      now apply column_lookup_In.
Qed.

Lemma frame_cells_under_string_keys_witness :
  exists converted,
    df_to_dict_str_keys (Some sample_statement) = Ok (VDict converted) /\
    nested_get converted (KStr "2022-09-30 00:00:00") (KStr "Total Debt")
    = Some (VFloat (120069#1)).
Proof.
  apply (frame_cells_under_string_keys sample_statement
           (KTimestamp "2022-09-30 00:00:00") (KStr "Total Debt")
           [VFloat (352755#1); VFloat (120069#1); VInt 3] 1).
  - simpl. repeat constructor; simpl; intuition discriminate.
  - simpl. repeat constructor; simpl; intuition discriminate.
  - reflexivity.
  - reflexivity.
  - reflexivity.
Defined.

(* ===================================================================== *)
(** * [get_price_history]: the columns of the table *)
(* ===================================================================== *)

Lemma column_assign_names (n : pykey) (c : list pyval) cols :
  map fst (column_assign n c cols) = set_name n (map fst cols).
Proof.
  unfold set_name. induction cols as [| [k c'] cols IH]; simpl; [reflexivity |].
  destruct (pykey_eqb n k); simpl; [reflexivity |].
  rewrite IH. destruct (key_mem n (map fst cols)); reflexivity.
Qed.

Lemma df_setitem_names (n : pykey) value (df df' : DataFrame) :
  df_setitem n value df = Ok df' -> df_names df' = set_name n (df_names df).
Proof.
  intro H. apply df_setitem_ok in H. destruct H as (_ & c & Hc).
  unfold df_names. rewrite Hc. apply column_assign_names.
Qed.

Lemma df_join_names (l r df' : DataFrame) :
  df_join l r = Ok df' -> df_names df' = df_names l ++ df_names r.
Proof.
  unfold df_join. destruct (names_overlap (df_names l) (df_names r)); [discriminate |].
  intro H. inversion H. unfold df_names. simpl.
  rewrite map_app, !map_map. reflexivity.
Qed.

Lemma stage_join_names (msg : message) (df : DataFrame) (other : option DataFrame)
  (t : list event) (df' : DataFrame) :
  match other with
  | Some m => lift (df_join df m)
  | None => bind (log WARNING msg) (fun _ => ret df)
  end = (t, Ok df') ->
  df_names df' = df_names df ++ optional_names other.
Proof.
  destruct other as [m |]; intro H; simpl.
  - apply lift_ok in H. destruct H as [H _]. now apply (df_join_names df m).
  - inversion H; subst. now rewrite app_nil_r.
Qed.

Lemma set_name_fresh (n : pykey) (names : list pykey) :
  ~ In n names -> set_name n names = names ++ [n].
Proof.
  intro H. unfold set_name. destruct (key_mem n names) eqn:E; [| reflexivity].
  apply key_mem_iff in E. contradiction.
Qed.

(** X17. The columns of a produced table come in the order the function
    adds them: the fetched columns, RSI, the MACD columns if MACD was
    computed, the Bollinger columns if they were, then Support and
    Resistance, which go last unless the indicator library already used one
    of these two names (the assignment then overwrites that column in
    place). *)
Theorem columns_come_in_joining_order
  (w : World) (symbol period interval : string) (t : list event) (out : DataFrame) :
  get_price_history_table w symbol period interval = (t, Ok (MarkdownOf out)) ->
  exists s1 s2 macd bb,
    ta_macd w s1 = Ok macd /\
    ta_bbands w s2 = Ok bb /\
    let joined :=
      [ KStr "Open"; KStr "High"; KStr "Low"; KStr "Close"; KStr "Volume";
        KStr "RSI" ] ++ optional_names macd ++ optional_names bb in
    df_names out = set_name (KStr "Resistance") (set_name (KStr "Support") joined) /\
    (~ In (KStr "Support") joined -> ~ In (KStr "Resistance") joined ->
     df_names out = joined ++ [KStr "Support"; KStr "Resistance"]).
Proof.
  intro H. apply get_price_history_table_ok in H.
  destruct H as (bars & t' & _ & _ & Hadd & _).
  unfold add_indicators in Hadd. invert_runs.
  match goal with
  | Hm : ta_macd w ?s1 = Ok ?macd, Hb : ta_bbands w ?s2 = Ok ?bb |- _ =>
      exists s1, s2, macd, bb; split; [exact Hm | split; [exact Hb |]];
      assert (Hnames : df_names out
                       = set_name (KStr "Resistance")
                           (set_name (KStr "Support")
                              ([ KStr "Open"; KStr "High"; KStr "Low";
                                 KStr "Close"; KStr "Volume"; KStr "RSI" ]
                               ++ optional_names macd ++ optional_names bb)))
  end.
  { repeat match goal with
    | Hs : df_setitem _ _ _ = Ok _ |- _ => apply df_setitem_names in Hs
    | Hj : match _ with Some _ => _ | None => _ end = (_, Ok _) |- _ =>
        apply stage_join_names in Hj
    end.
    subst out.
    repeat match goal with
    | Hn : df_names _ = _ |- _ => rewrite Hn; clear Hn
    end.
    rewrite <- app_assoc. reflexivity. }
  simpl. split; [exact Hnames |].
  intros Hs Hr. rewrite Hnames.
  rewrite (set_name_fresh (KStr "Support")) by exact Hs.
  rewrite set_name_fresh.
  - now rewrite <- app_assoc.
  - intro Hin. apply in_app_or in Hin. destruct Hin as [Hin | [Hin | []]].
    + now apply Hr.
    + discriminate Hin.
Qed.

Lemma columns_come_in_joining_order_witness :
  exists s1 s2 macd bb,
    ta_macd eager_world s1 = Ok macd /\
    ta_bbands eager_world s2 = Ok bb /\
    let joined :=
      [ KStr "Open"; KStr "High"; KStr "Low"; KStr "Close"; KStr "Volume";
        KStr "RSI" ] ++ optional_names macd ++ optional_names bb in
    df_names eager_table
    = set_name (KStr "Resistance") (set_name (KStr "Support") joined) /\
    (~ In (KStr "Support") joined -> ~ In (KStr "Resistance") joined ->
     df_names eager_table = joined ++ [KStr "Support"; KStr "Resistance"]).
Proof.
  apply (columns_come_in_joining_order eager_world "AAPL" "1wk" "1d"
           [Fetch (ReqHistory "AAPL" "1wk" "1d")]).
  vm_compute. reflexivity.
Defined.

(** The columns of the table of the sample week with eager indicators. *)
Example eager_table_names :
  df_names eager_table
  = [ KStr "Open"; KStr "High"; KStr "Low"; KStr "Close"; KStr "Volume";
      KStr "RSI"; KStr "MACD_12_26_9"; KStr "BBM_5_2.0";
      KStr "Support"; KStr "Resistance" ].
Proof. reflexivity. Qed.

(* ===================================================================== *)
(** * [get_price_history]: a computed indicator reaches the table *)
(* ===================================================================== *)

Lemma positions_from_app (j : nat) (k : pykey) (a b : list pykey) :
  positions_from j k (a ++ b)
  = positions_from j k a ++ positions_from (j + length a) k b.
Proof.
  revert j. induction a as [| x a IH]; intro j; simpl.
  - now rewrite Nat.add_0_r.
  - rewrite IH. replace (S j + length a)%nat with (j + S (length a))%nat by lia.
    destruct (pykey_eqb k x); reflexivity.
Qed.

Lemma positions_of_own_label (k : pykey) (a b : list pykey) :
  NoDup (a ++ k :: b) -> positions k (a ++ k :: b) = [length a].
Proof.
  intro Hnd. unfold positions. rewrite positions_from_app. simpl.
  rewrite pykey_eqb_refl.
  apply NoDup_remove_2 in Hnd.
  rewrite !positions_from_absent; [reflexivity | |];
    intro Hin; apply Hnd; apply in_or_app; auto.
Qed.

Lemma join_plan_from_right (pre suf : list pykey) :
  NoDup (pre ++ suf) ->
  map jr_right (join_plan_from (length pre) suf (pre ++ suf))
  = map Some (seq (length pre) (length suf)).
Proof.
  revert pre. induction suf as [| k suf IH]; intros pre Hnd; simpl; [reflexivity |].
  rewrite map_app. unfold join_rows_for.
  rewrite (positions_of_own_label k pre suf Hnd). simpl. f_equal.
  specialize (IH (pre ++ [k])). rewrite <- app_assoc in IH. simpl in IH.
  rewrite length_app in IH. simpl in IH.
  replace (length pre + 1)%nat with (S (length pre)) in IH by lia.
  now apply IH.
Qed.

Lemma take_right_identity (idx : list pykey) (c : list pyval) :
  NoDup idx -> length c = length idx -> take_right (join_plan idx idx) c = c.
Proof.
  intros Hnd Hlen. unfold take_right, join_plan.
  pose proof (join_plan_from_right [] idx Hnd) as Hright. simpl in Hright.
  rewrite <- (map_map jr_right
                (fun o => match o with Some j => nth j c VNaN | None => VNaN end)).
  rewrite Hright, map_map, <- Hlen. apply nth_seq_identity.
Qed.

Lemma column_lookup_absent (n : pykey) cols :
  ~ In n (map fst cols) -> column_lookup n cols = None.
Proof.
  induction cols as [| [k c] cols IH]; simpl; intro H; [reflexivity |].
  destruct (pykey_eqb n k) eqn:E.
  - apply pykey_eqb_eq in E. subst k. tauto.
  - apply IH. tauto.
Qed.

Lemma names_overlap_false (a b : list pykey) (n : pykey) :
  names_overlap a b = false -> In n b -> ~ In n a.
Proof.
  unfold names_overlap. intros H Hb Ha.
  assert (Hex : existsb (fun k => key_mem k b) a = true).
  { apply existsb_exists. exists n. split; [exact Ha |]. now apply key_mem_iff. }
  congruence.
Qed.

(** A column of the right frame, after a join on one index without
    duplicate labels. *)
Lemma df_join_right_column (l r df' : DataFrame) (n : pykey) (c : list pyval) :
  df_join l r = Ok df' ->
  df_index r = df_index l -> NoDup (df_index l) ->
  df_column n r = Some c -> length c = df_nrows l ->
  df_column n df' = Some c.
Proof.
  unfold df_join. intros H Hidx Hnd Hc Hlen.
  destruct (names_overlap (df_names l) (df_names r)) eqn:Hover; [discriminate |].
  inversion H; subst df'. clear H. unfold df_column in *. simpl.
  rewrite column_lookup_app, !column_lookup_map.
  rewrite (column_lookup_absent n (df_columns l)).
  - rewrite Hc. simpl. f_equal. rewrite Hidx.
    now apply take_right_identity.
  - apply (names_overlap_false _ (df_names r)); [exact Hover |].
    apply column_lookup_In in Hc. unfold df_names.
    change n with (fst (n, c)). now apply in_map.
Qed.

(** A column of the left frame, after a join with a frame whose index has
    no duplicate labels. *)
Lemma df_join_left_column (l r df' : DataFrame) (n : pykey) (c : list pyval) :
  df_join l r = Ok df' ->
  NoDup (df_index r) ->
  df_column n l = Some c -> length c = df_nrows l ->
  df_column n df' = Some c.
Proof.
  unfold df_join. intros H Hnd Hc Hlen.
  destruct (names_overlap (df_names l) (df_names r)); [discriminate |].
  inversion H; subst df'. clear H. unfold df_column in *. simpl.
  rewrite column_lookup_app, column_lookup_map, Hc. simpl. f_equal.
  now apply take_left_identity.
Qed.

(** X18. On a series with pairwise distinct timestamps, with an indicator
    library that returns its frames over the index it was given, a computed
    MACD reaches the table: every column of the MACD frame that has one cell
    per row, and is not named Support or Resistance, is a column of the
    produced table, cell for cell. *)
Theorem computed_macd_reaches_the_table
  (w : World) (symbol period interval : string) (bars : list bar)
  (t : list event) (out m : DataFrame) (name : pykey) (c : list pyval) :
  yf_history w symbol period interval = Ok bars ->
  NoDup (map bar_time bars) ->
  indicators_aligned w ->
  get_price_history_table w symbol period interval = (t, Ok (MarkdownOf out)) ->
  ta_macd w (close_series bars) = Ok (Some m) ->
  df_column name m = Some c ->
  length c = length bars ->
  name <> KStr "Support" ->
  name <> KStr "Resistance" ->
  df_column name out = Some c.
Proof.
  intros Hbars Hnd [Hmacd Hbb] H Hm Hc Hlen Hns Hnr.
  apply get_price_history_table_ok in H.
  destruct H as (bars' & t' & Hbars' & _ & Hadd & _).
  rewrite Hbars in Hbars'. inversion Hbars'; subst bars'. clear Hbars'.
  apply timestamps_NoDup in Hnd.
  assert (Hrows : df_nrows (history_frame bars) = length bars)
    by (unfold df_nrows; simpl; now rewrite length_map).
  unfold add_indicators in Hadd. invert_runs.
  match goal with
  | Hs : df_setitem (KStr "RSI") _ _ = Ok ?d |- _ =>
      pose proof (df_setitem_ok _ _ _ _ Hs) as [Hi1 _];
      pose proof (df_setitem_column_other (KStr "RSI") (KStr "Close") _ _ _
                    eq_refl Hs) as Hclose1
  end.
  match goal with
  | Hg : df_getitem _ ?d = Ok ?s, Hcall : ta_macd w ?s = Ok ?o,
    Hj : match ?o with Some _ => _ | None => _ end = (_, Ok ?d') |- _ =>
      assert (Hs : s = close_series bars);
      [ apply df_getitem_ok in Hg; destruct Hg as [Hgi Hgv];
        rewrite Hclose1 in Hgv; destruct s as [si sv]; simpl in *;
        inversion Hgv; unfold close_series; simpl; congruence
      | rewrite Hs, Hm in Hcall; inversion Hcall; subst o;
        apply lift_ok in Hj; destruct Hj as [Hj _];
        assert (Hidx : df_index m = df_index d)
          by (rewrite (Hmacd _ _ Hm); simpl; now rewrite Hi1);
        assert (C2 : df_column name d' = Some c)
          by (apply (df_join_right_column d m d' name c Hj Hidx);
              [ now rewrite Hi1 | exact Hc
              | unfold df_nrows; rewrite Hi1; fold (df_nrows (history_frame bars));
                congruence ]);
        assert (I2 : df_index d' = df_index (history_frame bars))
          by (unfold df_join in Hj;
              destruct (names_overlap (df_names d) (df_names m)); [discriminate |];
              inversion Hj; simpl; unfold join_plan;
              destruct (join_plan_from_identity 0 (df_index d) (df_index m))
                as [Hl _]; [rewrite Hidx, Hi1; exact Hnd | now rewrite Hl]) ]
  end.
  match goal with
  | Hg : df_getitem _ ?d = Ok ?s, Hcall : ta_bbands w ?s = Ok ?o,
    Hj : match ?o with Some _ => _ | None => _ end = (_, Ok ?d') |- _ =>
      assert (C3 : df_column name d' = Some c);
      [ destruct o as [b |];
        [ apply lift_ok in Hj; destruct Hj as [Hj _];
          apply (df_join_left_column d b d' name c Hj);
          [ rewrite (Hbb _ _ Hcall); apply df_getitem_ok in Hg;
            destruct Hg as [-> _]; rewrite I2; exact Hnd
          | exact C2
          | unfold df_nrows; rewrite I2; fold (df_nrows (history_frame bars));
            congruence ]
        | inversion Hj; subst; exact C2 ]
      | ]
  end.
  subst out.
  match goal with
  | Hs : df_setitem (KStr "Resistance") _ ?d = Ok _ |- _ =>
      rewrite (df_setitem_column_other (KStr "Resistance") name _ _ _
                 ltac:(now apply pykey_eqb_neq) Hs)
  end.
  match goal with
  | Hs : df_setitem (KStr "Support") _ ?d = Ok _ |- _ =>
      rewrite (df_setitem_column_other (KStr "Support") name _ _ _
                 ltac:(now apply pykey_eqb_neq) Hs)
  end.
  exact C3.
Qed.

Lemma computed_macd_reaches_the_table_witness :
  df_column (KStr "MACD_12_26_9") eager_table
  = Some (map (fun b => VFloat (bar_close b)) week_bars).
Proof.
  apply (computed_macd_reaches_the_table eager_world "AAPL" "1wk" "1d" week_bars
           [Fetch (ReqHistory "AAPL" "1wk" "1d")] eager_table
           (mkFrame (s_index (close_series week_bars))
              [(KStr "MACD_12_26_9", s_values (close_series week_bars))])).
  - reflexivity.
  - simpl. repeat constructor; simpl; intuition discriminate.
  - split; intros s f H; inversion H; reflexivity.
  - vm_compute. reflexivity.
  - reflexivity.
  - reflexivity.
  - reflexivity.
  - discriminate.
  - discriminate.
Defined.

(* ===================================================================== *)
(** * [get_price_history]: the RSI column *)
(* ===================================================================== *)

Lemma rsi_column_assigned (bars : list bar) (r : option Series) (df : DataFrame) :
  rsi_aligned r bars ->
  df_setitem (KStr "RSI") r (history_frame bars) = Ok df ->
  df_column (KStr "RSI") df = Some (rsi_column r (length bars)).
Proof.
  intros Ha Hset. rewrite (setitem_rsi_history bars r Ha) in Hset.
  inversion Hset. reflexivity.
Qed.

Lemma stage_join_left_column (msg : message) (df : DataFrame) (s : Series)
  (other : option DataFrame) (t : list event) (df' : DataFrame)
  (idx : list pykey) (n : pykey) (c : list pyval) :
  NoDup idx ->
  df_index df = idx ->
  df_getitem (KStr "Close") df = Ok s ->
  (forall f, other = Some f -> df_index f = s_index s) ->
  df_column n df = Some c ->
  length c = length idx ->
  match other with
  | Some m => lift (df_join df m)
  | None => bind (log WARNING msg) (fun _ => ret df)
  end = (t, Ok df') ->
  df_column n df' = Some c /\ df_index df' = idx.
Proof.
  intros Hnd Hidx Hget Ha Hc Hlen H. destruct other as [m |].
  - apply lift_ok in H. destruct H as [H _].
    assert (Hm : NoDup (df_index m)).
    { rewrite (Ha m eq_refl). apply df_getitem_ok in Hget.
      destruct Hget as [-> _]. now rewrite Hidx. }
    split.
    + apply (df_join_left_column df m df' n c H Hm Hc).
      unfold df_nrows. now rewrite Hidx.
    + unfold df_join in H.
      destruct (names_overlap (df_names df) (df_names m)); [discriminate |].
      inversion H. simpl. unfold join_plan.
      destruct (join_plan_from_identity 0 (df_index df) (df_index m) Hm) as [Hl _].
      now rewrite Hl.
  - inversion H; subst. auto.
Qed.

(** X19. On a series with pairwise distinct timestamps, with an indicator
    library that returns its results over the index it was given, every
    produced table has an RSI column, and it is what [ta.rsi] returned: the
    values of the returned Series, or [None] on every row when [ta.rsi]
    returned [None]. *)
Theorem rsi_column_is_what_rsi_returned
  (w : World) (symbol period interval : string) (bars : list bar)
  (t : list event) (out : DataFrame) (r : option Series) :
  yf_history w symbol period interval = Ok bars ->
  NoDup (map bar_time bars) ->
  indicators_aligned w ->
  get_price_history_table w symbol period interval = (t, Ok (MarkdownOf out)) ->
  ta_rsi w (close_series bars) = Ok r ->
  rsi_aligned r bars ->
  length (rsi_column r (length bars)) = length bars ->
  df_column (KStr "RSI") out = Some (rsi_column r (length bars)).
Proof.
  intros Hbars Hnd [Hmacd Hbb] H Hrsi Ha Hlen.
  apply get_price_history_table_ok in H.
  destruct H as (bars' & t' & Hbars' & _ & Hadd & _).
  rewrite Hbars in Hbars'. inversion Hbars'; subst bars'. clear Hbars'.
  apply timestamps_NoDup in Hnd.
  assert (Hn : length (df_index (history_frame bars)) = length bars)
    by (simpl; now rewrite length_map).
  unfold add_indicators in Hadd. invert_runs.
  match goal with
  | Hg : df_getitem _ (history_frame bars) = Ok ?s, Hcall : ta_rsi w ?s = Ok ?o,
    Hs : df_setitem (KStr "RSI") ?o _ = Ok ?d |- _ =>
      rewrite getitem_close_history in Hg; inversion Hg; subst s;
      rewrite Hrsi in Hcall; inversion Hcall; subst o;
      pose proof (rsi_column_assigned bars r d Ha Hs) as C1;
      pose proof (df_setitem_ok _ _ _ _ Hs) as [I1 _]
  end.
  match goal with
  | Hg : df_getitem _ ?d = Ok ?s, Hcall : ta_macd w ?s = Ok ?o,
    Hj : match ?o with Some _ => _ | None => _ end = (_, Ok ?d') |- _ =>
      destruct (stage_join_left_column _ d s o _ d' _ (KStr "RSI") _
                  Hnd I1 Hg (fun f E => Hmacd s f (eq_trans Hcall (f_equal Ok E)))
                  C1 ltac:(congruence) Hj) as [C2 I2]
  end.
  match goal with
  | Hg : df_getitem _ ?d = Ok ?s, Hcall : ta_bbands w ?s = Ok ?o,
    Hj : match ?o with Some _ => _ | None => _ end = (_, Ok ?d') |- _ =>
      destruct (stage_join_left_column _ d s o _ d' _ (KStr "RSI") _
                  Hnd I2 Hg (fun f E => Hbb s f (eq_trans Hcall (f_equal Ok E)))
                  C2 ltac:(congruence) Hj) as [C3 I3]
  end.
  subst out.
  match goal with
  | Hs : df_setitem (KStr "Resistance") _ ?d = Ok _ |- _ =>
      rewrite (df_setitem_column_other (KStr "Resistance") (KStr "RSI") _ _ _
                 eq_refl Hs)
  end.
  match goal with
  | Hs : df_setitem (KStr "Support") _ ?d = Ok _ |- _ =>
      rewrite (df_setitem_column_other (KStr "Support") (KStr "RSI") _ _ _
                 eq_refl Hs)
  end.
  exact C3.
Qed.

Lemma rsi_column_is_what_rsi_returned_witness :
  df_column (KStr "RSI") week_table = Some (rsi_column None (length week_bars)).
Proof.
  apply (rsi_column_is_what_rsi_returned week_world "AAPL" "1wk" "1d" week_bars
           [ Fetch (ReqHistory "AAPL" "1wk" "1d");
             Log WARNING (MsgMacdNotCalculated "AAPL") ]).
  - reflexivity.
  - simpl. repeat constructor; simpl; intuition discriminate.
  - split; intros s f H.
    + unfold week_world, ta_macd, sketch_macd in H.
      destruct (length (s_values s) <? 26)%nat; inversion H. reflexivity.
    + unfold week_world, ta_bbands, sketch_bbands in H.
      destruct (length (s_values s) <? 5)%nat; inversion H. reflexivity.
  - vm_compute. reflexivity.
  - reflexivity.
  - intros s H. discriminate H.
  - reflexivity.
Defined.

(* ===================================================================== *)
(** * [get_price_history]: [None] is an omission, an exception is not caught *)
(* ===================================================================== *)

(** Assigning another column leaves [df["Close"]] as it was. *)
Lemma getitem_close_after_setitem (name : pykey) value (df df' : DataFrame)
  (s : Series) :
  pykey_eqb (KStr "Close") name = false ->
  df_setitem name value df = Ok df' ->
  df_getitem (KStr "Close") df = Ok s ->
  df_getitem (KStr "Close") df' = Ok s.
Proof.
  intros Hne Hset Hget. unfold df_getitem in *.
  rewrite (df_setitem_column_other name (KStr "Close") value df df' Hne Hset).
  apply df_setitem_ok in Hset. destruct Hset as [-> _]. exact Hget.
Qed.

(** What the indicator pipeline raises, the tool raises: nothing is logged
    and nothing is returned in its place. *)
Lemma price_history_raises (w : World) (symbol period interval : string)
  (bars : list bar) (t : list event) (e : exn) :
  yf_history w symbol period interval = Ok bars ->
  bars <> [] ->
  add_indicators w symbol (history_frame bars) = (t, Raise e) ->
  get_price_history w symbol period interval
  = (Fetch (ReqHistory symbol period interval) :: t, Raise e).
Proof.
  intros Hbars Hne Hadd. unfold get_price_history.
  rewrite (get_price_history_table_nonempty w symbol period interval bars Hbars Hne).
  rewrite Hadd. reflexivity.
Qed.

(** The table the pipeline ends with is the one serialized and returned. *)
Lemma price_history_returns (w : World) (symbol period interval : string)
  (bars : list bar) (t : list event) (out : DataFrame) :
  yf_history w symbol period interval = Ok bars ->
  bars <> [] ->
  add_indicators w symbol (history_frame bars) = (t, Ok out) ->
  get_price_history_table w symbol period interval
  = (Fetch (ReqHistory symbol period interval) :: t, Ok (MarkdownOf out)) /\
  forall text, to_markdown w out = Ok text ->
    get_price_history w symbol period interval
    = (Fetch (ReqHistory symbol period interval)
         :: t ++ [Log INFO (MsgRetrievedPriceHistory symbol period interval)],
       Ok text).
Proof.
  intros Hbars Hne Hadd.
  pose proof (get_price_history_table_nonempty w symbol period interval bars
                Hbars Hne) as Htable.
  rewrite Hadd in Htable. simpl in Htable. split; [exact Htable |].
  intros text Hmd. unfold get_price_history. rewrite Htable.
  unfold bind. simpl. rewrite Hmd. reflexivity.
Qed.

(** C2, amended. On a non-empty fetched series [get_price_history] has no
    exception handler, and only a [None] result is an omission.

    Exceptions: an exception raised by a call the function makes of
    [ta.rsi], of [ta.macd] or of [ta.bbands] is what the function raises,
    with nothing logged about it.  [ta.rsi] is always called on the fetched
    closes; [ta.macd] is called on them once the RSI assignment went
    through; [ta.bbands] is called on the Close column of the frame the MACD
    step left, whether MACD was computed and joined or omitted with its
    warning.

    [None]: when [ta.macd] and [ta.bbands] both return [None], one warning
    is logged for each, nothing is joined, and the table is produced and
    serialized: it has the rows and the fetched columns of the series,
    every column other than Support and Resistance is as the RSI assignment
    left it, and Support and Resistance are the rolling minimum and maximum
    of the fetched closes. *)
Theorem none_is_omitted_exceptions_propagate
  (w : World) (symbol period interval : string) (bars : list bar) :
  yf_history w symbol period interval = Ok bars ->
  bars <> [] ->
  let closes := close_series bars in
  let fetched := Fetch (ReqHistory symbol period interval) in
  let run := get_price_history w symbol period interval in
  (forall e, ta_rsi w closes = Raise e -> run = ([fetched], Raise e)) /\
  (forall r df1 e,
      ta_rsi w closes = Ok r ->
      df_setitem (KStr "RSI") r (history_frame bars) = Ok df1 ->
      ta_macd w closes = Raise e ->
      run = ([fetched], Raise e)) /\
  (forall r df1 macd t df2 close e,
      ta_rsi w closes = Ok r ->
      df_setitem (KStr "RSI") r (history_frame bars) = Ok df1 ->
      ta_macd w closes = Ok macd ->
      match macd with
      | Some m => lift (df_join df1 m)
      | None => bind (log WARNING (MsgMacdNotCalculated symbol)) (fun _ => ret df1)
      end = (t, Ok df2) ->
      df_getitem (KStr "Close") df2 = Ok close ->
      ta_bbands w close = Raise e ->
      run = (fetched :: t, Raise e)) /\
  (forall r df1,
      ta_rsi w closes = Ok r ->
      df_setitem (KStr "RSI") r (history_frame bars) = Ok df1 ->
      ta_macd w closes = Ok None ->
      ta_bbands w closes = Ok None ->
      exists out,
        get_price_history_table w symbol period interval
        = ([ fetched;
             Log WARNING (MsgMacdNotCalculated symbol);
             Log WARNING (MsgBollingerNotCalculated symbol) ],
           Ok (MarkdownOf out)) /\
        (forall text, to_markdown w out = Ok text ->
           run = ([ fetched;
                    Log WARNING (MsgMacdNotCalculated symbol);
                    Log WARNING (MsgBollingerNotCalculated symbol);
                    Log INFO (MsgRetrievedPriceHistory symbol period interval) ],
                  Ok text)) /\
        rows_preserved bars out /\
        (forall name, name <> KStr "Support" -> name <> KStr "Resistance" ->
           df_column name out = df_column name df1) /\
        df_column (KStr "Support") out = Some (s_values (rolling_min 20 1 closes)) /\
        df_column (KStr "Resistance") out = Some (s_values (rolling_max 20 1 closes))).
Proof.
  intros Hbars Hne closes fetched run. subst closes fetched run.
  pose proof (getitem_close_history bars) as Hclose.
  split; [| split; [| split]].
  - intros e Hrsi.
    apply (price_history_raises w symbol period interval bars [] e Hbars Hne).
    unfold add_indicators. rewrite Hclose, bind_lift_ok, Hrsi. reflexivity.
  - intros r df1 e Hrsi Hset Hmacd.
    apply (price_history_raises w symbol period interval bars [] e Hbars Hne).
    unfold add_indicators.
    rewrite Hclose, bind_lift_ok, Hrsi, bind_lift_ok, Hset, bind_lift_ok.
    rewrite (getitem_close_after_setitem (KStr "RSI") _ _ _ _ eq_refl Hset Hclose).
    rewrite bind_lift_ok, Hmacd. reflexivity.
  - intros r df1 macd t df2 close e Hrsi Hset Hmacd Hstage Hget Hbb.
    apply (price_history_raises w symbol period interval bars t e Hbars Hne).
    unfold add_indicators.
    rewrite Hclose, bind_lift_ok, Hrsi, bind_lift_ok, Hset, bind_lift_ok.
    rewrite (getitem_close_after_setitem (KStr "RSI") _ _ _ _ eq_refl Hset Hclose).
    rewrite bind_lift_ok, Hmacd, bind_lift_ok.
    rewrite (bind_run _ _ t df2 Hstage).
    rewrite Hget, bind_lift_ok, Hbb. simpl. now rewrite app_nil_r.
  - intros r df1 Hrsi Hset Hmacd Hbb.
    pose proof (getitem_close_after_setitem (KStr "RSI") _ _ _ _ eq_refl Hset Hclose) as Hclose1.
    pose proof (df_setitem_ok _ _ _ _ Hset) as [Hidx1 _].
    assert (Hsup : df_setitem (KStr "Support")
                     (Some (rolling_min 20 1 (close_series bars))) df1
                   = Ok (mkFrame (df_index df1)
                           (column_assign (KStr "Support")
                              (s_values (rolling_min 20 1 (close_series bars)))
                              (df_columns df1))))
      by (apply df_setitem_aligned; now rewrite Hidx1).
    pose proof (getitem_close_after_setitem (KStr "Support") _ _ _ _ eq_refl Hsup Hclose1) as Hclose2.
    set (df3 := mkFrame (df_index df1)
                  (column_assign (KStr "Support")
                     (s_values (rolling_min 20 1 (close_series bars)))
                     (df_columns df1))) in *.
    assert (Hres : df_setitem (KStr "Resistance")
                     (Some (rolling_max 20 1 (close_series bars))) df3
                   = Ok (mkFrame (df_index df3)
                           (column_assign (KStr "Resistance")
                              (s_values (rolling_max 20 1 (close_series bars)))
                              (df_columns df3))))
      by (apply df_setitem_aligned; simpl; now rewrite Hidx1).
    set (out := mkFrame (df_index df3)
                  (column_assign (KStr "Resistance")
                     (s_values (rolling_max 20 1 (close_series bars)))
                     (df_columns df3))) in *.
    assert (Hadd : add_indicators w symbol (history_frame bars)
                   = ([ Log WARNING (MsgMacdNotCalculated symbol);
                        Log WARNING (MsgBollingerNotCalculated symbol) ], Ok out)).
    { unfold add_indicators.
      rewrite Hclose, bind_lift_ok, Hrsi, bind_lift_ok, Hset, bind_lift_ok.
      rewrite Hclose1, bind_lift_ok, Hmacd, bind_lift_ok, bind_log_ret.
      rewrite Hclose1, bind_lift_ok, Hbb, bind_lift_ok, bind_log_ret.
      rewrite Hclose1, bind_lift_ok, Hsup, bind_lift_ok.
      rewrite Hclose2, bind_lift_ok, Hres, bind_lift_ok. reflexivity. }
    destruct (price_history_returns w symbol period interval bars _ out
                Hbars Hne Hadd) as [Htable Htext].
    exists out. split; [exact Htable |]. split; [exact Htext |].
    assert (Hother : forall name,
               name <> KStr "Support" -> name <> KStr "Resistance" ->
               df_column name out = df_column name df1).
    { intros name Hs Hr.
      rewrite (df_setitem_column_other (KStr "Resistance") name _ df3 out
                 (proj2 (pykey_eqb_neq _ _) Hr) Hres).
      apply (df_setitem_column_other (KStr "Support") name _ df1 df3
               (proj2 (pykey_eqb_neq _ _) Hs) Hsup). }
    split; [| split; [exact Hother | split]].
    + split; [exact Hidx1 |].
      intros name Hin.
      destruct (history_names_fresh bars name Hin) as (Hn1 & Hn2 & Hn3).
      rewrite Hother by (now apply pykey_eqb_neq).
      exact (df_setitem_column_other (KStr "RSI") name _ _ _ Hn1 Hset).
    + rewrite (df_setitem_column_other (KStr "Resistance") (KStr "Support") _ df3 out
                 eq_refl Hres).
      unfold df_column, df3. simpl. apply column_lookup_assign_same.
    + unfold df_column, out. simpl. apply column_lookup_assign_same.
Qed.

Lemma none_is_omitted_exceptions_propagate_witness :
  get_price_history failing_rsi_world "AAPL" "1wk" "1d"
  = ([Fetch (ReqHistory "AAPL" "1wk" "1d")], Raise rsi_failure) /\
  get_price_history failing_macd_world "AAPL" "1wk" "1d"
  = ([Fetch (ReqHistory "AAPL" "1wk" "1d")], Raise macd_failure) /\
  get_price_history failing_bbands_world "AAPL" "1wk" "1d"
  = ([Fetch (ReqHistory "AAPL" "1wk" "1d")], Raise bbands_failure) /\
  exists out,
    get_price_history_table two_day_world "AAPL" "1wk" "1d"
    = ([ Fetch (ReqHistory "AAPL" "1wk" "1d");
         Log WARNING (MsgMacdNotCalculated "AAPL");
         Log WARNING (MsgBollingerNotCalculated "AAPL") ],
       Ok (MarkdownOf out)) /\
    get_price_history two_day_world "AAPL" "1wk" "1d"
    = ([ Fetch (ReqHistory "AAPL" "1wk" "1d");
         Log WARNING (MsgMacdNotCalculated "AAPL");
         Log WARNING (MsgBollingerNotCalculated "AAPL");
         Log INFO (MsgRetrievedPriceHistory "AAPL" "1wk" "1d") ],
       Ok "<markdown>") /\
    rows_preserved (firstn 2 week_bars) out /\
    df_column (KStr "MACD_12_26_9") out = None /\
    df_column (KStr "BBM_5_2.0") out = None /\
    df_column (KStr "Support") out = Some [VFloat (18564#100); VFloat (18425#100)] /\
    df_column (KStr "Resistance") out = Some [VFloat (18564#100); VFloat (18564#100)].
Proof.
  split; [| split; [| split]].
  - destruct (none_is_omitted_exceptions_propagate
                failing_rsi_world "AAPL" "1wk" "1d" week_bars eq_refl
                ltac:(discriminate)) as (Hrsi & _).
    apply Hrsi. reflexivity.
  - destruct (none_is_omitted_exceptions_propagate
                failing_macd_world "AAPL" "1wk" "1d" week_bars eq_refl
                ltac:(discriminate)) as (_ & Hmacd & _).
    eapply Hmacd; reflexivity.
  - destruct (none_is_omitted_exceptions_propagate
                failing_bbands_world "AAPL" "1wk" "1d" week_bars eq_refl
                ltac:(discriminate)) as (_ & _ & Hbb & _).
    eapply (Hbb _ _ (Some _)); reflexivity.
  - destruct (none_is_omitted_exceptions_propagate
                two_day_world "AAPL" "1wk" "1d" (firstn 2 week_bars) eq_refl
                ltac:(discriminate)) as (_ & _ & _ & Hnone).
    edestruct (Hnone None) as (out & Htable & Htext & Hrows & Hother & Hsup & Hres);
      try reflexivity.
    exists out. split; [exact Htable |]. split; [apply Htext; reflexivity |].
    split; [exact Hrows |].
    split; [rewrite Hother by discriminate; reflexivity |].
    split; [rewrite Hother by discriminate; reflexivity |].
    split; [exact Hsup | exact Hres].
Defined.
